(** * smbprotocol.messages: the SMB2/3 wire messages

    A shallow embedding of [smbprotocol/messages.py].  Every message class of
    the Python module is a [Structure]: an ordered dictionary of fields, each
    with a size, an optional default (a constant or a lambda over the owning
    structure) and a current value.  Here a message is a record, an unset
    field is [None], a default lambda is a function over the record, and
    [pack]/[unpack] run in an error monad. *)

From Stdlib Require Import ZArith String List Bool Lia.
From Stdlib.Strings Require Import Byte.
Import ListNotations.
Local Open Scope string_scope.
Local Open Scope list_scope.
Local Open Scope Z_scope.

(** ** Python values and exceptions *)

Definition bytes := list byte.

(** Python's [len]. *)
Definition len {A : Type} (l : list A) : Z := Z.of_nat (length l).

(** [data[:n]] and [data[n:]] for the non-negative bounds the module uses. *)
Definition slice_to (n : Z) (data : bytes) : bytes := firstn (Z.to_nat n) data.
Definition slice_from (n : Z) (data : bytes) : bytes := skipn (Z.to_nat n) data.

(** [b"\x00" * n] *)
Definition zeros (n : Z) : bytes := repeat x00 (Z.to_nat n).

Inductive error : Type :=
| TypeError                      (* unsupported operand type(s) *)
| PackError (field : string)     (* the value does not fit the field's size *)
| DecodeError (field : string).  (* the buffer ends before the field does *)

Inductive result (A : Type) : Type :=
| Ok (a : A)
| Err (e : error).
Arguments Ok {A} a.
Arguments Err {A} e.

Definition bind {A B : Type} (c : result A) (k : A -> result B) : result B :=
  match c with
  | Ok a => k a
  | Err e => Err e
  end.

Notation "x <- c ;; k" := (bind c (fun x => k))
  (at level 61, c at next level, right associativity).
Notation "' pat <- c ;; k" := (bind c (fun x => match x with pat => k end))
  (at level 61, pat pattern, c at next level, right associativity).

(** The operands of the one [+] of the module whose types differ. *)
Inductive pyval : Type :=
| PyInt (z : Z)
| PyBytes (b : bytes).

(** Python's [+]: integers add, byte strings concatenate, a mix raises. *)
Definition py_add (a b : pyval) : result pyval :=
  match a, b with
  | PyInt x, PyInt y => Ok (PyInt (x + y))
  | PyBytes x, PyBytes y => Ok (PyBytes (x ++ y))
  | _, _ => Err TypeError
  end.

(** ** The field classes of [smbprotocol.structure] *)

Inductive byte_order : Type := LittleEndian | BigEndian.

(** Modelled from the spec: what a byte field does when fewer bytes are left
    than its size ([smbprotocol/structure.py] is not part of the sources).
    The written description of the codec asks for a decode failure
    ([Reject]); a Python slice would hand over the bytes that are left
    ([Truncate]).  Every statement about [unpack] below holds for both. *)
Inductive short_read : Type := Reject | Truncate.

Definition byte_of_Z (z : Z) : byte :=
  match Byte.of_N (Z.to_N (z mod 256)) with
  | Some b => b
  | None => x00
  end.

Definition Z_of_byte (b : byte) : Z := Z.of_N (Byte.to_N b).

Fixpoint le_bytes (size : nat) (v : Z) : bytes :=
  match size with
  | O => []
  | S n => byte_of_Z v :: le_bytes n (v / 256)
  end.

Fixpoint le_value (b : bytes) : Z :=
  match b with
  | [] => 0
  | x :: r => Z_of_byte x + 256 * le_value r
  end.

Definition int_bytes (order : byte_order) (size : nat) (v : Z) : bytes :=
  match order with
  | LittleEndian => le_bytes size v
  | BigEndian => rev (le_bytes size v)
  end.

Definition int_value (order : byte_order) (b : bytes) : Z :=
  match order with
  | LittleEndian => le_value b
  | BigEndian => le_value (rev b)
  end.

(** Modelled from the spec: [smbprotocol/structure.py] is not part of the
    sources; the field classes below follow the Field Descriptor of the
    written description.  An unset value is [None]; for an integer field
    [None] stands for zero (the module's own note: "None is \x00 * size"). *)
Definition int_of_none (v : option Z) : Z :=
  match v with
  | Some z => z
  | None => 0
  end.

(** Modelled from the spec: the resolved value of a field ([get_value]) is
    the explicit value when one was set and the default otherwise. *)
Definition resolve {A : Type} (v : option A) (default : A) : A :=
  match v with
  | Some x => x
  | None => default
  end.

(** Modelled from the spec: [IntField.pack] encodes the resolved value in the
    field's byte order and fails when it does not fit the size. *)
Definition IntField_pack (name : string) (size : nat) (order : byte_order)
    (v : Z) : result bytes :=
  if (0 <=? v) && (v <? 2 ^ (8 * Z.of_nat size))
  then Ok (int_bytes order size v)
  else Err (PackError name).

(** Modelled from the spec: [IntField.unpack] consumes exactly [size] bytes
    from the front of the buffer and returns the rest. *)
Definition IntField_unpack (name : string) (size : nat) (order : byte_order)
    (data : bytes) : result (Z * bytes) :=
  if (length data <? size)%nat
  then Err (DecodeError name)
  else Ok (int_value order (firstn size data), skipn size data).

(** Modelled from the spec: [BytesField.pack]; a field without a size takes
    any value, a sized one fails unless the value has exactly that length. *)
Definition BytesField_pack (name : string) (size : option Z) (v : bytes)
    : result bytes :=
  match size with
  | None => Ok v
  | Some n => if len v =? n then Ok v else Err (PackError name)
  end.

(** Modelled from the spec: [BytesField.unpack]; a field without a size takes
    the whole buffer. *)
Definition BytesField_unpack (sr : short_read) (name : string)
    (size : option Z) (data : bytes) : result (bytes * bytes) :=
  match size with
  | None => Ok (data, [])
  | Some n =>
      if len data <? n
      then match sr with
           | Reject => Err (DecodeError name)
           | Truncate => Ok (data, [])
           end
      else Ok (slice_to n data, slice_from n data)
  end.

(** Modelled from the spec: a fixed-size byte field that was never set packs
    as zero bytes ("None is \x00 * size"). *)
Definition bytes_of_none (size : Z) (v : option bytes) : bytes :=
  resolve v (zeros size).

(** Modelled from the spec: a [ListField] of fixed-size integers packs its
    items one after the other. *)
Fixpoint ints_pack (name : string) (size : nat) (items : list Z)
    : result bytes :=
  match items with
  | [] => Ok []
  | i :: rest =>
      b <- IntField_pack name size LittleEndian i ;;
      r <- ints_pack name size rest ;;
      Ok (b ++ r)
  end.

(** Modelled from the spec: decoding [count] items of [size] bytes each. *)
Fixpoint ints_unpack (name : string) (size : nat) (count : nat) (data : bytes)
    : result (list Z * bytes) :=
  match count with
  | O => Ok ([], data)
  | S n =>
      '(i, data) <- IntField_unpack name size LittleEndian data ;;
      '(r, data) <- ints_unpack name size n data ;;
      Ok (i :: r, data)
  end.

(** Modelled from the spec: the sized [ListField] of integers; [size] bytes
    are cut off the buffer and [list_count] items decoded from them. *)
Definition IntListField_unpack (sr : short_read) (name : string)
    (elem : nat) (size count : Z) (data : bytes) : result (list Z * bytes) :=
  '(raw, data) <- BytesField_unpack sr name (Some size) data ;;
  '(items, _) <- ints_unpack name elem (Z.to_nat count) raw ;;
  Ok (items, data).

(** Modelled from the spec: a sized [ListField] or [StructureField] fails to
    pack unless its packed value has exactly the declared size. *)
Definition check_size (name : string) (size : Z) (packed : bytes)
    : result bytes :=
  BytesField_pack name (Some size) packed.

(** ** 2.1 Transport *)

Module DirectTCPPacket.

Record t : Type := mk {
  stream_protocol_length : option Z;
  smb2_message : bytes
}.

Definition new : t := mk None [].

(** [default=lambda s: len(s['smb2_message'])] *)
Definition get_stream_protocol_length (s : t) : Z :=
  resolve (stream_protocol_length s) (len (smb2_message s)).

Definition pack (s : t) : result bytes :=
  f1 <- IntField_pack "stream_protocol_length" 4 BigEndian
          (get_stream_protocol_length s) ;;
  f2 <- BytesField_pack "smb2_message"
          (Some (get_stream_protocol_length s)) (smb2_message s) ;;
  Ok (f1 ++ f2).

Definition unpack (sr : short_read) (data : bytes) : result t :=
  '(l, data) <- IntField_unpack "stream_protocol_length" 4 BigEndian data ;;
  '(m, _) <- BytesField_unpack sr "smb2_message" (Some l) data ;;
  Ok (mk (Some l) m).

End DirectTCPPacket.

(** ** 2.2.2 SMB2 Error Response *)

Module SMB2ErrorContextResponse.

Record t : Type := mk {
  error_data_length : option Z;
  error_id : option Z;
  error_context_data : bytes
}.

Definition new : t := mk None None [].

(** [default=lambda s: len(s['error_context_data'])] *)
Definition get_error_data_length (s : t) : Z :=
  resolve (error_data_length s) (len (error_context_data s)).

(** [len(structure)]: the sum of the fields' lengths. *)
Definition length (s : t) : Z := 4 + 4 + len (error_context_data s).

Definition pack (s : t) : result bytes :=
  f1 <- IntField_pack "error_data_length" 4 LittleEndian
          (get_error_data_length s) ;;
  f2 <- IntField_pack "error_id" 4 LittleEndian (int_of_none (error_id s)) ;;
  f3 <- BytesField_pack "error_context_data"
          (Some (get_error_data_length s)) (error_context_data s) ;;
  Ok (f1 ++ f2 ++ f3).

(** The [ListField] of error contexts packs its entries back to back. *)
Fixpoint pack_list (l : list t) : result bytes :=
  match l with
  | [] => Ok []
  | e :: rest =>
      b <- pack e ;;
      r <- pack_list rest ;;
      Ok (b ++ r)
  end.

Fixpoint length_list (l : list t) : Z :=
  match l with
  | [] => 0
  | e :: rest => length e + length_list rest
  end.

End SMB2ErrorContextResponse.

Module SMB2ErrorResponse.

Record t : Type := mk {
  structure_size : option Z;
  error_context_count : option Z;
  reserved : option Z;
  byte_count : option Z;
  error_data : list SMB2ErrorContextResponse.t
}.

Definition new : t := mk None None None None [].

Definition get_structure_size (s : t) : Z := resolve (structure_size s) 9.

(** [default=lambda s: len(s['error_data'].get_value())] *)
Definition get_error_context_count (s : t) : Z :=
  resolve (error_context_count s) (len (error_data s)).

(** [default=lambda s: len(s['error_data'])] *)
Definition get_byte_count (s : t) : Z :=
  resolve (byte_count s) (SMB2ErrorContextResponse.length_list (error_data s)).

(** [_error_data_value]: "TODO: add code to parse data into a list". *)
Definition _error_data_value (structure : t) (data : bytes)
    : list SMB2ErrorContextResponse.t :=
  [].

Definition pack (s : t) : result bytes :=
  f1 <- IntField_pack "structure_size" 2 LittleEndian (get_structure_size s) ;;
  f2 <- IntField_pack "error_context_count" 1 LittleEndian
          (get_error_context_count s) ;;
  f3 <- IntField_pack "reserved" 1 LittleEndian (int_of_none (reserved s)) ;;
  f4 <- IntField_pack "byte_count" 4 LittleEndian (get_byte_count s) ;;
  l <- SMB2ErrorContextResponse.pack_list (error_data s) ;;
  f5 <- check_size "error_data" (get_byte_count s) l ;;
  Ok (f1 ++ f2 ++ f3 ++ f4 ++ f5).

Definition unpack (sr : short_read) (data : bytes) : result t :=
  '(ss, data) <- IntField_unpack "structure_size" 2 LittleEndian data ;;
  '(ecc, data) <- IntField_unpack "error_context_count" 1 LittleEndian data ;;
  '(r, data) <- IntField_unpack "reserved" 1 LittleEndian data ;;
  '(bc, data) <- IntField_unpack "byte_count" 4 LittleEndian data ;;
  let s := mk (Some ss) (Some ecc) (Some r) (Some bc) [] in
  '(raw, _) <- BytesField_unpack sr "error_data" (Some (get_byte_count s)) data ;;
  Ok (mk (Some ss) (Some ecc) (Some r) (Some bc) (_error_data_value s raw)).

End SMB2ErrorResponse.

(** ** 2.2.14.1 SMB2_FILEID and 2.2.31 SMB2 IOCTL Request *)

Module SMB2FileId.

Record t : Type := mk {
  persistent : option bytes;
  volatile : option bytes
}.

Definition new : t := mk None None.

Definition pack (s : t) : result bytes :=
  f1 <- BytesField_pack "persistent" (Some 8) (bytes_of_none 8 (persistent s)) ;;
  f2 <- BytesField_pack "volatile" (Some 8) (bytes_of_none 8 (volatile s)) ;;
  Ok (f1 ++ f2).

End SMB2FileId.

Module SMB2IOCTLRequest.

Record t : Type := mk {
  structure_size : option Z;
  reserved : option Z;
  ctl_code : option Z;
  file_id : SMB2FileId.t;
  input_offset : option Z;
  input_count : option Z;
  max_input_response : option Z;
  output_offset : option Z;
  output_count : option Z;
  max_output_response : option Z;
  flags : option Z;
  reserved2 : option Z;
  buffer : bytes
}.

Definition new : t :=
  mk None None None SMB2FileId.new None None None None None None None None [].

Definition get_structure_size (s : t) : Z := resolve (structure_size s) 57.

(** The offset from the beginning of the SMB2 header to the value of the
    buffer, 0 if no buffer is set. *)
Definition _buffer_offset_value (structure : t) : Z :=
  if len (buffer structure) >? 0
  then
    let header_size := 64 in
    let request_size := get_structure_size structure in
    header_size + request_size - 1
  else 0.

Definition get_input_offset (s : t) : Z :=
  resolve (input_offset s) (_buffer_offset_value s).

(** [default=lambda s: len(s['buffer'])] *)
Definition get_input_count (s : t) : Z :=
  resolve (input_count s) (len (buffer s)).

Definition get_output_offset (s : t) : Z :=
  resolve (output_offset s) (_buffer_offset_value s).

Definition get_output_count (s : t) : Z := resolve (output_count s) 0.

Definition pack (s : t) : result bytes :=
  f1 <- IntField_pack "structure_size" 2 LittleEndian (get_structure_size s) ;;
  f2 <- IntField_pack "reserved" 2 LittleEndian (resolve (reserved s) 0) ;;
  f3 <- IntField_pack "ctl_code" 4 LittleEndian (int_of_none (ctl_code s)) ;;
  fid <- SMB2FileId.pack (file_id s) ;;
  f4 <- check_size "file_id" 16 fid ;;
  f5 <- IntField_pack "input_offset" 4 LittleEndian (get_input_offset s) ;;
  f6 <- IntField_pack "input_count" 4 LittleEndian (get_input_count s) ;;
  f7 <- IntField_pack "max_input_response" 4 LittleEndian
          (int_of_none (max_input_response s)) ;;
  f8 <- IntField_pack "output_offset" 4 LittleEndian (get_output_offset s) ;;
  f9 <- IntField_pack "output_count" 4 LittleEndian (get_output_count s) ;;
  f10 <- IntField_pack "max_output_response" 4 LittleEndian
           (int_of_none (max_output_response s)) ;;
  f11 <- IntField_pack "flags" 4 LittleEndian (int_of_none (flags s)) ;;
  f12 <- IntField_pack "reserved2" 4 LittleEndian (resolve (reserved2 s) 0) ;;
  f13 <- BytesField_pack "buffer" (Some (get_input_count s)) (buffer s) ;;
  Ok (f1 ++ f2 ++ f3 ++ f4 ++ f5 ++ f6 ++ f7 ++ f8 ++ f9 ++ f10 ++ f11
         ++ f12 ++ f13).

End SMB2IOCTLRequest.

(** ** 2.2.3 SMB2 Negotiate Request and its negotiate contexts *)

(** Modelled from the spec: [smbprotocol/constants.py] is not part of the
    sources; these are the constants the module compares against, with the
    values [MS-SMB2] gives them (0x0311 is the 3.1.1 dialect). *)
Module Dialects.
Definition SMB_3_1_1 : Z := 0x0311.
End Dialects.

Module NegotiateContextType.
Definition SMB2_PREAUTH_INTEGRITY_CAPABILITIES : Z := 0x0001.
Definition SMB2_ENCRYPTION_CAPABILITIES : Z := 0x0002.
End NegotiateContextType.

(** [struct.unpack("<H", b)[0]]: raises unless [b] has exactly two bytes. *)
Definition struct_unpack_H (b : bytes) : result Z :=
  if (List.length b =? 2)%nat then Ok (le_value b) else Err (DecodeError "struct").

Module SMB2PreauthIntegrityCapabilities.

Record t : Type := mk {
  hash_algorithm_count : option Z;
  salt_length : option Z;
  hash_algorithms : list Z;
  salt : bytes
}.

Definition new : t := mk None None [] [].

Definition get_hash_algorithm_count (s : t) : Z :=
  resolve (hash_algorithm_count s) (len (hash_algorithms s)).

Definition get_salt_length (s : t) : Z :=
  resolve (salt_length s) (len (salt s)).

Definition length (s : t) : Z :=
  2 + 2 + 2 * len (hash_algorithms s) + len (salt s).

Definition pack (s : t) : result bytes :=
  f1 <- IntField_pack "hash_algorithm_count" 2 LittleEndian
          (get_hash_algorithm_count s) ;;
  f2 <- IntField_pack "salt_length" 2 LittleEndian (get_salt_length s) ;;
  l <- ints_pack "hash_algorithms" 2 (hash_algorithms s) ;;
  f3 <- check_size "hash_algorithms" (get_hash_algorithm_count s * 2) l ;;
  f4 <- BytesField_pack "salt" (Some (get_salt_length s)) (salt s) ;;
  Ok (f1 ++ f2 ++ f3 ++ f4).

Definition unpack (sr : short_read) (data : bytes) : result t :=
  '(c, data) <- IntField_unpack "hash_algorithm_count" 2 LittleEndian data ;;
  '(sl, data) <- IntField_unpack "salt_length" 2 LittleEndian data ;;
  '(h, data) <- IntListField_unpack sr "hash_algorithms" 2 (c * 2) c data ;;
  '(st, _) <- BytesField_unpack sr "salt" (Some sl) data ;;
  Ok (mk (Some c) (Some sl) h st).

End SMB2PreauthIntegrityCapabilities.

Module SMB2EncryptionCapabilities.

Record t : Type := mk {
  cipher_count : option Z;
  ciphers : list Z
}.

Definition new : t := mk None [].

Definition get_cipher_count (s : t) : Z :=
  resolve (cipher_count s) (len (ciphers s)).

Definition length (s : t) : Z := 2 + 2 * len (ciphers s).

Definition pack (s : t) : result bytes :=
  f1 <- IntField_pack "cipher_count" 2 LittleEndian (get_cipher_count s) ;;
  l <- ints_pack "ciphers" 2 (ciphers s) ;;
  f2 <- check_size "ciphers" (get_cipher_count s * 2) l ;;
  Ok (f1 ++ f2).

Definition unpack (sr : short_read) (data : bytes) : result t :=
  '(c, data) <- IntField_unpack "cipher_count" 2 LittleEndian data ;;
  '(l, _) <- IntListField_unpack sr "ciphers" 2 (c * 2) c data ;;
  Ok (mk (Some c) l).

End SMB2EncryptionCapabilities.

Module SMB2NegotiateContextRequest.

(** The classes [_data_structure_type] chooses from. *)
Inductive structure_type : Type :=
| SMB2PreauthIntegrityCapabilities_type
| SMB2EncryptionCapabilities_type.

(** The value of the [data] field: one of the two bodies, or the raw bytes
    of a context whose type is not recognised. *)
Inductive context_data : Type :=
| Preauth (p : SMB2PreauthIntegrityCapabilities.t)
| Encryption (e : SMB2EncryptionCapabilities.t)
| Opaque (b : bytes).

Record t : Type := mk {
  context_type : option Z;
  data_length : option Z;
  reserved : option Z;
  data : context_data;
  padding : option bytes
}.

Definition new : t := mk None None None (Opaque []) None.

(** [len(structure['data'])] *)
Definition data_len (d : context_data) : Z :=
  match d with
  | Preauth p => SMB2PreauthIntegrityCapabilities.length p
  | Encryption e => SMB2EncryptionCapabilities.length e
  | Opaque b => len b
  end.

(** [default=lambda s: len(s['data'].get_value())] *)
Definition get_data_length (s : t) : Z :=
  resolve (data_length s) (data_len (data s)).

Definition _data_structure_type (structure : t) : option structure_type :=
  let con_type := int_of_none (context_type structure) in
  if con_type =? NegotiateContextType.SMB2_PREAUTH_INTEGRITY_CAPABILITIES
  then Some SMB2PreauthIntegrityCapabilities_type
  else if con_type =? NegotiateContextType.SMB2_ENCRYPTION_CAPABILITIES
  then Some SMB2EncryptionCapabilities_type
  else None.

Definition _padding_size (structure : t) : Z :=
  let data_size := data_len (data structure) in
  if data_size <=? 8 then 8 - data_size else 8 - (data_size mod 8).

(** [default=lambda s: b"\x00" * self._padding_size(s)] *)
Definition get_padding (s : t) : bytes :=
  resolve (padding s) (zeros (_padding_size s)).

Definition length (s : t) : Z :=
  2 + 2 + 4 + data_len (data s) + len (get_padding s).

Definition pack_data (d : context_data) : result bytes :=
  match d with
  | Preauth p => SMB2PreauthIntegrityCapabilities.pack p
  | Encryption e => SMB2EncryptionCapabilities.pack e
  | Opaque b => Ok b
  end.

Definition pack (s : t) : result bytes :=
  f1 <- IntField_pack "context_type" 2 LittleEndian
          (int_of_none (context_type s)) ;;
  f2 <- IntField_pack "data_length" 2 LittleEndian (get_data_length s) ;;
  f3 <- IntField_pack "reserved" 4 LittleEndian (int_of_none (reserved s)) ;;
  d <- pack_data (data s) ;;
  f4 <- check_size "data" (get_data_length s) d ;;
  f5 <- BytesField_pack "padding" (Some (_padding_size s)) (get_padding s) ;;
  Ok (f1 ++ f2 ++ f3 ++ f4 ++ f5).

Definition unpack_data (sr : short_read) (ty : option structure_type)
    (raw : bytes) : result context_data :=
  match ty with
  | Some SMB2PreauthIntegrityCapabilities_type =>
      p <- SMB2PreauthIntegrityCapabilities.unpack sr raw ;; Ok (Preauth p)
  | Some SMB2EncryptionCapabilities_type =>
      e <- SMB2EncryptionCapabilities.unpack sr raw ;; Ok (Encryption e)
  | None => Ok (Opaque raw)
  end.

Definition unpack (sr : short_read) (data : bytes) : result t :=
  '(ct, data) <- IntField_unpack "context_type" 2 LittleEndian data ;;
  '(dl, data) <- IntField_unpack "data_length" 2 LittleEndian data ;;
  '(r, data) <- IntField_unpack "reserved" 4 LittleEndian data ;;
  let s := mk (Some ct) (Some dl) (Some r) (Opaque []) None in
  '(raw, data) <- BytesField_unpack sr "data" (Some (get_data_length s)) data ;;
  d <- unpack_data sr (_data_structure_type s) raw ;;
  let s := mk (Some ct) (Some dl) (Some r) d None in
  '(pad, _) <- BytesField_unpack sr "padding" (Some (_padding_size s)) data ;;
  Ok (mk (Some ct) (Some dl) (Some r) d (Some pad)).

(** A [ListField] of contexts packs its entries back to back. *)
Fixpoint pack_list (l : list t) : result bytes :=
  match l with
  | [] => Ok []
  | e :: rest =>
      b <- pack e ;;
      r <- pack_list rest ;;
      Ok (b ++ r)
  end.

End SMB2NegotiateContextRequest.

Module SMB3NegotiateRequest.

Record t : Type := mk {
  structure_size : option Z;
  dialect_count : option Z;
  security_mode : option Z;
  reserved : option Z;
  capabilities : option Z;
  client_guid : option bytes;
  negotiate_context_offset : option Z;
  negotiate_context_count : option Z;
  reserved2 : option Z;
  dialects : list Z;
  padding : option bytes;
  negotiate_context_list : list SMB2NegotiateContextRequest.t
}.

Definition new : t :=
  mk None None None None None None None None None [] None [].

Definition get_structure_size (s : t) : Z := resolve (structure_size s) 36.

(** [default=lambda s: len(s['dialects'].get_value())] *)
Definition get_dialect_count (s : t) : Z :=
  resolve (dialect_count s) (len (dialects s)).

(** Padding between the end of the buffer value and the first negotiate
    context value. *)
Definition _padding_size (structure : t) : Z :=
  let mod_ := (get_dialect_count structure * 2) mod 8 in
  if mod_ =? 0 then 0 else mod_.

(** The offset from the beginning of the SMB2 header to the first
    negotiate context; [len(structure['dialects'])] is two bytes an item. *)
Definition _negotiate_context_offset_value (structure : t) : Z :=
  let header_size := 64 in
  let negotiate_size := get_structure_size structure in
  let dialect_size := 2 * len (dialects structure) in
  let padding_size := _padding_size structure in
  header_size + negotiate_size + dialect_size + padding_size.

Definition get_negotiate_context_offset (s : t) : Z :=
  resolve (negotiate_context_offset s) (_negotiate_context_offset_value s).

(** [default=lambda s: len(s['negotiate_context_list'].get_value())] *)
Definition get_negotiate_context_count (s : t) : Z :=
  resolve (negotiate_context_count s) (len (negotiate_context_list s)).

Definition get_padding (s : t) : bytes :=
  resolve (padding s) (zeros (_padding_size s)).

(** The two slices of [_parse_negotiate_context_entry]: the bytes handed to
    the entry, [data[:data_length + 8]], and the bytes left for the next
    one, [data[8 + data_length:]]. *)
Definition entry_slices (data : bytes) : result (bytes * bytes) :=
  data_length <- struct_unpack_H (slice_to 2 (slice_from 2 data)) ;;
  Ok (slice_to (data_length + 8) data, slice_from (8 + data_length) data).

Definition _parse_negotiate_context_entry (sr : short_read) (data : bytes)
    (idx : nat) : result (SMB2NegotiateContextRequest.t * bytes) :=
  '(entry, rest) <- entry_slices data ;;
  negotiate_context <- SMB2NegotiateContextRequest.unpack sr entry ;;
  Ok (negotiate_context, rest).

(** The body of [for idx in range(0, context_count)]. *)
Fixpoint for_idx (sr : short_read) (range : list nat) (data : bytes)
    (context_list : list SMB2NegotiateContextRequest.t)
    : result (list SMB2NegotiateContextRequest.t) :=
  match range with
  | [] => Ok context_list
  | idx :: range =>
      '(field, data) <- _parse_negotiate_context_entry sr data idx ;;
      for_idx sr range data (context_list ++ [field])
  end.

Definition _negotiate_context_list (sr : short_read) (structure : t)
    (data : bytes) : result (list SMB2NegotiateContextRequest.t) :=
  let context_count := get_negotiate_context_count structure in
  for_idx sr (seq 0 (Z.to_nat context_count)) data [].

Definition pack (s : t) : result bytes :=
  f1 <- IntField_pack "structure_size" 2 LittleEndian (get_structure_size s) ;;
  f2 <- IntField_pack "dialect_count" 2 LittleEndian (get_dialect_count s) ;;
  f3 <- IntField_pack "security_mode" 2 LittleEndian
          (int_of_none (security_mode s)) ;;
  f4 <- IntField_pack "reserved" 2 LittleEndian (int_of_none (reserved s)) ;;
  f5 <- IntField_pack "capabilities" 4 LittleEndian
          (int_of_none (capabilities s)) ;;
  f6 <- BytesField_pack "client_guid" (Some 16)
          (bytes_of_none 16 (client_guid s)) ;;
  f7 <- IntField_pack "negotiate_context_offset" 4 LittleEndian
          (get_negotiate_context_offset s) ;;
  f8 <- IntField_pack "negotiate_context_count" 2 LittleEndian
          (get_negotiate_context_count s) ;;
  f9 <- IntField_pack "reserved2" 2 LittleEndian (int_of_none (reserved2 s)) ;;
  l <- ints_pack "dialects" 2 (dialects s) ;;
  f10 <- check_size "dialects" (get_dialect_count s * 2) l ;;
  f11 <- BytesField_pack "padding" (Some (_padding_size s)) (get_padding s) ;;
  f12 <- SMB2NegotiateContextRequest.pack_list (negotiate_context_list s) ;;
  Ok (f1 ++ f2 ++ f3 ++ f4 ++ f5 ++ f6 ++ f7 ++ f8 ++ f9 ++ f10 ++ f11
         ++ f12).

Definition unpack (sr : short_read) (data : bytes) : result t :=
  '(ss, data) <- IntField_unpack "structure_size" 2 LittleEndian data ;;
  '(dc, data) <- IntField_unpack "dialect_count" 2 LittleEndian data ;;
  '(sm, data) <- IntField_unpack "security_mode" 2 LittleEndian data ;;
  '(r, data) <- IntField_unpack "reserved" 2 LittleEndian data ;;
  '(c, data) <- IntField_unpack "capabilities" 4 LittleEndian data ;;
  '(g, data) <- BytesField_unpack sr "client_guid" (Some 16) data ;;
  '(o, data) <- IntField_unpack "negotiate_context_offset" 4 LittleEndian
                  data ;;
  '(n, data) <- IntField_unpack "negotiate_context_count" 2 LittleEndian
                  data ;;
  '(r2, data) <- IntField_unpack "reserved2" 2 LittleEndian data ;;
  '(d, data) <- IntListField_unpack sr "dialects" 2 (dc * 2) dc data ;;
  let s := mk (Some ss) (Some dc) (Some sm) (Some r) (Some c) (Some g)
              (Some o) (Some n) (Some r2) d None [] in
  '(p, data) <- BytesField_unpack sr "padding" (Some (_padding_size s)) data ;;
  l <- _negotiate_context_list sr s data ;;
  Ok (mk (Some ss) (Some dc) (Some sm) (Some r) (Some c) (Some g)
         (Some o) (Some n) (Some r2) d (Some p) l).

End SMB3NegotiateRequest.

(** ** 2.2.4 SMB2 NEGOTIATE Response *)

Module SMB2NegotiateResponse.

Record t : Type := mk {
  structure_size : option Z;
  security_mode : option Z;
  dialect_revision : option Z;
  negotiate_context_count : option Z;
  server_guid : option bytes;
  capabilities : option Z;
  max_transact_size : option Z;
  max_read_size : option Z;
  max_write_size : option Z;
  system_time : option Z;
  server_start_time : option Z;
  security_buffer_offset : option Z;
  security_buffer_length : option Z;
  negotiate_context_offset : option Z;
  buffer : bytes;
  padding : option bytes;
  negotiate_context_list : list SMB2NegotiateContextRequest.t
}.

Definition new : t :=
  mk None None None None None None None None None None None None None None
     [] None [].

Definition get_structure_size (s : t) : Z := resolve (structure_size s) 65.

Definition get_dialect_revision (s : t) : Z :=
  int_of_none (dialect_revision s).

(** If the dialect_revision is SMBv3.1.1, this field specifies the number
    of negotiate contexts in negotiate_context_list; otherwise this field
    must not be used and must be reserved (0). *)
Definition _negotiate_context_count_value (structure : t) : option Z :=
  if get_dialect_revision structure =? Dialects.SMB_3_1_1
  then Some (len (negotiate_context_list structure))
  else None.

Definition get_negotiate_context_count (s : t) : Z :=
  match negotiate_context_count s with
  | Some v => v
  | None => int_of_none (_negotiate_context_count_value s)
  end.

(** (header size 64) + (structure size 64) *)
Definition get_security_buffer_offset (s : t) : Z :=
  resolve (security_buffer_offset s) 128.

(** [default=lambda s: len(s['buffer'].get_value())] *)
Definition get_security_buffer_length (s : t) : Z :=
  resolve (security_buffer_length s) (len (buffer s)).

(** Padding between the end of the buffer value and the first negotiate
    context value so that the first value is 8-byte aligned.  Padding is
    not required if there are not negotiate contexts. *)
Definition _padding_size (structure : t) : Z :=
  if get_negotiate_context_count structure =? 0 then 0
  else
    let mod_ := get_security_buffer_length structure mod 8 in
    if mod_ =? 0 then 0 else 8 - mod_.

Definition _negotiate_context_offset_value (structure : t) : option Z :=
  if get_dialect_revision structure =? Dialects.SMB_3_1_1
  then
    let buffer_offset := get_security_buffer_offset structure in
    let buffer_size := get_security_buffer_length structure in
    let padding_size := _padding_size structure in
    Some (buffer_offset + buffer_size + padding_size)
  else None.

Definition get_negotiate_context_offset (s : t) : Z :=
  match negotiate_context_offset s with
  | Some v => v
  | None => int_of_none (_negotiate_context_offset_value s)
  end.

Definition get_padding (s : t) : bytes :=
  resolve (padding s) (zeros (_padding_size s)).

(** The two slices of [_parse_negotiate_context_entry]: the bytes handed to
    the entry and, past the padding, the bytes left for the next one. *)
Definition entry_slices (data : bytes) : result (bytes * bytes) :=
  data_length <- struct_unpack_H (slice_to 2 (slice_from 2 data)) ;;
  let padded_size := data_length mod 8 in
  let padded_size :=
    if negb (padded_size =? 0) then 8 - padded_size else padded_size in
  Ok (slice_to (data_length + 8) data,
      slice_from (8 + data_length + padded_size) data).

Definition _parse_negotiate_context_entry (sr : short_read) (data : bytes)
    : result (SMB2NegotiateContextRequest.t * bytes) :=
  '(entry, rest) <- entry_slices data ;;
  negotiate_context <- SMB2NegotiateContextRequest.unpack sr entry ;;
  Ok (negotiate_context, rest).

Fixpoint for_idx (sr : short_read) (range : list nat) (data : bytes)
    (context_list : list SMB2NegotiateContextRequest.t)
    : result (list SMB2NegotiateContextRequest.t) :=
  match range with
  | [] => Ok context_list
  | _ :: range =>
      '(field, data) <- _parse_negotiate_context_entry sr data ;;
      for_idx sr range data (context_list ++ [field])
  end.

Definition _negotiate_context_list (sr : short_read) (structure : t)
    (data : bytes) : result (list SMB2NegotiateContextRequest.t) :=
  let context_count := get_negotiate_context_count structure in
  for_idx sr (seq 0 (Z.to_nat context_count)) data [].

Definition pack (s : t) : result bytes :=
  f1 <- IntField_pack "structure_size" 2 LittleEndian (get_structure_size s) ;;
  f2 <- IntField_pack "security_mode" 2 LittleEndian
          (int_of_none (security_mode s)) ;;
  f3 <- IntField_pack "dialect_revision" 2 LittleEndian
          (get_dialect_revision s) ;;
  f4 <- IntField_pack "negotiate_context_count" 2 LittleEndian
          (get_negotiate_context_count s) ;;
  f5 <- BytesField_pack "server_guid" (Some 16)
          (bytes_of_none 16 (server_guid s)) ;;
  f6 <- IntField_pack "capabilities" 4 LittleEndian
          (int_of_none (capabilities s)) ;;
  f7 <- IntField_pack "max_transact_size" 4 LittleEndian
          (int_of_none (max_transact_size s)) ;;
  f8 <- IntField_pack "max_read_size" 4 LittleEndian
          (int_of_none (max_read_size s)) ;;
  f9 <- IntField_pack "max_write_size" 4 LittleEndian
          (int_of_none (max_write_size s)) ;;
  f10 <- IntField_pack "system_time" 8 LittleEndian
           (int_of_none (system_time s)) ;;
  f11 <- IntField_pack "server_start_time" 8 LittleEndian
           (int_of_none (server_start_time s)) ;;
  f12 <- IntField_pack "security_buffer_offset" 2 LittleEndian
           (get_security_buffer_offset s) ;;
  f13 <- IntField_pack "security_buffer_length" 2 LittleEndian
           (get_security_buffer_length s) ;;
  f14 <- IntField_pack "negotiate_context_offset" 4 LittleEndian
           (get_negotiate_context_offset s) ;;
  f15 <- BytesField_pack "buffer" (Some (get_security_buffer_length s))
           (buffer s) ;;
  f16 <- BytesField_pack "padding" (Some (_padding_size s)) (get_padding s) ;;
  f17 <- SMB2NegotiateContextRequest.pack_list (negotiate_context_list s) ;;
  Ok (f1 ++ f2 ++ f3 ++ f4 ++ f5 ++ f6 ++ f7 ++ f8 ++ f9 ++ f10 ++ f11
         ++ f12 ++ f13 ++ f14 ++ f15 ++ f16 ++ f17).

Definition unpack (sr : short_read) (data : bytes) : result t :=
  '(ss, data) <- IntField_unpack "structure_size" 2 LittleEndian data ;;
  '(sm, data) <- IntField_unpack "security_mode" 2 LittleEndian data ;;
  '(dr, data) <- IntField_unpack "dialect_revision" 2 LittleEndian data ;;
  '(n, data) <- IntField_unpack "negotiate_context_count" 2 LittleEndian
                  data ;;
  '(g, data) <- BytesField_unpack sr "server_guid" (Some 16) data ;;
  '(c, data) <- IntField_unpack "capabilities" 4 LittleEndian data ;;
  '(mt, data) <- IntField_unpack "max_transact_size" 4 LittleEndian data ;;
  '(mr, data) <- IntField_unpack "max_read_size" 4 LittleEndian data ;;
  '(mw, data) <- IntField_unpack "max_write_size" 4 LittleEndian data ;;
  '(st, data) <- IntField_unpack "system_time" 8 LittleEndian data ;;
  '(sst, data) <- IntField_unpack "server_start_time" 8 LittleEndian data ;;
  '(sbo, data) <- IntField_unpack "security_buffer_offset" 2 LittleEndian
                    data ;;
  '(sbl, data) <- IntField_unpack "security_buffer_length" 2 LittleEndian
                    data ;;
  '(o, data) <- IntField_unpack "negotiate_context_offset" 4 LittleEndian
                  data ;;
  '(b, data) <- BytesField_unpack sr "buffer" (Some sbl) data ;;
  let s := mk (Some ss) (Some sm) (Some dr) (Some n) (Some g) (Some c)
              (Some mt) (Some mr) (Some mw) (Some st) (Some sst) (Some sbo)
              (Some sbl) (Some o) b None [] in
  '(p, data) <- BytesField_unpack sr "padding" (Some (_padding_size s)) data ;;
  l <- _negotiate_context_list sr s data ;;
  Ok (mk (Some ss) (Some sm) (Some dr) (Some n) (Some g) (Some c)
         (Some mt) (Some mr) (Some mw) (Some st) (Some sst) (Some sbo)
         (Some sbl) (Some o) b (Some p) l).

End SMB2NegotiateResponse.

(** ** 2.2.13 SMB2 CREATE Request and its create contexts *)

Module SMB2CreateContextRequest.

(** [buffer_name] is the name tag as it stands on the wire. *)
Record t : Type := mk {
  next : option Z;
  name_offset : option Z;
  name_length : option Z;
  reserved : option Z;
  data_offset : option Z;
  data_length : option Z;
  buffer_name : bytes;
  padding : option bytes;
  buffer_data : bytes
}.

Definition new : t := mk None None None None None None [] None [].

Definition get_next (s : t) : Z := int_of_none (next s).

Definition get_name_offset (s : t) : Z := resolve (name_offset s) 16.

(** [default=lambda s: len(s['buffer_name'])] *)
Definition get_name_length (s : t) : Z :=
  resolve (name_length s) (len (buffer_name s)).

(** [default=lambda s: len(s['buffer_data'])] *)
Definition get_data_length (s : t) : Z :=
  resolve (data_length s) (len (buffer_data s)).

Definition _padding_size (structure : t) : Z :=
  if get_data_length structure =? 0 then 0
  else
    let mod_ := get_data_length structure mod 8 in
    if mod_ =? 0 then 0 else 8 - mod_.

Definition get_padding (s : t) : bytes :=
  resolve (padding s) (zeros (_padding_size s)).

Definition _buffer_data_offset (structure : t) : Z :=
  if get_data_length structure =? 0 then 0
  else get_name_offset structure + len (get_padding structure).

Definition get_data_offset (s : t) : Z :=
  resolve (data_offset s) (_buffer_data_offset s).

(** [len(structure)] *)
Definition length (s : t) : Z :=
  4 + 2 + 2 + 2 + 2 + 4
  + len (buffer_name s) + len (get_padding s) + len (buffer_data s).

Definition pack (s : t) : result bytes :=
  f1 <- IntField_pack "next" 4 LittleEndian (get_next s) ;;
  f2 <- IntField_pack "name_offset" 2 LittleEndian (get_name_offset s) ;;
  f3 <- IntField_pack "name_length" 2 LittleEndian (get_name_length s) ;;
  f4 <- IntField_pack "reserved" 2 LittleEndian (int_of_none (reserved s)) ;;
  f5 <- IntField_pack "data_offset" 2 LittleEndian (get_data_offset s) ;;
  f6 <- IntField_pack "data_length" 4 LittleEndian (get_data_length s) ;;
  f7 <- BytesField_pack "buffer_name" (Some (get_name_length s))
          (buffer_name s) ;;
  f8 <- BytesField_pack "padding" (Some (_padding_size s)) (get_padding s) ;;
  f9 <- BytesField_pack "buffer_data" (Some (get_data_length s))
          (buffer_data s) ;;
  Ok (f1 ++ f2 ++ f3 ++ f4 ++ f5 ++ f6 ++ f7 ++ f8 ++ f9).

Definition unpack (sr : short_read) (data : bytes) : result t :=
  '(n, data) <- IntField_unpack "next" 4 LittleEndian data ;;
  '(no, data) <- IntField_unpack "name_offset" 2 LittleEndian data ;;
  '(nl, data) <- IntField_unpack "name_length" 2 LittleEndian data ;;
  '(r, data) <- IntField_unpack "reserved" 2 LittleEndian data ;;
  '(do, data) <- IntField_unpack "data_offset" 2 LittleEndian data ;;
  '(dl, data) <- IntField_unpack "data_length" 4 LittleEndian data ;;
  '(bn, data) <- BytesField_unpack sr "buffer_name" (Some nl) data ;;
  let s := mk (Some n) (Some no) (Some nl) (Some r) (Some do) (Some dl)
              bn None [] in
  '(p, data) <- BytesField_unpack sr "padding" (Some (_padding_size s)) data ;;
  '(bd, _) <- BytesField_unpack sr "buffer_data" (Some dl) data ;;
  Ok (mk (Some n) (Some no) (Some nl) (Some r) (Some do) (Some dl)
         bn (Some p) bd).

Fixpoint pack_list (l : list t) : result bytes :=
  match l with
  | [] => Ok []
  | e :: rest =>
      b <- pack e ;;
      r <- pack_list rest ;;
      Ok (b ++ r)
  end.

(** [len] of a [ListField] of contexts. *)
Fixpoint length_list (l : list t) : Z :=
  match l with
  | [] => 0
  | e :: rest => length e + length_list rest
  end.

End SMB2CreateContextRequest.

Module SMB2CreateRequest.

Record t : Type := mk {
  structure_size : option Z;
  security_flags : option Z;
  requested_oplock_level : option Z;
  impersonation_level : option Z;
  smb_create_flags : option Z;
  reserved : option Z;
  desired_access : option Z;
  file_attributes : option Z;
  share_access : option Z;
  create_disposition : option Z;
  create_options : option Z;
  name_offset : option Z;
  name_length : option Z;
  create_contexts_offset : option Z;
  create_contexts_length : option Z;
  buffer_path : bytes;
  padding : option bytes;
  buffer_context : list SMB2CreateContextRequest.t
}.

Definition new : t :=
  mk None None None None None None None None None None None None None None
     None [] None [].

Definition get_structure_size (s : t) : Z := resolve (structure_size s) 57.

(** (header size 64) + (structure size 56) *)
Definition get_name_offset (s : t) : Z := resolve (name_offset s) 120.

(** [default=lambda s: len(s['buffer_path'])] *)
Definition get_name_length (s : t) : Z :=
  resolve (name_length s) (len (buffer_path s)).

(** [default=lambda s: len(s['buffer_context'])] *)
Definition get_create_contexts_length (s : t) : Z :=
  resolve (create_contexts_length s)
          (SMB2CreateContextRequest.length_list (buffer_context s)).

Definition _padding_size (structure : t) : Z :=
  (* no padding is needed if there are no contexts *)
  if SMB2CreateContextRequest.length_list (buffer_context structure) =? 0
  then 0
  else
    let mod_ := get_name_length structure mod 8 in
    if mod_ =? 0 then 0 else 8 - mod_.

(** [structure['padding'].get_value()]: a byte string. *)
Definition get_padding (s : t) : bytes :=
  resolve (padding s) (zeros (_padding_size s)).

Definition _create_contexts_offset (structure : t) : result pyval :=
  if SMB2CreateContextRequest.length_list (buffer_context structure) =? 0
  then Ok (PyInt 0)
  else py_add (PyInt (get_name_offset structure))
              (PyBytes (get_padding structure)).

(** An [IntField] takes an integer. *)
Definition int_of_pyval (v : pyval) : result Z :=
  match v with
  | PyInt z => Ok z
  | PyBytes _ => Err TypeError
  end.

Definition get_create_contexts_offset (s : t) : result Z :=
  match create_contexts_offset s with
  | Some v => Ok v
  | None => v <- _create_contexts_offset s ;; int_of_pyval v
  end.

Definition _parse_create_context_entry (sr : short_read) (data : bytes)
    : result (SMB2CreateContextRequest.t * bytes) :=
  create_context <- SMB2CreateContextRequest.unpack sr data ;;
  Ok (create_context,
      slice_from (SMB2CreateContextRequest.length create_context) data).

(** [while not last_context]; [None] when the fuel runs out. *)
Fixpoint while_not_last (sr : short_read) (fuel : nat) (data : bytes)
    (context_list : list SMB2CreateContextRequest.t)
    : option (result (list SMB2CreateContextRequest.t)) :=
  match fuel with
  | O => None
  | S fuel =>
      match _parse_create_context_entry sr data with
      | Err e => Some (Err e)
      | Ok (field, data) =>
          let last_context := SMB2CreateContextRequest.get_next field =? 0 in
          if last_context then Some (Ok context_list)
          else while_not_last sr fuel data context_list
      end
  end.

Definition _buffer_context_list (sr : short_read) (structure : t)
    (data : bytes) : option (result (list SMB2CreateContextRequest.t)) :=
  while_not_last sr (S (List.length data)) data [].

Definition pack (s : t) : result bytes :=
  f1 <- IntField_pack "structure_size" 2 LittleEndian (get_structure_size s) ;;
  f2 <- IntField_pack "security_flags" 1 LittleEndian
          (int_of_none (security_flags s)) ;;
  f3 <- IntField_pack "requested_oplock_level" 1 LittleEndian
          (int_of_none (requested_oplock_level s)) ;;
  f4 <- IntField_pack "impersonation_level" 4 LittleEndian
          (int_of_none (impersonation_level s)) ;;
  f5 <- IntField_pack "smb_create_flags" 8 LittleEndian
          (int_of_none (smb_create_flags s)) ;;
  f6 <- IntField_pack "reserved" 8 LittleEndian (int_of_none (reserved s)) ;;
  f7 <- IntField_pack "desired_access" 4 LittleEndian
          (int_of_none (desired_access s)) ;;
  f8 <- IntField_pack "file_attributes" 4 LittleEndian
          (int_of_none (file_attributes s)) ;;
  f9 <- IntField_pack "share_access" 4 LittleEndian
          (int_of_none (share_access s)) ;;
  f10 <- IntField_pack "create_disposition" 4 LittleEndian
           (int_of_none (create_disposition s)) ;;
  f11 <- IntField_pack "create_options" 4 LittleEndian
           (int_of_none (create_options s)) ;;
  f12 <- IntField_pack "name_offset" 2 LittleEndian (get_name_offset s) ;;
  f13 <- IntField_pack "name_length" 2 LittleEndian (get_name_length s) ;;
  cco <- get_create_contexts_offset s ;;
  f14 <- IntField_pack "create_contexts_offset" 4 LittleEndian cco ;;
  f15 <- IntField_pack "create_contexts_length" 4 LittleEndian
           (get_create_contexts_length s) ;;
  f16 <- BytesField_pack "buffer_path" (Some (get_name_length s))
           (buffer_path s) ;;
  f17 <- BytesField_pack "padding" (Some (_padding_size s)) (get_padding s) ;;
  l <- SMB2CreateContextRequest.pack_list (buffer_context s) ;;
  f18 <- check_size "buffer_context" (get_create_contexts_length s) l ;;
  Ok (f1 ++ f2 ++ f3 ++ f4 ++ f5 ++ f6 ++ f7 ++ f8 ++ f9 ++ f10 ++ f11
         ++ f12 ++ f13 ++ f14 ++ f15 ++ f16 ++ f17 ++ f18).

(** The fields ahead of [buffer_context], in declared order, and the bytes
    cut off for it. *)
Definition unpack_head (sr : short_read) (data : bytes)
    : result (t * bytes) :=
  '(ss, data) <- IntField_unpack "structure_size" 2 LittleEndian data ;;
  '(sf, data) <- IntField_unpack "security_flags" 1 LittleEndian data ;;
  '(ol, data) <- IntField_unpack "requested_oplock_level" 1 LittleEndian
                   data ;;
  '(il, data) <- IntField_unpack "impersonation_level" 4 LittleEndian data ;;
  '(cf, data) <- IntField_unpack "smb_create_flags" 8 LittleEndian data ;;
  '(r, data) <- IntField_unpack "reserved" 8 LittleEndian data ;;
  '(da, data) <- IntField_unpack "desired_access" 4 LittleEndian data ;;
  '(fa, data) <- IntField_unpack "file_attributes" 4 LittleEndian data ;;
  '(sa, data) <- IntField_unpack "share_access" 4 LittleEndian data ;;
  '(cd, data) <- IntField_unpack "create_disposition" 4 LittleEndian data ;;
  '(co, data) <- IntField_unpack "create_options" 4 LittleEndian data ;;
  '(no, data) <- IntField_unpack "name_offset" 2 LittleEndian data ;;
  '(nl, data) <- IntField_unpack "name_length" 2 LittleEndian data ;;
  '(cco, data) <- IntField_unpack "create_contexts_offset" 4 LittleEndian
                    data ;;
  '(ccl, data) <- IntField_unpack "create_contexts_length" 4 LittleEndian
                    data ;;
  '(bp, data) <- BytesField_unpack sr "buffer_path" (Some nl) data ;;
  let s := mk (Some ss) (Some sf) (Some ol) (Some il) (Some cf) (Some r)
              (Some da) (Some fa) (Some sa) (Some cd) (Some co) (Some no)
              (Some nl) (Some cco) (Some ccl) bp None [] in
  '(p, data) <- BytesField_unpack sr "padding" (Some (_padding_size s)) data ;;
  let s := mk (Some ss) (Some sf) (Some ol) (Some il) (Some cf) (Some r)
              (Some da) (Some fa) (Some sa) (Some cd) (Some co) (Some no)
              (Some nl) (Some cco) (Some ccl) bp (Some p) [] in
  '(raw, _) <- BytesField_unpack sr "buffer_context"
                 (Some (get_create_contexts_length s)) data ;;
  Ok (s, raw).

Definition set_buffer_context (s : t)
    (l : list SMB2CreateContextRequest.t) : t :=
  mk (structure_size s) (security_flags s) (requested_oplock_level s)
     (impersonation_level s) (smb_create_flags s) (reserved s)
     (desired_access s) (file_attributes s) (share_access s)
     (create_disposition s) (create_options s) (name_offset s)
     (name_length s) (create_contexts_offset s) (create_contexts_length s)
     (buffer_path s) (padding s) l.

Definition unpack (sr : short_read) (data : bytes) : option (result t) :=
  match unpack_head sr data with
  | Err e => Some (Err e)
  | Ok (s, raw) =>
      match _buffer_context_list sr s raw with
      | None => None
      | Some (Err e) => Some (Err e)
      | Some (Ok l) => Some (Ok (set_buffer_context s l))
      end
  end.

End SMB2CreateRequest.

(** ** Chains of context entries *)

(** The entries of a list field, each packed on its own. *)
Fixpoint pack_each {A : Type} (pack : A -> result bytes) (l : list A)
    : result (list bytes) :=
  match l with
  | [] => Ok []
  | e :: rest =>
      b <- pack e ;;
      r <- pack_each pack rest ;;
      Ok (b :: r)
  end.

(** The byte offset, from [start], at which each entry of a chain begins. *)
Fixpoint offsets_from (start : Z) (entries : list bytes) : list Z :=
  match entries with
  | [] => []
  | e :: rest => start :: offsets_from (start + len e) rest
  end.

Definition entry_offsets (entries : list bytes) : list Z :=
  offsets_from 0 entries.

(** Every entry of the chain starts on an 8-byte boundary of the chain. *)
Definition aligned8 (entries : list bytes) : Prop :=
  Forall (fun offset => offset mod 8 = 0) (entry_offsets entries).

(** The bytes of a successful [pack], for sample buffers. *)
Definition packed (r : result bytes) : bytes :=
  match r with
  | Ok b => b
  | Err _ => []
  end.

(** ** Sample messages *)

Module Samples.

(** A 3.1.1 negotiate request with the two contexts a client sends: a
    pre-authentication integrity context (SHA-512, 32 bytes of salt: a
    38-byte body and 2 bytes of padding) and an encryption context. *)
Definition salt32 : bytes := map byte_of_Z (map Z.of_nat (seq 1 32)).

Definition preauth_context : SMB2NegotiateContextRequest.t :=
  SMB2NegotiateContextRequest.mk
    (Some NegotiateContextType.SMB2_PREAUTH_INTEGRITY_CAPABILITIES) None None
    (SMB2NegotiateContextRequest.Preauth
       (SMB2PreauthIntegrityCapabilities.mk None None [1] salt32))
    None.

Definition encryption_context : SMB2NegotiateContextRequest.t :=
  SMB2NegotiateContextRequest.mk
    (Some NegotiateContextType.SMB2_ENCRYPTION_CAPABILITIES) None None
    (SMB2NegotiateContextRequest.Encryption
       (SMB2EncryptionCapabilities.mk None [2; 1]))
    None.

Definition negotiate_request : SMB3NegotiateRequest.t :=
  SMB3NegotiateRequest.mk None None None None None None None None None
    [0x0202; 0x0210; 0x0311] None [preauth_context; encryption_context].

Definition negotiate_request_wire : bytes :=
  Eval vm_compute in packed (SMB3NegotiateRequest.pack negotiate_request).

Definition preauth_wire : bytes :=
  Eval vm_compute in packed (SMB2NegotiateContextRequest.pack preauth_context).

Definition encryption_wire : bytes :=
  Eval vm_compute in
    packed (SMB2NegotiateContextRequest.pack encryption_context).

(** The same two contexts in a 3.1.1 negotiate response. *)
Definition negotiate_response : SMB2NegotiateResponse.t :=
  SMB2NegotiateResponse.mk None None (Some Dialects.SMB_3_1_1) None None None
    None None None None None None None None [] None
    [preauth_context; encryption_context].

Definition negotiate_response_wire : bytes :=
  Eval vm_compute in packed (SMB2NegotiateResponse.pack negotiate_response).

(** A 3.0.2 response that leaves the context fields unset. *)
Definition negotiate_response_302 : SMB2NegotiateResponse.t :=
  SMB2NegotiateResponse.mk None None (Some 0x0302) None None None None None
    None None None None None None [x01; x02; x03] None [].

(** The type and data length of each decoded context. *)
Definition context_summary (l : list SMB2NegotiateContextRequest.t)
    : list (Z * Z) :=
  map (fun c => (int_of_none (SMB2NegotiateContextRequest.context_type c),
                 SMB2NegotiateContextRequest.get_data_length c)) l.

(** A create context with a 4-byte name and 8 bytes of data, and a create
    request that carries it. *)
Definition durable_context : SMB2CreateContextRequest.t :=
  SMB2CreateContextRequest.mk None None None None None None
    (list_byte_of_string "DHnQ") None (zeros 8).

Definition durable_wire : bytes :=
  Eval vm_compute in packed (SMB2CreateContextRequest.pack durable_context).

Definition create_request : SMB2CreateRequest.t :=
  SMB2CreateRequest.mk None None None None None None None None None None
    None None None None None (list_byte_of_string "a.txt") None
    [durable_context].

(** A chain of three create contexts, each with a 16-byte name and 8 bytes
    of data (40 bytes an entry), linked by [next] = 40, 40, 0. *)
Definition chain_entry (next : Z) (tag : string) (d : byte)
    : SMB2CreateContextRequest.t :=
  SMB2CreateContextRequest.mk (Some next) None None None (Some 32) None
    (list_byte_of_string tag) None (repeat d 8).

Definition entry_A := chain_entry 40 "create-context-A" x0a.
Definition entry_B := chain_entry 40 "create-context-B" x0b.
Definition entry_C := chain_entry 0 "create-context-C" x0c.

Definition chain_request (l : list SMB2CreateContextRequest.t)
    : SMB2CreateRequest.t :=
  SMB2CreateRequest.mk None None None None None None None None None None
    None None None (Some 128) None (list_byte_of_string "file.txt") None l.

Definition chain3_wire : bytes :=
  Eval vm_compute in
    packed (SMB2CreateRequest.pack (chain_request [entry_A; entry_B; entry_C])).

(** A chain whose first entry has a [next] far outside the buffer. *)
Definition entry_far := chain_entry 65536 "create-context-A" x0a.

Definition far_wire : bytes :=
  Eval vm_compute in
    packed (SMB2CreateRequest.pack (chain_request [entry_far; entry_C])).

(** An error response with one error context of one data byte. *)
Definition error_context : SMB2ErrorContextResponse.t :=
  SMB2ErrorContextResponse.mk None (Some 0) [xaa].

Definition error_response : SMB2ErrorResponse.t :=
  SMB2ErrorResponse.mk None None None None [error_context].

Definition error_response_wire : bytes :=
  [x09; x00; x01; x00; x09; x00; x00; x00;
   x01; x00; x00; x00; x00; x00; x00; x00; xaa].

(** An error response without contexts; [r] is the reserved byte. *)
Definition empty_error_wire (r : byte) : bytes :=
  [x09; x00; x00; r; x00; x00; x00; x00].

(** A transport packet whose caller set the length to 5 over a payload of
    3 bytes. *)
Definition tcp_packet : DirectTCPPacket.t :=
  DirectTCPPacket.mk (Some 5) [x01; x02; x03].

Definition ioctl_request : SMB2IOCTLRequest.t :=
  SMB2IOCTLRequest.mk None None None SMB2FileId.new None None None None None
    None None None [x01; x02; x03; x04].

Definition ioctl_request_wire : bytes :=
  Eval vm_compute in packed (SMB2IOCTLRequest.pack ioctl_request).

End Samples.

(** ** 2.2.1 SMB2 Packet Header *)

Module SMB2PacketHeader.

Record t : Type := mk {
  protocol_id : option bytes;
  structure_size : option Z;
  credit_charge : option Z;
  status : option Z;
  command : option Z;
  credit : option Z;
  flags : option Z;
  next_command : option Z;
  message_id : option Z;
  reserved : option Z;
  tree_id : option Z;
  session_id : option Z;
  signature : option bytes;
  data : bytes
}.

Definition new : t :=
  mk None None None None None None None None None None None None None [].

(** [default=b'\xfeSMB'] *)
Definition get_protocol_id (s : t) : bytes :=
  resolve (protocol_id s) [xfe; x53; x4d; x42].

Definition get_structure_size (s : t) : Z := resolve (structure_size s) 64.

(** [default=b"\x00" * 16] *)
Definition get_signature (s : t) : bytes := resolve (signature s) (zeros 16).

Definition pack (s : t) : result bytes :=
  f1 <- BytesField_pack "protocol_id" (Some 4) (get_protocol_id s) ;;
  f2 <- IntField_pack "structure_size" 2 LittleEndian (get_structure_size s) ;;
  f3 <- IntField_pack "credit_charge" 2 LittleEndian
          (int_of_none (credit_charge s)) ;;
  f4 <- IntField_pack "status" 4 LittleEndian (int_of_none (status s)) ;;
  f5 <- IntField_pack "command" 2 LittleEndian (int_of_none (command s)) ;;
  f6 <- IntField_pack "credit" 2 LittleEndian (int_of_none (credit s)) ;;
  f7 <- IntField_pack "flags" 4 LittleEndian (int_of_none (flags s)) ;;
  f8 <- IntField_pack "next_command" 4 LittleEndian
          (int_of_none (next_command s)) ;;
  f9 <- IntField_pack "message_id" 8 LittleEndian
          (int_of_none (message_id s)) ;;
  f10 <- IntField_pack "reserved" 4 LittleEndian (int_of_none (reserved s)) ;;
  f11 <- IntField_pack "tree_id" 4 LittleEndian (int_of_none (tree_id s)) ;;
  f12 <- IntField_pack "session_id" 8 LittleEndian
           (int_of_none (session_id s)) ;;
  f13 <- BytesField_pack "signature" (Some 16) (get_signature s) ;;
  f14 <- BytesField_pack "data" None (data s) ;;
  Ok (f1 ++ f2 ++ f3 ++ f4 ++ f5 ++ f6 ++ f7 ++ f8 ++ f9 ++ f10 ++ f11
         ++ f12 ++ f13 ++ f14).

Definition unpack (sr : short_read) (data : bytes) : result t :=
  '(p, data) <- BytesField_unpack sr "protocol_id" (Some 4) data ;;
  '(ss, data) <- IntField_unpack "structure_size" 2 LittleEndian data ;;
  '(cc, data) <- IntField_unpack "credit_charge" 2 LittleEndian data ;;
  '(st, data) <- IntField_unpack "status" 4 LittleEndian data ;;
  '(cm, data) <- IntField_unpack "command" 2 LittleEndian data ;;
  '(cr, data) <- IntField_unpack "credit" 2 LittleEndian data ;;
  '(fl, data) <- IntField_unpack "flags" 4 LittleEndian data ;;
  '(nc, data) <- IntField_unpack "next_command" 4 LittleEndian data ;;
  '(mi, data) <- IntField_unpack "message_id" 8 LittleEndian data ;;
  '(r, data) <- IntField_unpack "reserved" 4 LittleEndian data ;;
  '(ti, data) <- IntField_unpack "tree_id" 4 LittleEndian data ;;
  '(si, data) <- IntField_unpack "session_id" 8 LittleEndian data ;;
  '(sg, data) <- BytesField_unpack sr "signature" (Some 16) data ;;
  '(d, _) <- BytesField_unpack sr "data" None data ;;
  Ok (mk (Some p) (Some ss) (Some cc) (Some st) (Some cm) (Some cr) (Some fl)
         (Some nc) (Some mi) (Some r) (Some ti) (Some si) (Some sg) d).

(** The header with every field resolved, as [unpack] sets them. *)
Definition resolved (s : t) : t :=
  mk (Some (get_protocol_id s)) (Some (get_structure_size s))
     (Some (int_of_none (credit_charge s))) (Some (int_of_none (status s)))
     (Some (int_of_none (command s))) (Some (int_of_none (credit s)))
     (Some (int_of_none (flags s))) (Some (int_of_none (next_command s)))
     (Some (int_of_none (message_id s))) (Some (int_of_none (reserved s)))
     (Some (int_of_none (tree_id s))) (Some (int_of_none (session_id s)))
     (Some (get_signature s)) (data s).

End SMB2PacketHeader.

Module SMB3PacketHeader.

Record t : Type := mk {
  protocol_id : option bytes;
  structure_size : option Z;
  credit_charge : option Z;
  channel_sequence : option Z;
  reserved : option Z;
  command : option Z;
  credit : option Z;
  flags : option Z;
  next_command : option Z;
  message_id : option Z;
  process_id : option Z;
  tree_id : option Z;
  session_id : option Z;
  signature : option bytes;
  data : bytes
}.

Definition new : t :=
  mk None None None None None None None None None None None None None None [].

(** [default=b"\xfeSMB"] *)
Definition get_protocol_id (s : t) : bytes :=
  resolve (protocol_id s) [xfe; x53; x4d; x42].

Definition get_structure_size (s : t) : Z := resolve (structure_size s) 64.

Definition get_signature (s : t) : bytes := resolve (signature s) (zeros 16).

Definition pack (s : t) : result bytes :=
  f1 <- BytesField_pack "protocol_id" (Some 4) (get_protocol_id s) ;;
  f2 <- IntField_pack "structure_size" 2 LittleEndian (get_structure_size s) ;;
  f3 <- IntField_pack "credit_charge" 2 LittleEndian
          (int_of_none (credit_charge s)) ;;
  f4 <- IntField_pack "channel_sequence" 2 LittleEndian
          (int_of_none (channel_sequence s)) ;;
  f5 <- IntField_pack "reserved" 2 LittleEndian (int_of_none (reserved s)) ;;
  f6 <- IntField_pack "command" 2 LittleEndian (int_of_none (command s)) ;;
  f7 <- IntField_pack "credit" 2 LittleEndian (int_of_none (credit s)) ;;
  f8 <- IntField_pack "flags" 4 LittleEndian (int_of_none (flags s)) ;;
  f9 <- IntField_pack "next_command" 4 LittleEndian
          (int_of_none (next_command s)) ;;
  f10 <- IntField_pack "message_id" 8 LittleEndian
           (int_of_none (message_id s)) ;;
  f11 <- IntField_pack "process_id" 4 LittleEndian
           (int_of_none (process_id s)) ;;
  f12 <- IntField_pack "tree_id" 4 LittleEndian (int_of_none (tree_id s)) ;;
  f13 <- IntField_pack "session_id" 8 LittleEndian
           (int_of_none (session_id s)) ;;
  f14 <- BytesField_pack "signature" (Some 16) (get_signature s) ;;
  f15 <- BytesField_pack "data" None (data s) ;;
  Ok (f1 ++ f2 ++ f3 ++ f4 ++ f5 ++ f6 ++ f7 ++ f8 ++ f9 ++ f10 ++ f11
         ++ f12 ++ f13 ++ f14 ++ f15).

(** The SMB2 header that carries the same values: the channel sequence and
    the reserved field in the two halves of [status], the process id in
    [reserved]. *)
Definition as_smb2 (s : t) : SMB2PacketHeader.t :=
  SMB2PacketHeader.mk (protocol_id s) (structure_size s) (credit_charge s)
    (Some (int_of_none (channel_sequence s)
           + 65536 * int_of_none (reserved s)))
    (command s) (credit s) (flags s) (next_command s) (message_id s)
    (process_id s) (tree_id s) (session_id s) (signature s) (data s).

End SMB3PacketHeader.

(** ** 2.2.5 / 2.2.6 SMB2 SESSION_SETUP and 2.2.9 SMB2 TREE_CONNECT *)

Module SMB2SessionSetupRequest.

Record t : Type := mk {
  structure_size : option Z;
  flags : option Z;
  security_mode : option Z;
  capabilities : option Z;
  channel : option Z;
  security_buffer_offset : option Z;
  security_buffer_length : option Z;
  previous_session_id : option Z;
  buffer : bytes
}.

Definition new : t := mk None None None None None None None None [].

Definition get_structure_size (s : t) : Z := resolve (structure_size s) 25.

(** (header size 64) + (response size 24) *)
Definition get_security_buffer_offset (s : t) : Z :=
  resolve (security_buffer_offset s) 88.

(** [default=lambda s: len(s['buffer'])] *)
Definition get_security_buffer_length (s : t) : Z :=
  resolve (security_buffer_length s) (len (buffer s)).

Definition pack (s : t) : result bytes :=
  f1 <- IntField_pack "structure_size" 2 LittleEndian (get_structure_size s) ;;
  f2 <- IntField_pack "flags" 1 LittleEndian (int_of_none (flags s)) ;;
  f3 <- IntField_pack "security_mode" 1 LittleEndian
          (int_of_none (security_mode s)) ;;
  f4 <- IntField_pack "capabilities" 4 LittleEndian
          (int_of_none (capabilities s)) ;;
  f5 <- IntField_pack "channel" 4 LittleEndian (int_of_none (channel s)) ;;
  f6 <- IntField_pack "security_buffer_offset" 2 LittleEndian
          (get_security_buffer_offset s) ;;
  f7 <- IntField_pack "security_buffer_length" 2 LittleEndian
          (get_security_buffer_length s) ;;
  f8 <- IntField_pack "previous_session_id" 8 LittleEndian
          (int_of_none (previous_session_id s)) ;;
  f9 <- BytesField_pack "buffer" (Some (get_security_buffer_length s))
          (buffer s) ;;
  Ok (f1 ++ f2 ++ f3 ++ f4 ++ f5 ++ f6 ++ f7 ++ f8 ++ f9).

End SMB2SessionSetupRequest.

Module SMB2SessionSetupResponse.

Record t : Type := mk {
  structure_size : option Z;
  session_flags : option Z;
  security_buffer_offset : option Z;
  security_buffer_length : option Z;
  buffer : bytes
}.

Definition new : t := mk None None None None [].

Definition get_structure_size (s : t) : Z := resolve (structure_size s) 9.

(** (header size 64) + (response size 8) *)
Definition get_security_buffer_offset (s : t) : Z :=
  resolve (security_buffer_offset s) 72.

(** [default=lambda s: len(s['buffer'])] *)
Definition get_security_buffer_length (s : t) : Z :=
  resolve (security_buffer_length s) (len (buffer s)).

Definition pack (s : t) : result bytes :=
  f1 <- IntField_pack "structure_size" 2 LittleEndian (get_structure_size s) ;;
  f2 <- IntField_pack "session_flags" 2 LittleEndian
          (int_of_none (session_flags s)) ;;
  f3 <- IntField_pack "security_buffer_offset" 2 LittleEndian
          (get_security_buffer_offset s) ;;
  f4 <- IntField_pack "security_buffer_length" 2 LittleEndian
          (get_security_buffer_length s) ;;
  f5 <- BytesField_pack "buffer" (Some (get_security_buffer_length s))
          (buffer s) ;;
  Ok (f1 ++ f2 ++ f3 ++ f4 ++ f5).

End SMB2SessionSetupResponse.

Module SMB2TreeConnectRequest.

Record t : Type := mk {
  structure_size : option Z;
  flags : option Z;
  path_offset : option Z;
  path_length : option Z;
  buffer : bytes
}.

Definition new : t := mk None None None None [].

Definition get_structure_size (s : t) : Z := resolve (structure_size s) 9.

(** [default=64 + 8] *)
Definition get_path_offset (s : t) : Z := resolve (path_offset s) (64 + 8).

(** [default=lambda s: len(s['buffer'])] *)
Definition get_path_length (s : t) : Z :=
  resolve (path_length s) (len (buffer s)).

Definition pack (s : t) : result bytes :=
  f1 <- IntField_pack "structure_size" 2 LittleEndian (get_structure_size s) ;;
  f2 <- IntField_pack "flags" 2 LittleEndian (int_of_none (flags s)) ;;
  f3 <- IntField_pack "path_offset" 2 LittleEndian (get_path_offset s) ;;
  f4 <- IntField_pack "path_length" 2 LittleEndian (get_path_length s) ;;
  f5 <- BytesField_pack "buffer" None (buffer s) ;;
  Ok (f1 ++ f2 ++ f3 ++ f4 ++ f5).

End SMB2TreeConnectRequest.

(** ** Decoded forms *)

(** What [unpack] leaves in a structure: every field set to the value the
    packed bytes carry. *)
Module Resolved.

Definition create_context (e : SMB2CreateContextRequest.t)
    : SMB2CreateContextRequest.t :=
  SMB2CreateContextRequest.mk
    (Some (SMB2CreateContextRequest.get_next e))
    (Some (SMB2CreateContextRequest.get_name_offset e))
    (Some (SMB2CreateContextRequest.get_name_length e))
    (Some (int_of_none (SMB2CreateContextRequest.reserved e)))
    (Some (SMB2CreateContextRequest.get_data_offset e))
    (Some (SMB2CreateContextRequest.get_data_length e))
    (SMB2CreateContextRequest.buffer_name e)
    (Some (SMB2CreateContextRequest.get_padding e))
    (SMB2CreateContextRequest.buffer_data e).

Definition preauth (p : SMB2PreauthIntegrityCapabilities.t)
    : SMB2PreauthIntegrityCapabilities.t :=
  SMB2PreauthIntegrityCapabilities.mk
    (Some (SMB2PreauthIntegrityCapabilities.get_hash_algorithm_count p))
    (Some (SMB2PreauthIntegrityCapabilities.get_salt_length p))
    (SMB2PreauthIntegrityCapabilities.hash_algorithms p)
    (SMB2PreauthIntegrityCapabilities.salt p).

Definition encryption (e : SMB2EncryptionCapabilities.t)
    : SMB2EncryptionCapabilities.t :=
  SMB2EncryptionCapabilities.mk
    (Some (SMB2EncryptionCapabilities.get_cipher_count e))
    (SMB2EncryptionCapabilities.ciphers e).

Definition context_data (d : SMB2NegotiateContextRequest.context_data)
    : SMB2NegotiateContextRequest.context_data :=
  match d with
  | SMB2NegotiateContextRequest.Preauth p =>
      SMB2NegotiateContextRequest.Preauth (preauth p)
  | SMB2NegotiateContextRequest.Encryption e =>
      SMB2NegotiateContextRequest.Encryption (encryption e)
  | SMB2NegotiateContextRequest.Opaque b => SMB2NegotiateContextRequest.Opaque b
  end.

Definition negotiate_context (c : SMB2NegotiateContextRequest.t)
    : SMB2NegotiateContextRequest.t :=
  SMB2NegotiateContextRequest.mk
    (Some (int_of_none (SMB2NegotiateContextRequest.context_type c)))
    (Some (SMB2NegotiateContextRequest.get_data_length c))
    (Some (int_of_none (SMB2NegotiateContextRequest.reserved c)))
    (context_data (SMB2NegotiateContextRequest.data c))
    (Some (SMB2NegotiateContextRequest.get_padding c)).

(** The class of a typed body. *)
Definition type_of (d : SMB2NegotiateContextRequest.context_data)
    : option SMB2NegotiateContextRequest.structure_type :=
  match d with
  | SMB2NegotiateContextRequest.Preauth _ =>
      Some SMB2NegotiateContextRequest.SMB2PreauthIntegrityCapabilities_type
  | SMB2NegotiateContextRequest.Encryption _ =>
      Some SMB2NegotiateContextRequest.SMB2EncryptionCapabilities_type
  | SMB2NegotiateContextRequest.Opaque _ => None
  end.

(** The body class [_data_structure_type] selects is the one [data] holds. *)
Definition well_typed (c : SMB2NegotiateContextRequest.t) : bool :=
  match SMB2NegotiateContextRequest._data_structure_type c,
        SMB2NegotiateContextRequest.data c with
  | Some SMB2NegotiateContextRequest.SMB2PreauthIntegrityCapabilities_type,
    SMB2NegotiateContextRequest.Preauth _ => true
  | Some SMB2NegotiateContextRequest.SMB2EncryptionCapabilities_type,
    SMB2NegotiateContextRequest.Encryption _ => true
  | _, _ => false
  end.

Definition negotiate_request (s : SMB3NegotiateRequest.t)
    : SMB3NegotiateRequest.t :=
  SMB3NegotiateRequest.mk
    (Some (SMB3NegotiateRequest.get_structure_size s))
    (Some (SMB3NegotiateRequest.get_dialect_count s))
    (Some (int_of_none (SMB3NegotiateRequest.security_mode s)))
    (Some (int_of_none (SMB3NegotiateRequest.reserved s)))
    (Some (int_of_none (SMB3NegotiateRequest.capabilities s)))
    (Some (bytes_of_none 16 (SMB3NegotiateRequest.client_guid s)))
    (Some (SMB3NegotiateRequest.get_negotiate_context_offset s))
    (Some (SMB3NegotiateRequest.get_negotiate_context_count s))
    (Some (int_of_none (SMB3NegotiateRequest.reserved2 s)))
    (SMB3NegotiateRequest.dialects s)
    (Some (SMB3NegotiateRequest.get_padding s))
    (SMB3NegotiateRequest.negotiate_context_list s).

Definition negotiate_response (s : SMB2NegotiateResponse.t)
    : SMB2NegotiateResponse.t :=
  SMB2NegotiateResponse.mk
    (Some (SMB2NegotiateResponse.get_structure_size s))
    (Some (int_of_none (SMB2NegotiateResponse.security_mode s)))
    (Some (SMB2NegotiateResponse.get_dialect_revision s))
    (Some (SMB2NegotiateResponse.get_negotiate_context_count s))
    (Some (bytes_of_none 16 (SMB2NegotiateResponse.server_guid s)))
    (Some (int_of_none (SMB2NegotiateResponse.capabilities s)))
    (Some (int_of_none (SMB2NegotiateResponse.max_transact_size s)))
    (Some (int_of_none (SMB2NegotiateResponse.max_read_size s)))
    (Some (int_of_none (SMB2NegotiateResponse.max_write_size s)))
    (Some (int_of_none (SMB2NegotiateResponse.system_time s)))
    (Some (int_of_none (SMB2NegotiateResponse.server_start_time s)))
    (Some (SMB2NegotiateResponse.get_security_buffer_offset s))
    (Some (SMB2NegotiateResponse.get_security_buffer_length s))
    (Some (SMB2NegotiateResponse.get_negotiate_context_offset s))
    (SMB2NegotiateResponse.buffer s)
    (Some (SMB2NegotiateResponse.get_padding s))
    (SMB2NegotiateResponse.negotiate_context_list s).

End Resolved.

(** Sets the [data] of a header. *)
Definition with_data (h : SMB2PacketHeader.t) (body : bytes)
    : SMB2PacketHeader.t :=
  SMB2PacketHeader.mk (SMB2PacketHeader.protocol_id h)
    (SMB2PacketHeader.structure_size h) (SMB2PacketHeader.credit_charge h)
    (SMB2PacketHeader.status h) (SMB2PacketHeader.command h)
    (SMB2PacketHeader.credit h) (SMB2PacketHeader.flags h)
    (SMB2PacketHeader.next_command h) (SMB2PacketHeader.message_id h)
    (SMB2PacketHeader.reserved h) (SMB2PacketHeader.tree_id h)
    (SMB2PacketHeader.session_id h) (SMB2PacketHeader.signature h) body.

(** The [size] bytes at [offset] of a packet. *)
Definition bytes_at (offset size : Z) (packet : bytes) : bytes :=
  slice_to size (slice_from offset packet).

(** ** More sample messages *)

Module MoreSamples.

Definition session_setup : SMB2SessionSetupRequest.t :=
  SMB2SessionSetupRequest.mk None None None None None None None None
    (list_byte_of_string "NTLMSSP").

Definition session_setup_response : SMB2SessionSetupResponse.t :=
  SMB2SessionSetupResponse.mk None None None None
    (list_byte_of_string "NTLMSSP").

Definition tree_connect : SMB2TreeConnectRequest.t :=
  SMB2TreeConnectRequest.mk None None None None
    (list_byte_of_string "\\server\share").

Definition smb3_header : SMB3PacketHeader.t :=
  SMB3PacketHeader.mk None None None (Some 7) (Some 0) (Some 5) None None
    None (Some 4) (Some 0xfeff) None None None [x01; x02].

Definition create_request_plain : SMB2CreateRequest.t :=
  SMB2CreateRequest.mk None None None None None None None None None None
    None None None None None (list_byte_of_string "a.txt") None [].

Definition negotiate_request_plain : SMB3NegotiateRequest.t :=
  SMB3NegotiateRequest.mk None None (Some 1) None None None None None None
    [0x0202; 0x0210; 0x0300; 0x0302] None [].

Definition error_response2 : SMB2ErrorResponse.t :=
  SMB2ErrorResponse.mk None None None None
    [Samples.error_context; Samples.error_context].

End MoreSamples.

(** ** Complete and cut create contexts *)

(** A decoded create context whose name, padding and data are as long as
    its length fields say. *)
Definition entry_complete (c : SMB2CreateContextRequest.t) : Prop :=
  len (SMB2CreateContextRequest.buffer_name c)
  = SMB2CreateContextRequest.get_name_length c
  /\ len (SMB2CreateContextRequest.get_padding c)
     = SMB2CreateContextRequest._padding_size c
  /\ len (SMB2CreateContextRequest.buffer_data c)
     = SMB2CreateContextRequest.get_data_length c.

Module ChainSamples.

(** The chains of the two sample requests, 64 bytes into the body. *)
Definition chain3 : bytes := Eval vm_compute in slice_from 64 Samples.chain3_wire.

Definition far_chain : bytes :=
  Eval vm_compute in slice_from 64 Samples.far_wire.

(** The request with the far [next], its last 5 bytes missing: the second
    entry declares 8 bytes of data and 3 are there. *)
Definition cut_wire : bytes := Eval vm_compute in slice_to 139 Samples.far_wire.

Definition cut_chain : bytes := Eval vm_compute in slice_from 64 cut_wire.

End ChainSamples.

(** * Properties *)

(** ** The field codecs *)

Lemma Z_of_byte_of_Z (z : Z) : Z_of_byte (byte_of_Z z) = z mod 256.
Proof.
  unfold Z_of_byte, byte_of_Z.
  assert (Hr : 0 <= z mod 256 < 256) by (apply Z.mod_pos_bound; lia).
  destruct (Byte.of_N (Z.to_N (z mod 256))) as [b|] eqn:E.
  - apply Byte.to_of_N in E. rewrite E. apply Z2N.id. lia.
  - apply Byte.of_N_None_iff in E.
    assert (Z.to_N (z mod 256) < Z.to_N 256)%N by (apply Z2N.inj_lt; lia).
    change (Z.to_N 256) with 256%N in *. lia.
Qed.

Lemma le_bytes_length (n : nat) (v : Z) : List.length (le_bytes n v) = n.
Proof.
  revert v. induction n as [|n IH]; intros v; simpl; [reflexivity|].
  now rewrite IH.
Qed.

Lemma int_bytes_length (o : byte_order) (n : nat) (v : Z) :
  List.length (int_bytes o n v) = n.
Proof.
  destruct o; simpl; [|rewrite length_rev]; apply le_bytes_length.
Qed.

Lemma le_value_le_bytes (n : nat) (v : Z) :
  le_value (le_bytes n v) = v mod 2 ^ (8 * Z.of_nat n).
Proof.
  revert v. induction n as [|n IH]; intros v.
  - simpl. now rewrite Z.mod_1_r.
  - cbn [le_bytes le_value]. rewrite Z_of_byte_of_Z, IH.
    replace (8 * Z.of_nat (S n)) with (8 + 8 * Z.of_nat n) by lia.
    rewrite Z.pow_add_r by lia.
    change (2 ^ 8) with 256.
    rewrite Z.rem_mul_r by lia. reflexivity.
Qed.

Lemma int_value_int_bytes (o : byte_order) (n : nat) (v : Z) :
  0 <= v < 2 ^ (8 * Z.of_nat n) -> int_value o (int_bytes o n v) = v.
Proof.
  intros H. destruct o; simpl.
  - rewrite le_value_le_bytes. now apply Z.mod_small.
  - rewrite rev_involutive, le_value_le_bytes. now apply Z.mod_small.
Qed.

Lemma bind_ok {A B : Type} (c : result A) (k : A -> result B) (b : B) :
  bind c k = Ok b -> exists a, c = Ok a /\ k a = Ok b.
Proof.
  destruct c as [a|e]; simpl; intros H; [eauto | discriminate].
Qed.

Lemma IntField_pack_ok (name : string) (n : nat) (o : byte_order) (v : Z)
    (b : bytes) :
  IntField_pack name n o v = Ok b ->
  b = int_bytes o n v /\ 0 <= v < 2 ^ (8 * Z.of_nat n).
Proof.
  unfold IntField_pack.
  destruct (0 <=? v) eqn:E1; destruct (v <? 2 ^ (8 * Z.of_nat n)) eqn:E2;
    simpl; intros H; inversion H; subst.
  apply Z.leb_le in E1. apply Z.ltb_lt in E2.
  split; [reflexivity | split; assumption].
Qed.

Lemma IntField_pack_fits (name : string) (n : nat) (o : byte_order) (v : Z) :
  0 <= v < 2 ^ (8 * Z.of_nat n) ->
  IntField_pack name n o v = Ok (int_bytes o n v).
Proof.
  intros [H1 H2]. unfold IntField_pack.
  apply Z.leb_le in H1. apply Z.ltb_lt in H2. now rewrite H1, H2.
Qed.

Lemma BytesField_pack_ok (name : string) (n : Z) (v b : bytes) :
  BytesField_pack name (Some n) v = Ok b -> b = v /\ len v = n.
Proof.
  unfold BytesField_pack. destruct (len v =? n) eqn:E; intros H;
    inversion H; subst.
  split; [reflexivity | now apply Z.eqb_eq].
Qed.

Lemma check_size_ok (name : string) (n : Z) (v b : bytes) :
  check_size name n v = Ok b -> b = v /\ len v = n.
Proof. apply BytesField_pack_ok. Qed.

Lemma len_app {A : Type} (l1 l2 : list A) : len (l1 ++ l2) = len l1 + len l2.
Proof. unfold len. rewrite length_app. lia. Qed.

Lemma len_int_bytes (o : byte_order) (n : nat) (v : Z) :
  len (int_bytes o n v) = Z.of_nat n.
Proof. unfold len. now rewrite int_bytes_length. Qed.

Lemma len_zeros (n : Z) : 0 <= n -> len (zeros n) = n.
Proof. intros H. unfold len, zeros. rewrite repeat_length. lia. Qed.

Lemma len_nonneg {A : Type} (l : list A) : 0 <= len l.
Proof. unfold len. lia. Qed.

Lemma Ok_inj {A : Type} (a b : A) : Ok a = Ok b -> a = b.
Proof. now inversion 1. Qed.

(** Unfolds one successful [pack]: every field that was packed is replaced by
    its bytes and the side conditions are kept. *)
Ltac pack_inv H :=
  repeat match type of H with
  | bind _ _ = Ok _ =>
      let a := fresh "f" in
      let Ha := fresh "Hf" in
      apply bind_ok in H; destruct H as (a & Ha & H);
      first
        [ apply IntField_pack_ok in Ha; destruct Ha as [-> Ha]
        | apply BytesField_pack_ok in Ha; destruct Ha as [-> Ha]
        | apply check_size_ok in Ha; destruct Ha as [-> Ha]
        | idtac ]
  end;
  apply Ok_inj in H; try rewrite <- H in *; try clear H.

(** ** 2.1 Transport: the length prefix *)

(** C9, as written, fails: a caller who set [stream_protocol_length] to 5 over
    a 3-byte payload does not get a packet whose prefix is 3; the value set
    is kept, and packing stops at the payload whose declared size is 5. *)
Lemma direct_tcp_caller_length_is_kept :
  DirectTCPPacket.pack Samples.tcp_packet = Err (PackError "smb2_message")
  /\ ~ (exists b,
          DirectTCPPacket.pack Samples.tcp_packet = Ok b
          /\ int_value BigEndian (slice_to 4 b)
             = len (DirectTCPPacket.smb2_message Samples.tcp_packet)).
Proof.
  split; [reflexivity|].
  intros (b & H & _). vm_compute in H. discriminate.
Qed.

(** C9, amended: whenever a DirectTCPPacket packs, the bytes are a 4-byte
    big-endian prefix equal to the byte length of smb2_message, followed by
    the message; with stream_protocol_length left unset the prefix is computed
    from the message and a message below 2^32 bytes always packs; a value the
    caller set is not recomputed, and packing fails when it differs from the
    length of the message. *)
Theorem direct_tcp_length_prefix (p : DirectTCPPacket.t) :
  (forall b,
     DirectTCPPacket.pack p = Ok b ->
     b = int_bytes BigEndian 4 (len (DirectTCPPacket.smb2_message p))
         ++ DirectTCPPacket.smb2_message p
     /\ int_value BigEndian (slice_to 4 b)
        = len (DirectTCPPacket.smb2_message p))
  /\ (DirectTCPPacket.stream_protocol_length p = None ->
      len (DirectTCPPacket.smb2_message p) < 2 ^ 32 ->
      DirectTCPPacket.pack p
      = Ok (int_bytes BigEndian 4 (len (DirectTCPPacket.smb2_message p))
            ++ DirectTCPPacket.smb2_message p))
  /\ (forall v,
        DirectTCPPacket.stream_protocol_length p = Some v ->
        v <> len (DirectTCPPacket.smb2_message p) ->
        exists field, DirectTCPPacket.pack p = Err (PackError field)).
Proof.
  destruct p as [spl msg]. cbn [DirectTCPPacket.smb2_message
    DirectTCPPacket.stream_protocol_length].
  split; [|split].
  - intros b H. unfold DirectTCPPacket.pack in H. pack_inv H.
    cbn [DirectTCPPacket.smb2_message] in *. rewrite <- Hf0 in *.
    split; [reflexivity|].
    exact (int_value_int_bytes BigEndian 4 (len msg) Hf).
  - intros -> Hlt. unfold DirectTCPPacket.pack, DirectTCPPacket.get_stream_protocol_length.
    cbn [resolve DirectTCPPacket.stream_protocol_length
         DirectTCPPacket.smb2_message].
    rewrite IntField_pack_fits by (split; [apply len_nonneg | exact Hlt]).
    cbn [bind BytesField_pack]. now rewrite Z.eqb_refl.
  - intros v -> Hne. unfold DirectTCPPacket.pack, DirectTCPPacket.get_stream_protocol_length.
    cbn [resolve DirectTCPPacket.stream_protocol_length
         DirectTCPPacket.smb2_message].
    destruct (IntField_pack "stream_protocol_length" 4 BigEndian v) as [f|e] eqn:E.
    + cbn [bind BytesField_pack].
      destruct (len msg =? v) eqn:E2; [apply Z.eqb_eq in E2; congruence|].
      eexists. reflexivity.
    + unfold IntField_pack in E.
      destruct ((0 <=? v) && (v <? 2 ^ (8 * Z.of_nat 4))); inversion E.
      eexists. reflexivity.
Qed.

(** C9, witness: an unset length over a 3-byte payload packs with prefix 3;
    the length 5 a caller set over the same payload makes packing fail. *)
Lemma direct_tcp_length_prefix_witness :
  DirectTCPPacket.pack (DirectTCPPacket.mk None [x01; x02; x03])
  = Ok [x00; x00; x00; x03; x01; x02; x03]
  /\ int_value BigEndian (slice_to 4 [x00; x00; x00; x03; x01; x02; x03]) = 3
  /\ exists field,
       DirectTCPPacket.pack Samples.tcp_packet = Err (PackError field).
Proof.
  split; [|split].
  - apply (proj1 (proj2 (direct_tcp_length_prefix
                           (DirectTCPPacket.mk None [x01; x02; x03])))).
    + reflexivity.
    + reflexivity.
  - exact (proj2 (proj1 (direct_tcp_length_prefix
                           (DirectTCPPacket.mk None [x01; x02; x03]))
                    [x00; x00; x00; x03; x01; x02; x03] eq_refl)).
  - apply (proj2 (proj2 (direct_tcp_length_prefix Samples.tcp_packet)) 5).
    + reflexivity.
    + intros H. vm_compute in H. discriminate.
Defined.

(** ** 2.2.31 SMB2 IOCTL Request: the buffer offsets *)

(** C10: an SMB2IOCTLRequest whose input_offset and output_offset were not
    set resolves both to the same value, 64 + structure_size - 1 (120 with
    the default structure_size) when the buffer is not empty and 0 when it is;
    output_count defaults to 0 and input_count to the byte length of the
    buffer; and these are the values packed at bytes 24..27 and 36..39. *)
Theorem ioctl_default_offsets (s : SMB2IOCTLRequest.t) :
  SMB2IOCTLRequest.input_offset s = None ->
  SMB2IOCTLRequest.output_offset s = None ->
  SMB2IOCTLRequest.get_input_offset s = SMB2IOCTLRequest.get_output_offset s
  /\ (SMB2IOCTLRequest.buffer s <> [] ->
      SMB2IOCTLRequest.get_input_offset s
      = 64 + SMB2IOCTLRequest.get_structure_size s - 1)
  /\ (SMB2IOCTLRequest.buffer s <> [] ->
      SMB2IOCTLRequest.structure_size s = None ->
      SMB2IOCTLRequest.get_input_offset s = 120)
  /\ (SMB2IOCTLRequest.buffer s = [] ->
      SMB2IOCTLRequest.get_input_offset s = 0)
  /\ (SMB2IOCTLRequest.output_count s = None ->
      SMB2IOCTLRequest.get_output_count s = 0)
  /\ (SMB2IOCTLRequest.input_count s = None ->
      SMB2IOCTLRequest.get_input_count s = len (SMB2IOCTLRequest.buffer s))
  /\ (forall b,
        SMB2IOCTLRequest.pack s = Ok b ->
        exists head mid tail,
          b = head
              ++ int_bytes LittleEndian 4 (SMB2IOCTLRequest.get_input_offset s)
              ++ mid
              ++ int_bytes LittleEndian 4 (SMB2IOCTLRequest.get_output_offset s)
              ++ tail
          /\ len head = 24 /\ len mid = 8).
Proof.
  intros Hi Ho.
  unfold SMB2IOCTLRequest.get_input_offset, SMB2IOCTLRequest.get_output_offset,
    SMB2IOCTLRequest.get_output_count, SMB2IOCTLRequest.get_input_count.
  rewrite Hi, Ho. cbn [resolve].
  assert (Hne : SMB2IOCTLRequest.buffer s <> [] ->
                SMB2IOCTLRequest._buffer_offset_value s
                = 64 + SMB2IOCTLRequest.get_structure_size s - 1).
  { intros Hb. unfold SMB2IOCTLRequest._buffer_offset_value.
    destruct (SMB2IOCTLRequest.buffer s) as [|x l]; [congruence|].
    reflexivity. }
  repeat split.
  - exact Hne.
  - intros Hb Hs. rewrite (Hne Hb).
    unfold SMB2IOCTLRequest.get_structure_size. now rewrite Hs.
  - intros Hb. unfold SMB2IOCTLRequest._buffer_offset_value. now rewrite Hb.
  - intros H. now rewrite H.
  - intros H. now rewrite H.
  - intros b H. unfold SMB2IOCTLRequest.pack in H.
    unfold SMB2IOCTLRequest.get_input_offset,
      SMB2IOCTLRequest.get_output_offset in H.
    rewrite Hi, Ho in H. cbn [resolve] in H.
    pack_inv H.
    match goal with
    | Hid : SMB2FileId.pack _ = Ok ?fid |- _ =>
        exists (int_bytes LittleEndian 2 (SMB2IOCTLRequest.get_structure_size s)
                ++ int_bytes LittleEndian 2
                     (resolve (SMB2IOCTLRequest.reserved s) 0)
                ++ int_bytes LittleEndian 4
                     (int_of_none (SMB2IOCTLRequest.ctl_code s))
                ++ fid)
    end.
    exists (int_bytes LittleEndian 4 (SMB2IOCTLRequest.get_input_count s)
            ++ int_bytes LittleEndian 4
                 (int_of_none (SMB2IOCTLRequest.max_input_response s))).
    eexists. split; [|split].
    + repeat rewrite <- app_assoc. reflexivity.
    + repeat rewrite len_app. repeat rewrite len_int_bytes. lia.
    + repeat rewrite len_app. repeat rewrite len_int_bytes. lia.
Qed.

(** C10, witness: a request with a 4-byte buffer and nothing else set, and
    the request with nothing set at all. *)
Lemma ioctl_default_offsets_witness :
  SMB2IOCTLRequest.get_input_offset Samples.ioctl_request = 120
  /\ SMB2IOCTLRequest.get_output_offset Samples.ioctl_request = 120
  /\ SMB2IOCTLRequest.get_input_count Samples.ioctl_request = 4
  /\ SMB2IOCTLRequest.get_output_count Samples.ioctl_request = 0
  /\ SMB2IOCTLRequest.get_input_offset SMB2IOCTLRequest.new = 0
  /\ exists head mid tail,
       Samples.ioctl_request_wire
       = head ++ [x78; x00; x00; x00] ++ mid ++ [x78; x00; x00; x00] ++ tail
       /\ len head = 24 /\ len mid = 8.
Proof.
  destruct (ioctl_default_offsets Samples.ioctl_request eq_refl eq_refl)
    as (Heq & H119 & H120 & _ & Hout & Hcount & Hpack).
  destruct (ioctl_default_offsets SMB2IOCTLRequest.new eq_refl eq_refl)
    as (_ & _ & _ & H0 & _).
  split; [|split; [|split; [|split; [|split]]]].
  - apply H120; [discriminate | reflexivity].
  - rewrite <- Heq. apply H120; [discriminate | reflexivity].
  - apply Hcount. reflexivity.
  - apply Hout. reflexivity.
  - apply H0. reflexivity.
  - exact (Hpack Samples.ioctl_request_wire eq_refl).
Defined.

(** ** 2.2.4 SMB2 NEGOTIATE Response: the context count and offset *)

(** C4: an SMB2NegotiateResponse whose negotiate_context_count and
    negotiate_context_offset were not set packs both as zero bytes when
    dialect_revision is not 3.1.1; when it is 3.1.1 the count is the length of
    negotiate_context_list and the offset is security_buffer_offset +
    security_buffer_length + the padding size.  The two values are the ones
    packed at bytes 6..7 and 60..63. *)
Theorem negotiate_response_gating (s : SMB2NegotiateResponse.t) :
  SMB2NegotiateResponse.negotiate_context_count s = None ->
  SMB2NegotiateResponse.negotiate_context_offset s = None ->
  (SMB2NegotiateResponse.get_dialect_revision s <> Dialects.SMB_3_1_1 ->
   SMB2NegotiateResponse.get_negotiate_context_count s = 0
   /\ SMB2NegotiateResponse.get_negotiate_context_offset s = 0
   /\ int_bytes LittleEndian 2
        (SMB2NegotiateResponse.get_negotiate_context_count s) = [x00; x00]
   /\ int_bytes LittleEndian 4
        (SMB2NegotiateResponse.get_negotiate_context_offset s)
      = [x00; x00; x00; x00])
  /\ (SMB2NegotiateResponse.get_dialect_revision s = Dialects.SMB_3_1_1 ->
      SMB2NegotiateResponse.get_negotiate_context_count s
      = len (SMB2NegotiateResponse.negotiate_context_list s)
      /\ SMB2NegotiateResponse.get_negotiate_context_offset s
         = SMB2NegotiateResponse.get_security_buffer_offset s
           + SMB2NegotiateResponse.get_security_buffer_length s
           + SMB2NegotiateResponse._padding_size s)
  /\ (forall b,
        SMB2NegotiateResponse.pack s = Ok b ->
        exists head mid tail,
          b = head
              ++ int_bytes LittleEndian 2
                   (SMB2NegotiateResponse.get_negotiate_context_count s)
              ++ mid
              ++ int_bytes LittleEndian 4
                   (SMB2NegotiateResponse.get_negotiate_context_offset s)
              ++ tail
          /\ len head = 6 /\ len mid = 52).
Proof.
  intros Hc Ho.
  assert (Hcount : SMB2NegotiateResponse.get_negotiate_context_count s
                   = int_of_none
                       (SMB2NegotiateResponse._negotiate_context_count_value s))
    by (unfold SMB2NegotiateResponse.get_negotiate_context_count;
        now rewrite Hc).
  assert (Hoff : SMB2NegotiateResponse.get_negotiate_context_offset s
                 = int_of_none
                     (SMB2NegotiateResponse._negotiate_context_offset_value s))
    by (unfold SMB2NegotiateResponse.get_negotiate_context_offset;
        now rewrite Ho).
  split; [|split].
  - intros Hd. apply Z.eqb_neq in Hd.
    assert (H0 : SMB2NegotiateResponse.get_negotiate_context_count s = 0).
    { rewrite Hcount.
      unfold SMB2NegotiateResponse._negotiate_context_count_value.
      now rewrite Hd. }
    assert (H1 : SMB2NegotiateResponse.get_negotiate_context_offset s = 0).
    { rewrite Hoff.
      unfold SMB2NegotiateResponse._negotiate_context_offset_value.
      now rewrite Hd. }
    rewrite H0, H1. repeat split; reflexivity.
  - intros Hd. apply Z.eqb_eq in Hd. rewrite Hcount, Hoff.
    unfold SMB2NegotiateResponse._negotiate_context_count_value,
      SMB2NegotiateResponse._negotiate_context_offset_value.
    rewrite Hd. split; reflexivity.
  - intros b H. unfold SMB2NegotiateResponse.pack in H.
    pack_inv H.
    exists (int_bytes LittleEndian 2
              (SMB2NegotiateResponse.get_structure_size s)
            ++ int_bytes LittleEndian 2
                 (int_of_none (SMB2NegotiateResponse.security_mode s))
            ++ int_bytes LittleEndian 2
                 (SMB2NegotiateResponse.get_dialect_revision s)).
    exists (bytes_of_none 16 (SMB2NegotiateResponse.server_guid s)
            ++ int_bytes LittleEndian 4
                 (int_of_none (SMB2NegotiateResponse.capabilities s))
            ++ int_bytes LittleEndian 4
                 (int_of_none (SMB2NegotiateResponse.max_transact_size s))
            ++ int_bytes LittleEndian 4
                 (int_of_none (SMB2NegotiateResponse.max_read_size s))
            ++ int_bytes LittleEndian 4
                 (int_of_none (SMB2NegotiateResponse.max_write_size s))
            ++ int_bytes LittleEndian 8
                 (int_of_none (SMB2NegotiateResponse.system_time s))
            ++ int_bytes LittleEndian 8
                 (int_of_none (SMB2NegotiateResponse.server_start_time s))
            ++ int_bytes LittleEndian 2
                 (SMB2NegotiateResponse.get_security_buffer_offset s)
            ++ int_bytes LittleEndian 2
                 (SMB2NegotiateResponse.get_security_buffer_length s)).
    eexists. split; [|split].
    + repeat rewrite <- app_assoc. reflexivity.
    + repeat rewrite len_app. repeat rewrite len_int_bytes. lia.
    + repeat rewrite len_app. repeat rewrite len_int_bytes. lia.
Qed.

(** C4, witness: the 3.1.1 response with two contexts and an empty security
    buffer counts 2 contexts at offset 128; the 3.0.2 response packs zeros. *)
Lemma negotiate_response_gating_witness :
  (SMB2NegotiateResponse.get_negotiate_context_count Samples.negotiate_response
   = 2
   /\ SMB2NegotiateResponse.get_negotiate_context_offset
        Samples.negotiate_response = 128 + 0 + 0)
  /\ (SMB2NegotiateResponse.get_negotiate_context_count
        Samples.negotiate_response_302 = 0
      /\ SMB2NegotiateResponse.get_negotiate_context_offset
           Samples.negotiate_response_302 = 0)
  /\ exists head mid tail,
       Samples.negotiate_response_wire
       = head ++ [x02; x00] ++ mid ++ [x80; x00; x00; x00] ++ tail
       /\ len head = 6 /\ len mid = 52.
Proof.
  destruct (negotiate_response_gating Samples.negotiate_response
              eq_refl eq_refl) as (_ & H311 & Hpack).
  destruct (negotiate_response_gating Samples.negotiate_response_302
              eq_refl eq_refl) as (H302 & _ & _).
  split; [|split].
  - apply H311. reflexivity.
  - destruct H302 as (H1 & H2 & _); [discriminate|]. split; assumption.
  - exact (Hpack Samples.negotiate_response_wire eq_refl).
Defined.

(** ** 2.2.3 SMB2 Negotiate Request: the three-dialect scenario *)

(** C5: an SMB3NegotiateRequest with the dialects 0x0202, 0x0210, 0x0311 and
    the dependent fields left unset has dialect_count 3, a padding of
    (3*2) mod 8 = 6 zero bytes and negotiate_context_offset
    64 + 36 + 6 + 6 = 112; in the packed bytes the count sits at 2..3, the
    offset at 28..31, the dialects at 36..41, the six zero bytes at 42..47
    and the context list right after them. *)
Theorem negotiate_request_scenario (s : SMB3NegotiateRequest.t) :
  SMB3NegotiateRequest.dialects s = [0x0202; 0x0210; 0x0311] ->
  SMB3NegotiateRequest.dialect_count s = None ->
  SMB3NegotiateRequest.structure_size s = None ->
  SMB3NegotiateRequest.padding s = None ->
  SMB3NegotiateRequest.negotiate_context_offset s = None ->
  SMB3NegotiateRequest.get_dialect_count s = 3
  /\ SMB3NegotiateRequest._padding_size s = (3 * 2) mod 8
  /\ SMB3NegotiateRequest.get_padding s = [x00; x00; x00; x00; x00; x00]
  /\ SMB3NegotiateRequest.get_negotiate_context_offset s = 64 + 36 + 6 + 6
  /\ (forall b,
        SMB3NegotiateRequest.pack s = Ok b ->
        exists mid1 mid2 contexts,
          b = [x24; x00] ++ [x03; x00] ++ mid1 ++ [x70; x00; x00; x00]
              ++ mid2 ++ [x02; x02; x10; x02; x11; x03]
              ++ [x00; x00; x00; x00; x00; x00] ++ contexts
          /\ len mid1 = 24 /\ len mid2 = 4
          /\ SMB2NegotiateContextRequest.pack_list
               (SMB3NegotiateRequest.negotiate_context_list s) = Ok contexts).
Proof.
  intros Hd Hc Hs Hp Ho.
  assert (H3 : SMB3NegotiateRequest.get_dialect_count s = 3)
    by (unfold SMB3NegotiateRequest.get_dialect_count; now rewrite Hc, Hd).
  assert (H6 : SMB3NegotiateRequest._padding_size s = 6)
    by (unfold SMB3NegotiateRequest._padding_size; now rewrite H3).
  assert (Hz : SMB3NegotiateRequest.get_padding s
               = [x00; x00; x00; x00; x00; x00])
    by (unfold SMB3NegotiateRequest.get_padding; now rewrite Hp, H6).
  assert (H36 : SMB3NegotiateRequest.get_structure_size s = 36)
    by (unfold SMB3NegotiateRequest.get_structure_size; now rewrite Hs).
  assert (H112 : SMB3NegotiateRequest.get_negotiate_context_offset s = 112).
  { unfold SMB3NegotiateRequest.get_negotiate_context_offset,
      SMB3NegotiateRequest._negotiate_context_offset_value.
    now rewrite Ho, H36, H6, Hd. }
  repeat split; try assumption.
  intros b H. unfold SMB3NegotiateRequest.pack in H.
  rewrite H3, H6, Hz, H36, H112, Hd in H.
  pack_inv H.
  match goal with
  | Hl : ints_pack _ _ _ = Ok ?l |- _ =>
      vm_compute in Hl; injection Hl as <-
  end.
  exists (int_bytes LittleEndian 2
            (int_of_none (SMB3NegotiateRequest.security_mode s))
          ++ int_bytes LittleEndian 2
               (int_of_none (SMB3NegotiateRequest.reserved s))
          ++ int_bytes LittleEndian 4
               (int_of_none (SMB3NegotiateRequest.capabilities s))
          ++ bytes_of_none 16 (SMB3NegotiateRequest.client_guid s)).
  exists (int_bytes LittleEndian 2
            (SMB3NegotiateRequest.get_negotiate_context_count s)
          ++ int_bytes LittleEndian 2
               (int_of_none (SMB3NegotiateRequest.reserved2 s))).
  match goal with
  | Hl : SMB2NegotiateContextRequest.pack_list _ = Ok ?l |- _ => exists l
  end.
  split; [|split; [|split]].
  - repeat rewrite <- app_assoc. reflexivity.
  - repeat rewrite len_app. repeat rewrite len_int_bytes. lia.
  - repeat rewrite len_app. repeat rewrite len_int_bytes. lia.
  - assumption.
Qed.

(** C5, witness: the sample request carries these three dialects, an unset
    (all-zero) client GUID and two contexts. *)
Lemma negotiate_request_scenario_witness :
  SMB3NegotiateRequest.get_dialect_count Samples.negotiate_request = 3
  /\ SMB3NegotiateRequest.get_padding Samples.negotiate_request
     = [x00; x00; x00; x00; x00; x00]
  /\ SMB3NegotiateRequest.get_negotiate_context_offset
       Samples.negotiate_request = 112
  /\ exists mid1 mid2,
       Samples.negotiate_request_wire
       = [x24; x00] ++ [x03; x00] ++ mid1 ++ [x70; x00; x00; x00]
         ++ mid2 ++ [x02; x02; x10; x02; x11; x03]
         ++ [x00; x00; x00; x00; x00; x00]
         ++ Samples.preauth_wire ++ Samples.encryption_wire
       /\ len mid1 = 24 /\ len mid2 = 4.
Proof.
  destruct (negotiate_request_scenario Samples.negotiate_request
              eq_refl eq_refl eq_refl eq_refl eq_refl)
    as (H3 & _ & Hz & H112 & Hpack).
  split; [exact H3 | split; [exact Hz | split; [exact H112|]]].
  destruct (Hpack Samples.negotiate_request_wire eq_refl)
    as (mid1 & mid2 & contexts & Hb & H1 & H2 & Hc).
  exists mid1, mid2. split; [|split; assumption].
  vm_compute in Hc. apply Ok_inj in Hc. rewrite Hb, <- Hc. reflexivity.
Defined.

(** ** 2.2.2 SMB2 Error Response: the error contexts *)

Lemma error_data_value_is_empty (s : SMB2ErrorResponse.t) (data : bytes) :
  SMB2ErrorResponse._error_data_value s data = [].
Proof. reflexivity. Qed.

(** C6, the code at an error response with one error context (9 bytes of
    error data): the count decodes to 1 and byte_count to 9, yet error_data is
    the empty list, where the claim asks for one decoded entry.  An error
    response without contexts does decode to an empty list and a byte_count
    of 0, whatever the reserved byte. *)
Theorem error_contexts_are_not_decoded :
  SMB2ErrorResponse.pack Samples.error_response
  = Ok Samples.error_response_wire
  /\ (forall sr,
        SMB2ErrorResponse.unpack sr Samples.error_response_wire
        = Ok (SMB2ErrorResponse.mk (Some 9) (Some 1) (Some 0) (Some 9) []))
  /\ (forall sr r,
        SMB2ErrorResponse.unpack sr (Samples.empty_error_wire r)
        = Ok (SMB2ErrorResponse.mk (Some 9) (Some 0) (Some (Z_of_byte r))
                (Some 0) [])).
Proof.
  split; [reflexivity | split].
  - intros []; reflexivity.
  - intros [] r; destruct r; reflexivity.
Qed.

(** ** 2.2.13 SMB2 CREATE Request: offsets and the context chain *)

Lemma create_contexts_offset_raises (s : SMB2CreateRequest.t) :
  SMB2CreateContextRequest.length_list (SMB2CreateRequest.buffer_context s)
  <> 0 ->
  SMB2CreateRequest._create_contexts_offset s = Err TypeError.
Proof.
  intros H. apply Z.eqb_neq in H.
  unfold SMB2CreateRequest._create_contexts_offset. now rewrite H.
Qed.

Lemma create_request_with_contexts_does_not_pack (s : SMB2CreateRequest.t)
    (b : bytes) :
  SMB2CreateContextRequest.length_list (SMB2CreateRequest.buffer_context s)
  <> 0 ->
  SMB2CreateRequest.create_contexts_offset s = None ->
  SMB2CreateRequest.pack s <> Ok b.
Proof.
  intros Hl Ho H. unfold SMB2CreateRequest.pack in H.
  unfold SMB2CreateRequest.get_create_contexts_offset in H.
  rewrite Ho, (create_contexts_offset_raises s Hl) in H.
  apply bind_ok in H. destruct H as (f1 & _ & H).
  do 12 (apply bind_ok in H; destruct H as (? & _ & H)).
  discriminate.
Qed.

(** C2, the code at a create request for "a.txt" with one create context (a
    4-byte name and 8 bytes of data): the default of create_contexts_offset
    adds the padding bytes to an integer and raises, so the request does not
    pack, where the claim asks for 120 + 5 + 3 = 128; and the context packs
    data_offset as 16 although its data starts at byte 20 of the entry. *)
Theorem create_offsets_are_not_measured :
  SMB2CreateRequest._create_contexts_offset Samples.create_request
  = Err TypeError
  /\ SMB2CreateRequest.pack Samples.create_request = Err TypeError
  /\ SMB2CreateRequest.get_name_offset Samples.create_request
     + SMB2CreateRequest.get_name_length Samples.create_request
     + len (SMB2CreateRequest.get_padding Samples.create_request) = 128
  /\ SMB2CreateContextRequest.get_data_offset Samples.durable_context = 16
  /\ exists w,
       SMB2CreateContextRequest.pack Samples.durable_context = Ok w
       /\ int_value LittleEndian (slice_to 2 (slice_from 10 w)) = 16
       /\ w = Samples.durable_wire
       /\ slice_from 20 w
          = SMB2CreateContextRequest.buffer_data Samples.durable_context
       /\ slice_from 16 w
          <> SMB2CreateContextRequest.buffer_data Samples.durable_context.
Proof.
  repeat split; try reflexivity.
  eexists. repeat split; try reflexivity.
  vm_compute. discriminate.
Qed.

Lemma while_not_last_keeps_list (sr : short_read) (fuel : nat) :
  forall data l r,
    SMB2CreateRequest.while_not_last sr fuel data l = Some (Ok r) -> r = l.
Proof.
  induction fuel as [|fuel IH]; intros data l r H; [discriminate|].
  cbn [SMB2CreateRequest.while_not_last] in H.
  destruct (SMB2CreateRequest._parse_create_context_entry sr data)
    as [[field rest]|e]; [|discriminate].
  destruct (SMB2CreateContextRequest.get_next field =? 0).
  - now inversion H.
  - eauto.
Qed.

(** C3, the code at a create request whose chain has the three entries A, B,
    C ([next] = 40, 40, 0): unpacking succeeds with an empty buffer_context,
    where the claim asks for the three entries; the loop never appends the
    entry it parsed, so whenever it returns a list, the list is empty. *)
Theorem create_chain_of_three_is_dropped :
  SMB2CreateRequest.pack
    (Samples.chain_request [Samples.entry_A; Samples.entry_B; Samples.entry_C])
  = Ok Samples.chain3_wire
  /\ (forall sr,
        exists r,
          SMB2CreateRequest.unpack sr Samples.chain3_wire = Some (Ok r)
          /\ SMB2CreateRequest.buffer_context r = []
          /\ SMB2CreateRequest.create_contexts_length r = Some (3 * 40))
  /\ (forall sr s data,
        match SMB2CreateRequest._buffer_context_list sr s data with
        | Some (Ok l) => l = []
        | _ => True
        end).
Proof.
  split; [reflexivity | split].
  - intros []; eexists; (split; [vm_compute; reflexivity|]);
      split; reflexivity.
  - intros sr s data.
    destruct (SMB2CreateRequest._buffer_context_list sr s data)
      as [[l|e]|] eqn:E; try exact I.
    exact (while_not_last_keeps_list sr _ _ _ _ E).
Qed.

(** ** 2.2.3 / 2.2.4: the two negotiate-context parsers *)

(** C1, the code at the 3.1.1 negotiate request with a pre-authentication
    context (38 bytes of data, 2 of padding) followed by an encryption
    context: the request parser resumes at [8 + data_length], two bytes
    before the second entry, where the response parser resumes at the entry.
    Unpacking the packed request then does not give the packed bytes back:
    it fails, or decodes a second context of type 0 instead of type 2. *)
Theorem negotiate_request_contexts_are_misparsed :
  SMB3NegotiateRequest.pack Samples.negotiate_request
  = Ok Samples.negotiate_request_wire
  /\ Samples.negotiate_request_wire
     = slice_to 48 Samples.negotiate_request_wire
       ++ Samples.preauth_wire ++ Samples.encryption_wire
  /\ SMB3NegotiateRequest.entry_slices
       (Samples.preauth_wire ++ Samples.encryption_wire)
     = Ok (slice_to 46 Samples.preauth_wire,
           [x00; x00] ++ Samples.encryption_wire)
  /\ SMB2NegotiateResponse.entry_slices
       (Samples.preauth_wire ++ Samples.encryption_wire)
     = Ok (slice_to 46 Samples.preauth_wire, Samples.encryption_wire)
  /\ (forall sr,
        (r <- SMB3NegotiateRequest.unpack sr Samples.negotiate_request_wire ;;
         SMB3NegotiateRequest.pack r)
        <> Ok Samples.negotiate_request_wire)
  /\ SMB3NegotiateRequest.unpack Reject Samples.negotiate_request_wire
     = Err (DecodeError "padding")
  /\ (r <- SMB3NegotiateRequest.unpack Truncate
             Samples.negotiate_request_wire ;;
      Ok (Samples.context_summary
            (SMB3NegotiateRequest.negotiate_context_list r)))
     = Ok [(1, 38); (0, 2)]
  /\ (r <- SMB2NegotiateResponse.unpack Truncate
             Samples.negotiate_response_wire ;;
      Ok (Samples.context_summary
            (SMB2NegotiateResponse.negotiate_context_list r)))
     = Ok [(1, 38); (2, 6)].
Proof.
  repeat split; try reflexivity.
  intros [] H; vm_compute in H; discriminate.
Qed.

(** ** Alignment of the context chains *)

Lemma ints_pack_len (name : string) (size : nat) (items : list Z) (b : bytes) :
  ints_pack name size items = Ok b -> len b = Z.of_nat size * len items.
Proof.
  revert b. induction items as [|i rest IH]; intros b H.
  - inversion H. unfold len. cbn [List.length]. lia.
  - cbn [ints_pack] in H. pack_inv H.
    match goal with
    | Hr : ints_pack _ _ _ = Ok ?r |- _ => specialize (IH r Hr)
    end.
    rewrite len_app, len_int_bytes, IH. unfold len. cbn [List.length]. lia.
Qed.

Lemma pack_data_len (d : SMB2NegotiateContextRequest.context_data)
    (b : bytes) :
  SMB2NegotiateContextRequest.pack_data d = Ok b ->
  len b = SMB2NegotiateContextRequest.data_len d.
Proof.
  destruct d as [p|e|raw]; cbn [SMB2NegotiateContextRequest.pack_data
    SMB2NegotiateContextRequest.data_len]; intros H.
  - unfold SMB2PreauthIntegrityCapabilities.pack in H.
    pack_inv H.
    match goal with
    | Hl : ints_pack _ _ _ = Ok _ |- _ => apply ints_pack_len in Hl
    end.
    unfold SMB2PreauthIntegrityCapabilities.length.
    repeat rewrite len_app. repeat rewrite len_int_bytes. lia.
  - unfold SMB2EncryptionCapabilities.pack in H.
    pack_inv H.
    match goal with
    | Hl : ints_pack _ _ _ = Ok _ |- _ => apply ints_pack_len in Hl
    end.
    unfold SMB2EncryptionCapabilities.length.
    repeat rewrite len_app. repeat rewrite len_int_bytes. lia.
  - now inversion H.
Qed.

Lemma data_len_nonneg (d : SMB2NegotiateContextRequest.context_data) :
  0 <= SMB2NegotiateContextRequest.data_len d.
Proof.
  destruct d as [p|e|raw]; cbn [SMB2NegotiateContextRequest.data_len];
    unfold SMB2PreauthIntegrityCapabilities.length,
      SMB2EncryptionCapabilities.length, len; lia.
Qed.

(** A packed negotiate context is a whole number of 8-byte blocks. *)
Lemma negotiate_context_len_mod8 (s : SMB2NegotiateContextRequest.t)
    (b : bytes) :
  SMB2NegotiateContextRequest.pack s = Ok b -> len b mod 8 = 0.
Proof.
  intros H. unfold SMB2NegotiateContextRequest.pack in H.
  pack_inv H.
  match goal with
  | Hd : SMB2NegotiateContextRequest.pack_data _ = Ok _ |- _ =>
      apply pack_data_len in Hd
  end.
  repeat rewrite len_app. repeat rewrite len_int_bytes.
  match goal with
  | Hp : len (SMB2NegotiateContextRequest.get_padding s) = _ |- _ =>
      rewrite Hp
  end.
  match goal with
  | Hd : len ?d = SMB2NegotiateContextRequest.data_len _ |- _ => rewrite Hd
  end.
  unfold SMB2NegotiateContextRequest._padding_size.
  pose proof (data_len_nonneg (SMB2NegotiateContextRequest.data s)) as Hn.
  set (n := SMB2NegotiateContextRequest.data_len
              (SMB2NegotiateContextRequest.data s)) in *.
  destruct (n <=? 8) eqn:E.
  - replace (Z.of_nat 2 + (Z.of_nat 2 + (Z.of_nat 4 + (n + (8 - n)))))
      with (2 * 8) by lia.
    apply Z.mod_mul. lia.
  - pose proof (Z.div_mod n 8 ltac:(lia)) as Hdm.
    replace (Z.of_nat 2 + (Z.of_nat 2 + (Z.of_nat 4 + (n + (8 - n mod 8)))))
      with ((2 + n / 8) * 8) by lia.
    apply Z.mod_mul. lia.
Qed.

Lemma offsets_from_aligned (entries : list bytes) :
  Forall (fun b => len b mod 8 = 0) entries ->
  forall start,
    start mod 8 = 0 ->
    Forall (fun offset => offset mod 8 = 0) (offsets_from start entries).
Proof.
  induction 1 as [|b rest Hb _ IH]; intros start Hs; cbn [offsets_from].
  - constructor.
  - constructor; [exact Hs|].
    apply IH. rewrite Z.add_mod, Hs, Hb by lia. reflexivity.
Qed.

Lemma pack_each_Forall {A : Type} (pack : A -> result bytes)
    (P : bytes -> Prop) :
  (forall a b, pack a = Ok b -> P b) ->
  forall l entries, pack_each pack l = Ok entries -> Forall P entries.
Proof.
  intros HP. induction l as [|a l IH]; intros entries H.
  - inversion H. constructor.
  - cbn [pack_each] in H. pack_inv H.
    constructor; eauto.
Qed.

Lemma negotiate_pack_list_concat (l : list SMB2NegotiateContextRequest.t) :
  forall entries,
    pack_each SMB2NegotiateContextRequest.pack l = Ok entries ->
    SMB2NegotiateContextRequest.pack_list l = Ok (concat entries).
Proof.
  induction l as [|a l IH]; intros entries H.
  - inversion H. reflexivity.
  - cbn [pack_each] in H. pack_inv H.
    cbn [SMB2NegotiateContextRequest.pack_list concat].
    match goal with
    | Ha : SMB2NegotiateContextRequest.pack a = Ok _ |- _ => rewrite Ha
    end.
    cbn [bind]. erewrite IH by eassumption. reflexivity.
Qed.

(** Create contexts pack back to back as well: two copies of the context
    with a 4-byte name and 8 bytes of data are 28 bytes each. *)
Lemma create_context_chain_offsets :
  exists entries,
    pack_each SMB2CreateContextRequest.pack
      [Samples.durable_context; Samples.durable_context] = Ok entries
    /\ entry_offsets entries = [0; 28].
Proof. eexists. split; reflexivity. Qed.

(** C7, as written, fails for error contexts: two error contexts of one data
    byte each pack to 9 bytes an entry, so the second starts at offset 9. *)
Lemma error_context_chain_is_not_aligned :
  exists entries,
    pack_each SMB2ErrorContextResponse.pack
      [Samples.error_context; Samples.error_context] = Ok entries
    /\ SMB2ErrorContextResponse.pack_list
         [Samples.error_context; Samples.error_context] = Ok (concat entries)
    /\ entry_offsets entries = [0; 9]
    /\ ~ aligned8 entries.
Proof.
  eexists. split; [reflexivity | split; [reflexivity | split]].
  - reflexivity.
  - intros H. inversion H as [|o1 l1 _ H1]. inversion H1 as [|o2 l2 H9 _].
    vm_compute in H9. discriminate.
Qed.

(** C7, amended: in every packed chain of negotiate contexts each entry
    starts at an offset from the start of the chain that is a multiple of 8,
    the padding that closes an entry bringing it to a whole number of 8-byte
    blocks; the list field packs exactly these entries back to back.  Error
    contexts have no padding field and carry no such guarantee. *)
Theorem negotiate_context_chain_is_aligned
    (l : list SMB2NegotiateContextRequest.t) (entries : list bytes) :
  pack_each SMB2NegotiateContextRequest.pack l = Ok entries ->
  aligned8 entries
  /\ SMB2NegotiateContextRequest.pack_list l = Ok (concat entries).
Proof.
  intros H. split.
  - apply offsets_from_aligned; [|reflexivity].
    exact (pack_each_Forall _ _ negotiate_context_len_mod8 l entries H).
  - now apply negotiate_pack_list_concat.
Qed.

(** C7, witness: the two contexts of the sample negotiate request start at
    offsets 0 and 48. *)
Lemma negotiate_context_chain_is_aligned_witness :
  aligned8 [Samples.preauth_wire; Samples.encryption_wire]
  /\ entry_offsets [Samples.preauth_wire; Samples.encryption_wire] = [0; 48].
Proof.
  split.
  - exact (proj1 (negotiate_context_chain_is_aligned
                    [Samples.preauth_context; Samples.encryption_context]
                    [Samples.preauth_wire; Samples.encryption_wire]
                    eq_refl)).
  - reflexivity.
Defined.

(** ** The create-context chain: termination and the role of [next] *)

Lemma IntField_unpack_ok (name : string) (n : nat) (o : byte_order)
    (data rest : bytes) (v : Z) :
  IntField_unpack name n o data = Ok (v, rest) ->
  (n <= List.length data)%nat /\ rest = skipn n data.
Proof.
  unfold IntField_unpack.
  destruct (List.length data <? n)%nat eqn:E; intros H; inversion H.
  apply Nat.ltb_ge in E. split; [exact E | reflexivity].
Qed.

Lemma create_context_unpack_nonempty (sr : short_read) (data : bytes)
    (c : SMB2CreateContextRequest.t) :
  SMB2CreateContextRequest.unpack sr data = Ok c ->
  (4 <= List.length data)%nat.
Proof.
  unfold SMB2CreateContextRequest.unpack. intros H.
  apply bind_ok in H. destruct H as ([v rest] & H & _).
  now apply IntField_unpack_ok in H.
Qed.

Lemma create_context_length_ge (c : SMB2CreateContextRequest.t) :
  16 <= SMB2CreateContextRequest.length c.
Proof. unfold SMB2CreateContextRequest.length, len. lia. Qed.

(** A parsed entry always leaves a strictly shorter buffer. *)
Lemma parse_create_context_entry_shrinks (sr : short_read) (data rest : bytes)
    (c : SMB2CreateContextRequest.t) :
  SMB2CreateRequest._parse_create_context_entry sr data = Ok (c, rest) ->
  (List.length rest < List.length data)%nat.
Proof.
  unfold SMB2CreateRequest._parse_create_context_entry. intros H.
  apply bind_ok in H. destruct H as (c' & Hc & H).
  inversion H; subst c' rest; clear H.
  apply create_context_unpack_nonempty in Hc.
  pose proof (create_context_length_ge c) as Hl.
  unfold slice_from. rewrite length_skipn. lia.
Qed.

Lemma while_not_last_total (sr : short_read) (fuel : nat) :
  forall data l,
    (List.length data < fuel)%nat ->
    exists r, SMB2CreateRequest.while_not_last sr fuel data l = Some r.
Proof.
  induction fuel as [|fuel IH]; intros data l Hlt; [lia|].
  cbn [SMB2CreateRequest.while_not_last].
  destruct (SMB2CreateRequest._parse_create_context_entry sr data)
    as [[field rest]|e] eqn:E; [|eauto].
  destruct (SMB2CreateContextRequest.get_next field =? 0); [eauto|].
  apply IH. apply parse_create_context_entry_shrinks in E. lia.
Qed.

(** A buffer that ends inside the 16 fixed bytes of an entry is rejected. *)
Lemma create_context_header_cut_short (sr : short_read) (data : bytes) :
  (List.length data < 16)%nat ->
  exists field,
    SMB2CreateContextRequest.unpack sr data = Err (DecodeError field).
Proof.
  intros H.
  do 16 (destruct data as [|? data]; [eexists; reflexivity|]).
  cbn [List.length] in H. lia.
Qed.

(** C8, as written, fails: in this create request the first create context
    has [next] = 65536, far outside the 144-byte buffer, and a complete entry
    with [next] = 0 follows it; unpacking returns a request and raises no
    decode failure.  With the last 5 bytes of the buffer missing, the second
    entry is cut inside its data: this is a decode failure only when byte
    fields reject short input; when they take what is left, the request
    unpacks with the shortened entry and nothing is reported. *)
Lemma create_chain_far_next_is_accepted :
  SMB2CreateRequest.pack
    (Samples.chain_request [Samples.entry_far; Samples.entry_C])
  = Ok Samples.far_wire
  /\ SMB2CreateContextRequest.get_next Samples.entry_far = 65536
  /\ len Samples.far_wire = 144
  /\ (forall sr,
        exists r, SMB2CreateRequest.unpack sr Samples.far_wire = Some (Ok r))
  /\ (forall sr,
        ~ exists e, SMB2CreateRequest.unpack sr Samples.far_wire
                    = Some (Err e))
  /\ ChainSamples.cut_wire = slice_to (144 - 5) Samples.far_wire
  /\ (exists r,
        SMB2CreateRequest.unpack Truncate ChainSamples.cut_wire = Some (Ok r))
  /\ SMB2CreateRequest._buffer_context_list Truncate SMB2CreateRequest.new
       ChainSamples.cut_chain = Some (Ok [])
  /\ SMB2CreateRequest._buffer_context_list Reject SMB2CreateRequest.new
       ChainSamples.cut_chain = Some (Err (DecodeError "buffer_data")).
Proof.
  repeat split; try reflexivity.
  - intros []; eexists; vm_compute; reflexivity.
  - intros [] (e & H); vm_compute in H; discriminate.
  - eexists; vm_compute; reflexivity.
Qed.

(** ** Decoding what was packed *)

Lemma IntField_unpack_pack (name : string) (n : nat) (o : byte_order) (v : Z)
    (rest : bytes) :
  0 <= v < 2 ^ (8 * Z.of_nat n) ->
  IntField_unpack name n o (int_bytes o n v ++ rest) = Ok (v, rest).
Proof.
  intros Hv. unfold IntField_unpack.
  rewrite length_app, int_bytes_length.
  destruct (n + List.length rest <? n)%nat eqn:E;
    [apply Nat.ltb_lt in E; lia|].
  rewrite firstn_app, int_bytes_length, Nat.sub_diag, firstn_O, app_nil_r.
  rewrite firstn_all2 by (rewrite int_bytes_length; apply le_n).
  rewrite skipn_app, int_bytes_length, Nat.sub_diag, skipn_O.
  rewrite skipn_all2 by (rewrite int_bytes_length; apply le_n).
  rewrite int_value_int_bytes by exact Hv. reflexivity.
Qed.

Lemma BytesField_unpack_app (sr : short_read) (name : string) (n : Z)
    (v rest : bytes) :
  len v = n ->
  BytesField_unpack sr name (Some n) (v ++ rest) = Ok (v, rest).
Proof.
  intros <-. unfold BytesField_unpack.
  destruct (len (v ++ rest) <? len v) eqn:E.
  - apply Z.ltb_lt in E. rewrite len_app in E.
    pose proof (len_nonneg rest). lia.
  - unfold slice_to, slice_from, len. rewrite Nat2Z.id.
    rewrite firstn_app, Nat.sub_diag, firstn_O, app_nil_r, firstn_all.
    rewrite skipn_app, Nat.sub_diag, skipn_O, skipn_all. reflexivity.
Qed.

Lemma BytesField_unpack_all (sr : short_read) (name : string) (n : Z)
    (v : bytes) :
  len v = n -> BytesField_unpack sr name (Some n) v = Ok (v, []).
Proof.
  intros H. rewrite <- (app_nil_r v) at 1. now apply BytesField_unpack_app.
Qed.

Lemma slice_from_app (pre rest : bytes) (n : Z) :
  len pre = n -> slice_from n (pre ++ rest) = rest.
Proof.
  intros <-. unfold slice_from, len. rewrite Nat2Z.id.
  now rewrite skipn_app, Nat.sub_diag, skipn_O, skipn_all.
Qed.

Lemma slice_to_app (v rest : bytes) (n : Z) :
  len v = n -> slice_to n (v ++ rest) = v.
Proof.
  intros <-. unfold slice_to, len. rewrite Nat2Z.id.
  now rewrite firstn_app, Nat.sub_diag, firstn_O, app_nil_r, firstn_all.
Qed.

Lemma bytes_at_app (pre v rest : bytes) (offset size : Z) :
  len pre = offset -> len v = size ->
  bytes_at offset size (pre ++ v ++ rest) = v.
Proof.
  intros Ho Hs. unfold bytes_at.
  rewrite (slice_from_app pre _ offset Ho). now apply slice_to_app.
Qed.

(** Steps through an [unpack] whose input is a concatenation of packed
    fields. *)
Ltac unpack_int :=
  rewrite IntField_unpack_pack by assumption; cbn [bind].

(** X1: a packed DirectTCPPacket followed by any further bytes unpacks to the
    payload that was packed and its length; the bytes behind the declared
    length are not taken into the message. *)
Theorem direct_tcp_framing (sr : short_read) (p : DirectTCPPacket.t)
    (b extra : bytes) :
  DirectTCPPacket.pack p = Ok b ->
  DirectTCPPacket.unpack sr (b ++ extra)
  = Ok (DirectTCPPacket.mk (Some (len (DirectTCPPacket.smb2_message p)))
          (DirectTCPPacket.smb2_message p)).
Proof.
  intros H. unfold DirectTCPPacket.pack in H. pack_inv H.
  unfold DirectTCPPacket.unpack. rewrite <- app_assoc. unpack_int.
  rewrite BytesField_unpack_app by assumption. cbn [bind].
  match goal with
  | Hl : len _ = DirectTCPPacket.get_stream_protocol_length p |- _ =>
      now rewrite <- Hl
  end.
Qed.

(** X1, witness: two packets back to back; the first one is cut out. *)
Lemma direct_tcp_framing_witness :
  DirectTCPPacket.unpack Reject
    ([x00; x00; x00; x03; x01; x02; x03] ++ [x00; x00; x00; x01; xff])
  = Ok (DirectTCPPacket.mk (Some 3) [x01; x02; x03]).
Proof.
  exact (direct_tcp_framing Reject (DirectTCPPacket.mk None [x01; x02; x03])
           [x00; x00; x00; x03; x01; x02; x03] [x00; x00; x00; x01; xff]
           eq_refl).
Defined.

(** ** 2.2.1 The packet headers *)

(** Replaces the bytes of the unsized byte fields after [pack_inv]. *)
Ltac unsized_inv :=
  repeat match goal with
  | H : BytesField_pack _ None _ = Ok ?f |- _ =>
      cbn [BytesField_pack] in H; apply Ok_inj in H; subst f
  end.

Lemma packet_header_layout (h : SMB2PacketHeader.t) (b : bytes) :
  SMB2PacketHeader.pack h = Ok b ->
  exists fixed, b = fixed ++ SMB2PacketHeader.data h /\ len fixed = 64.
Proof.
  intros H. unfold SMB2PacketHeader.pack in H. pack_inv H. unsized_inv.
  exists (SMB2PacketHeader.get_protocol_id h
          ++ int_bytes LittleEndian 2 (SMB2PacketHeader.get_structure_size h)
          ++ int_bytes LittleEndian 2
               (int_of_none (SMB2PacketHeader.credit_charge h))
          ++ int_bytes LittleEndian 4 (int_of_none (SMB2PacketHeader.status h))
          ++ int_bytes LittleEndian 2
               (int_of_none (SMB2PacketHeader.command h))
          ++ int_bytes LittleEndian 2 (int_of_none (SMB2PacketHeader.credit h))
          ++ int_bytes LittleEndian 4 (int_of_none (SMB2PacketHeader.flags h))
          ++ int_bytes LittleEndian 4
               (int_of_none (SMB2PacketHeader.next_command h))
          ++ int_bytes LittleEndian 8
               (int_of_none (SMB2PacketHeader.message_id h))
          ++ int_bytes LittleEndian 4
               (int_of_none (SMB2PacketHeader.reserved h))
          ++ int_bytes LittleEndian 4
               (int_of_none (SMB2PacketHeader.tree_id h))
          ++ int_bytes LittleEndian 8
               (int_of_none (SMB2PacketHeader.session_id h))
          ++ SMB2PacketHeader.get_signature h).
  split.
  - repeat rewrite <- app_assoc. reflexivity.
  - repeat rewrite len_app. repeat rewrite len_int_bytes. lia.
Qed.

(** X2: a packed SMB2PacketHeader is 64 bytes, the default structure_size,
    followed by its data, and it unpacks to the header that was packed, every
    field set to its resolved value. *)
Theorem packet_header_round_trip (sr : short_read) (h : SMB2PacketHeader.t)
    (b : bytes) :
  SMB2PacketHeader.pack h = Ok b ->
  len b = 64 + len (SMB2PacketHeader.data h)
  /\ slice_from 64 b = SMB2PacketHeader.data h
  /\ SMB2PacketHeader.unpack sr b = Ok (SMB2PacketHeader.resolved h).
Proof.
  intros H.
  destruct (packet_header_layout h b H) as (fixed & Hb & Hlen).
  split; [|split].
  - rewrite Hb, len_app. lia.
  - rewrite Hb. now apply slice_from_app.
  - unfold SMB2PacketHeader.pack in H. pack_inv H. unsized_inv.
    unfold SMB2PacketHeader.unpack. repeat rewrite <- app_assoc.
    rewrite BytesField_unpack_app by assumption. cbn [bind].
    do 11 unpack_int.
    rewrite BytesField_unpack_app by assumption. cbn [bind].
    reflexivity.
Qed.

(** X2, witness: the header with nothing set. *)
Lemma packet_header_round_trip_witness :
  SMB2PacketHeader.unpack Reject
    (packed (SMB2PacketHeader.pack SMB2PacketHeader.new))
  = Ok (SMB2PacketHeader.resolved SMB2PacketHeader.new).
Proof.
  exact (proj2 (proj2 (packet_header_round_trip Reject SMB2PacketHeader.new
                         (packed (SMB2PacketHeader.pack SMB2PacketHeader.new))
                         eq_refl))).
Defined.

Lemma byte_of_Z_eqm (z1 z2 : Z) :
  z1 mod 256 = z2 mod 256 -> byte_of_Z z1 = byte_of_Z z2.
Proof. intros H. unfold byte_of_Z. now rewrite H. Qed.

Lemma BytesField_pack_fits (name : string) (n : Z) (v : bytes) :
  len v = n -> BytesField_pack name (Some n) v = Ok v.
Proof. intros <-. unfold BytesField_pack. now rewrite Z.eqb_refl. Qed.

(** Two 16-bit fields side by side are the 32-bit field of their sum. *)
Lemma int_bytes_halves (a b : Z) :
  0 <= a < 2 ^ (8 * Z.of_nat 2) ->
  0 <= b < 2 ^ (8 * Z.of_nat 2) ->
  int_bytes LittleEndian 4 (a + 65536 * b)
  = int_bytes LittleEndian 2 a ++ int_bytes LittleEndian 2 b
  /\ 0 <= a + 65536 * b < 2 ^ (8 * Z.of_nat 4).
Proof.
  change (2 ^ (8 * Z.of_nat 2)) with 65536.
  change (2 ^ (8 * Z.of_nat 4)) with 4294967296.
  intros Ha Hb. split; [|lia].
  assert (H1 : (a + 65536 * b) / 256 = a / 256 + 256 * b).
  { replace (a + 65536 * b) with (a + (256 * b) * 256) by lia.
    rewrite Z.div_add by lia. lia. }
  assert (H2 : a / 256 / 256 = 0).
  { apply Z.div_small. split.
    - apply Z.div_pos; lia.
    - apply Z.div_lt_upper_bound; lia. }
  assert (H3 : (a + 65536 * b) / 256 / 256 = b).
  { rewrite H1. replace (a / 256 + 256 * b) with (a / 256 + b * 256) by lia.
    rewrite Z.div_add by lia. lia. }
  cbn [int_bytes le_bytes app]. rewrite H3.
  f_equal; [|f_equal].
  - apply byte_of_Z_eqm.
    replace (a + 65536 * b) with (a + (256 * b) * 256) by lia.
    apply Z_mod_plus_full.
  - apply byte_of_Z_eqm. rewrite H1.
    replace (a / 256 + 256 * b) with (a / 256 + b * 256) by lia.
    apply Z_mod_plus_full.
Qed.

(** X3: the SMB3 header is the SMB2 header with other names for bytes 8..11
    and 32..35: whatever an SMB3PacketHeader packs to, the SMB2PacketHeader
    whose status is channel_sequence + 65536 * reserved and whose reserved
    field is the process id packs to the same bytes. *)
Theorem smb3_header_is_smb2_header (h : SMB3PacketHeader.t) (b : bytes) :
  SMB3PacketHeader.pack h = Ok b ->
  SMB2PacketHeader.pack (SMB3PacketHeader.as_smb2 h) = Ok b.
Proof.
  intros H. unfold SMB3PacketHeader.pack in H. pack_inv H. unsized_inv.
  unfold SMB2PacketHeader.pack, SMB3PacketHeader.as_smb2,
    SMB2PacketHeader.get_protocol_id, SMB2PacketHeader.get_structure_size,
    SMB2PacketHeader.get_signature.
  cbn [SMB2PacketHeader.protocol_id SMB2PacketHeader.structure_size
       SMB2PacketHeader.credit_charge SMB2PacketHeader.status
       SMB2PacketHeader.command SMB2PacketHeader.credit SMB2PacketHeader.flags
       SMB2PacketHeader.next_command SMB2PacketHeader.message_id
       SMB2PacketHeader.reserved SMB2PacketHeader.tree_id
       SMB2PacketHeader.session_id SMB2PacketHeader.signature
       SMB2PacketHeader.data int_of_none].
  fold (SMB3PacketHeader.get_protocol_id h).
  fold (SMB3PacketHeader.get_structure_size h).
  fold (SMB3PacketHeader.get_signature h).
  destruct (int_bytes_halves
              (int_of_none (SMB3PacketHeader.channel_sequence h))
              (int_of_none (SMB3PacketHeader.reserved h)))
    as [Hsplit Hrange]; try assumption.
  rewrite (BytesField_pack_fits "protocol_id") by assumption. cbn [bind].
  do 2 (rewrite IntField_pack_fits by assumption; cbn [bind]).
  rewrite (IntField_pack_fits "status") by exact Hrange. cbn [bind].
  rewrite Hsplit.
  do 8 (rewrite IntField_pack_fits by assumption; cbn [bind]).
  rewrite (BytesField_pack_fits "signature") by assumption.
  cbn [bind BytesField_pack].
  repeat rewrite <- app_assoc. reflexivity.
Qed.

(** X3, witness: a header with channel sequence 7 and process id 0xfeff. *)
Lemma smb3_header_is_smb2_header_witness :
  SMB2PacketHeader.pack (SMB3PacketHeader.as_smb2 MoreSamples.smb3_header)
  = SMB3PacketHeader.pack MoreSamples.smb3_header.
Proof.
  exact (smb3_header_is_smb2_header MoreSamples.smb3_header
           (packed (SMB3PacketHeader.pack MoreSamples.smb3_header)) eq_refl).
Defined.

(** ** Buffers at their declared offsets *)

(** A field of the body that lies [offset - 64] bytes into it lies [offset]
    bytes into the packet the header makes of it. *)
Lemma field_in_packet (h : SMB2PacketHeader.t) (body packet pre v rest : bytes)
    (offset size : Z) :
  SMB2PacketHeader.pack (with_data h body) = Ok packet ->
  body = pre ++ v ++ rest ->
  64 + len pre = offset ->
  len v = size ->
  bytes_at offset size packet = v.
Proof.
  intros Hp Hb Ho Hs.
  destruct (packet_header_layout _ _ Hp) as (fixed & -> & Hlen).
  cbn [with_data SMB2PacketHeader.data]. rewrite Hb, app_assoc.
  apply bytes_at_app; [rewrite len_app; lia | exact Hs].
Qed.

(** X4: in a packet made of an SMB2 header and an SMB2SessionSetupRequest
    whose security_buffer_offset was not set, the security buffer is the
    security_buffer_length bytes at security_buffer_offset (88) from the
    start of the header. *)
Theorem session_setup_request_buffer_position (h : SMB2PacketHeader.t)
    (s : SMB2SessionSetupRequest.t) (body packet : bytes) :
  SMB2SessionSetupRequest.security_buffer_offset s = None ->
  SMB2SessionSetupRequest.pack s = Ok body ->
  SMB2PacketHeader.pack (with_data h body) = Ok packet ->
  bytes_at (SMB2SessionSetupRequest.get_security_buffer_offset s)
           (SMB2SessionSetupRequest.get_security_buffer_length s) packet
  = SMB2SessionSetupRequest.buffer s.
Proof.
  intros Ho Hs Hp. unfold SMB2SessionSetupRequest.pack in Hs. pack_inv Hs.
  eapply (field_in_packet h _ packet _ _ []); [exact Hp | | | assumption].
  - rewrite app_nil_r. repeat rewrite app_assoc. reflexivity.
  - unfold SMB2SessionSetupRequest.get_security_buffer_offset.
    rewrite Ho. cbn [resolve].
    repeat rewrite len_app. repeat rewrite len_int_bytes. lia.
Qed.

(** X4, witness: a session setup request that carries 7 bytes. *)
Lemma session_setup_request_buffer_position_witness :
  bytes_at 88 7
    (packed (SMB2PacketHeader.pack
               (with_data SMB2PacketHeader.new
                  (packed (SMB2SessionSetupRequest.pack
                             MoreSamples.session_setup)))))
  = list_byte_of_string "NTLMSSP".
Proof.
  exact (session_setup_request_buffer_position SMB2PacketHeader.new
           MoreSamples.session_setup _ _ eq_refl eq_refl eq_refl).
Defined.

(** X5: in a packet made of an SMB2 header and an SMB2SessionSetupResponse
    whose security_buffer_offset was not set, the security buffer is the
    security_buffer_length bytes at security_buffer_offset (72). *)
Theorem session_setup_response_buffer_position (h : SMB2PacketHeader.t)
    (s : SMB2SessionSetupResponse.t) (body packet : bytes) :
  SMB2SessionSetupResponse.security_buffer_offset s = None ->
  SMB2SessionSetupResponse.pack s = Ok body ->
  SMB2PacketHeader.pack (with_data h body) = Ok packet ->
  bytes_at (SMB2SessionSetupResponse.get_security_buffer_offset s)
           (SMB2SessionSetupResponse.get_security_buffer_length s) packet
  = SMB2SessionSetupResponse.buffer s.
Proof.
  intros Ho Hs Hp. unfold SMB2SessionSetupResponse.pack in Hs. pack_inv Hs.
  eapply (field_in_packet h _ packet _ _ []); [exact Hp | | | assumption].
  - rewrite app_nil_r. repeat rewrite app_assoc. reflexivity.
  - unfold SMB2SessionSetupResponse.get_security_buffer_offset.
    rewrite Ho. cbn [resolve].
    repeat rewrite len_app. repeat rewrite len_int_bytes. lia.
Qed.

(** X5, witness: a session setup response that carries 7 bytes. *)
Lemma session_setup_response_buffer_position_witness :
  bytes_at 72 7
    (packed (SMB2PacketHeader.pack
               (with_data SMB2PacketHeader.new
                  (packed (SMB2SessionSetupResponse.pack
                             MoreSamples.session_setup_response)))))
  = list_byte_of_string "NTLMSSP".
Proof.
  exact (session_setup_response_buffer_position SMB2PacketHeader.new
           MoreSamples.session_setup_response _ _ eq_refl eq_refl eq_refl).
Defined.

(** X6: in a packet made of an SMB2 header and an SMB2TreeConnectRequest
    whose path_offset and path_length were not set, the share path is the
    path_length bytes at path_offset (72), and it runs to the end of the
    packet. *)
Theorem tree_connect_path_position (h : SMB2PacketHeader.t)
    (s : SMB2TreeConnectRequest.t) (body packet : bytes) :
  SMB2TreeConnectRequest.path_offset s = None ->
  SMB2TreeConnectRequest.path_length s = None ->
  SMB2TreeConnectRequest.pack s = Ok body ->
  SMB2PacketHeader.pack (with_data h body) = Ok packet ->
  bytes_at (SMB2TreeConnectRequest.get_path_offset s)
           (SMB2TreeConnectRequest.get_path_length s) packet
  = SMB2TreeConnectRequest.buffer s
  /\ len packet
     = SMB2TreeConnectRequest.get_path_offset s
       + SMB2TreeConnectRequest.get_path_length s.
Proof.
  intros Ho Hl Hs Hp.
  unfold SMB2TreeConnectRequest.get_path_offset,
    SMB2TreeConnectRequest.get_path_length.
  rewrite Ho, Hl. cbn [resolve].
  unfold SMB2TreeConnectRequest.pack in Hs. pack_inv Hs. unsized_inv.
  split.
  - eapply (field_in_packet h _ packet _ _ []);
      [exact Hp | | | reflexivity].
    + rewrite app_nil_r. repeat rewrite app_assoc. reflexivity.
    + repeat rewrite len_app. repeat rewrite len_int_bytes. lia.
  - destruct (packet_header_layout _ _ Hp) as (fixed & -> & Hlen).
    cbn [with_data SMB2PacketHeader.data].
    repeat rewrite len_app. repeat rewrite len_int_bytes. lia.
Qed.

(** X6, witness: a tree connect to a 14-byte path. *)
Lemma tree_connect_path_position_witness :
  bytes_at 72 14
    (packed (SMB2PacketHeader.pack
               (with_data SMB2PacketHeader.new
                  (packed (SMB2TreeConnectRequest.pack
                             MoreSamples.tree_connect)))))
  = SMB2TreeConnectRequest.buffer MoreSamples.tree_connect.
Proof.
  exact (proj1 (tree_connect_path_position SMB2PacketHeader.new
                  MoreSamples.tree_connect _ _ eq_refl eq_refl eq_refl
                  eq_refl)).
Defined.

(** X7: in a packet made of an SMB2 header and an SMB2CreateRequest whose
    name_offset was not set, the file name is the name_length bytes at
    name_offset (120), whether or not create contexts follow. *)
Theorem create_request_name_position (h : SMB2PacketHeader.t)
    (s : SMB2CreateRequest.t) (body packet : bytes) :
  SMB2CreateRequest.name_offset s = None ->
  SMB2CreateRequest.pack s = Ok body ->
  SMB2PacketHeader.pack (with_data h body) = Ok packet ->
  bytes_at (SMB2CreateRequest.get_name_offset s)
           (SMB2CreateRequest.get_name_length s) packet
  = SMB2CreateRequest.buffer_path s.
Proof.
  intros Ho Hs Hp. unfold SMB2CreateRequest.pack in Hs. pack_inv Hs.
  match goal with
  | Hl : SMB2CreateContextRequest.pack_list _ = Ok ?l |- _ =>
      eapply (field_in_packet h _ packet _ (SMB2CreateRequest.buffer_path s)
                (SMB2CreateRequest.get_padding s ++ l));
        [exact Hp | | | assumption]
  end.
  - repeat rewrite app_assoc. reflexivity.
  - unfold SMB2CreateRequest.get_name_offset. rewrite Ho. cbn [resolve].
    repeat rewrite len_app. repeat rewrite len_int_bytes. lia.
Qed.

(** X7, witness: a create request for "a.txt" without contexts. *)
Lemma create_request_name_position_witness :
  bytes_at 120 5
    (packed (SMB2PacketHeader.pack
               (with_data SMB2PacketHeader.new
                  (packed (SMB2CreateRequest.pack
                             MoreSamples.create_request_plain)))))
  = list_byte_of_string "a.txt".
Proof.
  exact (create_request_name_position SMB2PacketHeader.new
           MoreSamples.create_request_plain _ _ eq_refl eq_refl eq_refl).
Defined.

(** X8: an SMB2CreateRequest without create contexts, its context fields and
    padding left unset, resolves create_contexts_offset and
    create_contexts_length to 0 and the padding to nothing; when it packs,
    bytes 48..55 are zero and the file name is all that follows them. *)
Theorem create_request_without_contexts (s : SMB2CreateRequest.t) :
  SMB2CreateRequest.buffer_context s = [] ->
  SMB2CreateRequest.create_contexts_offset s = None ->
  SMB2CreateRequest.create_contexts_length s = None ->
  SMB2CreateRequest.padding s = None ->
  SMB2CreateRequest.get_create_contexts_offset s = Ok 0
  /\ SMB2CreateRequest.get_create_contexts_length s = 0
  /\ SMB2CreateRequest.get_padding s = []
  /\ (forall b,
        SMB2CreateRequest.pack s = Ok b ->
        exists fixed,
          b = fixed ++ [x00; x00; x00; x00; x00; x00; x00; x00]
              ++ SMB2CreateRequest.buffer_path s
          /\ len fixed = 48).
Proof.
  intros Hc Ho Hl Hp.
  assert (H0 : SMB2CreateRequest.get_create_contexts_offset s = Ok 0).
  { unfold SMB2CreateRequest.get_create_contexts_offset,
      SMB2CreateRequest._create_contexts_offset.
    now rewrite Ho, Hc. }
  assert (H1 : SMB2CreateRequest.get_create_contexts_length s = 0).
  { unfold SMB2CreateRequest.get_create_contexts_length.
    now rewrite Hl, Hc. }
  assert (H2 : SMB2CreateRequest.get_padding s = []).
  { unfold SMB2CreateRequest.get_padding, SMB2CreateRequest._padding_size.
    now rewrite Hp, Hc. }
  repeat split; try assumption.
  intros b H. unfold SMB2CreateRequest.pack in H.
  rewrite H0, H1, H2, Hc in H. cbn [bind SMB2CreateContextRequest.pack_list]
    in H.
  pack_inv H.
  eexists. split.
  - rewrite app_nil_r. cbn [app].
    change (int_bytes LittleEndian 4 0) with [x00; x00; x00; x00].
    repeat rewrite app_assoc.
    rewrite <- (app_assoc _ [x00; x00; x00; x00] [x00; x00; x00; x00]).
    rewrite <- (app_assoc _ [x00; x00; x00; x00; x00; x00; x00; x00]).
    reflexivity.
  - repeat rewrite len_app. repeat rewrite len_int_bytes. lia.
Qed.

(** X8, witness: the create request for "a.txt" without contexts. *)
Lemma create_request_without_contexts_witness :
  SMB2CreateRequest.get_create_contexts_offset MoreSamples.create_request_plain
  = Ok 0
  /\ exists fixed,
       packed (SMB2CreateRequest.pack MoreSamples.create_request_plain)
       = fixed ++ [x00; x00; x00; x00; x00; x00; x00; x00]
         ++ list_byte_of_string "a.txt"
       /\ len fixed = 48.
Proof.
  destruct (create_request_without_contexts MoreSamples.create_request_plain
              eq_refl eq_refl eq_refl eq_refl) as (H0 & _ & _ & Hpack).
  split; [exact H0|].
  exact (Hpack _ eq_refl).
Defined.

(** X9: in a packet made of an SMB2 header and an SMB2IOCTLRequest with a
    non-empty buffer and input_offset and structure_size left unset, the
    buffer is the input_count bytes at input_offset (120). *)
Theorem ioctl_buffer_position (h : SMB2PacketHeader.t)
    (s : SMB2IOCTLRequest.t) (body packet : bytes) :
  SMB2IOCTLRequest.input_offset s = None ->
  SMB2IOCTLRequest.structure_size s = None ->
  SMB2IOCTLRequest.buffer s <> [] ->
  SMB2IOCTLRequest.pack s = Ok body ->
  SMB2PacketHeader.pack (with_data h body) = Ok packet ->
  bytes_at (SMB2IOCTLRequest.get_input_offset s)
           (SMB2IOCTLRequest.get_input_count s) packet
  = SMB2IOCTLRequest.buffer s.
Proof.
  intros Ho Hss Hne Hs Hp.
  assert (H120 : SMB2IOCTLRequest.get_input_offset s = 120).
  { unfold SMB2IOCTLRequest.get_input_offset,
      SMB2IOCTLRequest._buffer_offset_value,
      SMB2IOCTLRequest.get_structure_size.
    rewrite Ho, Hss. cbn [resolve].
    destruct (SMB2IOCTLRequest.buffer s); [congruence | reflexivity]. }
  rewrite H120. unfold SMB2IOCTLRequest.pack in Hs. pack_inv Hs.
  eapply (field_in_packet h _ packet _ _ []); [exact Hp | | | assumption].
  - rewrite app_nil_r. repeat rewrite app_assoc. reflexivity.
  - repeat rewrite len_app. repeat rewrite len_int_bytes. lia.
Qed.

(** X9, witness: the request with a 4-byte buffer. *)
Lemma ioctl_buffer_position_witness :
  bytes_at 120 4
    (packed (SMB2PacketHeader.pack
               (with_data SMB2PacketHeader.new Samples.ioctl_request_wire)))
  = [x01; x02; x03; x04].
Proof.
  refine (ioctl_buffer_position SMB2PacketHeader.new Samples.ioctl_request
            _ _ eq_refl eq_refl _ eq_refl eq_refl).
  discriminate.
Defined.

(** ** The negotiate messages: where the contexts start *)

(** X10: in a packet made of an SMB2 header and an SMB2NegotiateResponse
    whose security_buffer_offset was not set, the security buffer is the
    security_buffer_length bytes at security_buffer_offset (128). *)
Theorem negotiate_response_buffer_position (h : SMB2PacketHeader.t)
    (s : SMB2NegotiateResponse.t) (body packet : bytes) :
  SMB2NegotiateResponse.security_buffer_offset s = None ->
  SMB2NegotiateResponse.pack s = Ok body ->
  SMB2PacketHeader.pack (with_data h body) = Ok packet ->
  bytes_at (SMB2NegotiateResponse.get_security_buffer_offset s)
           (SMB2NegotiateResponse.get_security_buffer_length s) packet
  = SMB2NegotiateResponse.buffer s.
Proof.
  intros Ho Hs Hp. unfold SMB2NegotiateResponse.pack in Hs. pack_inv Hs.
  match goal with
  | Hl : SMB2NegotiateContextRequest.pack_list _ = Ok ?l |- _ =>
      eapply (field_in_packet h _ packet _ (SMB2NegotiateResponse.buffer s)
                (SMB2NegotiateResponse.get_padding s ++ l));
        [exact Hp | | | assumption]
  end.
  - repeat rewrite app_assoc. reflexivity.
  - unfold SMB2NegotiateResponse.get_security_buffer_offset.
    rewrite Ho. cbn [resolve].
    repeat rewrite len_app. repeat rewrite len_int_bytes. lia.
Qed.

(** X10, witness: the 3.0.2 response with a 3-byte security buffer. *)
Lemma negotiate_response_buffer_position_witness :
  bytes_at 128 3
    (packed (SMB2PacketHeader.pack
               (with_data SMB2PacketHeader.new
                  (packed (SMB2NegotiateResponse.pack
                             Samples.negotiate_response_302)))))
  = [x01; x02; x03].
Proof.
  exact (negotiate_response_buffer_position SMB2PacketHeader.new
           Samples.negotiate_response_302 _ _ eq_refl eq_refl eq_refl).
Defined.

Lemma response_padding_aligns (s : SMB2NegotiateResponse.t) :
  SMB2NegotiateResponse.get_negotiate_context_count s <> 0 ->
  (SMB2NegotiateResponse.get_security_buffer_length s
   + SMB2NegotiateResponse._padding_size s) mod 8 = 0.
Proof.
  intros Hc. apply Z.eqb_neq in Hc.
  unfold SMB2NegotiateResponse._padding_size. rewrite Hc.
  set (n := SMB2NegotiateResponse.get_security_buffer_length s).
  pose proof (Z.div_mod n 8 ltac:(lia)) as Hdm.
  destruct (n mod 8 =? 0) eqn:E.
  - apply Z.eqb_eq in E. now rewrite Z.add_0_r.
  - replace (n + (8 - n mod 8)) with ((n / 8 + 1) * 8) by lia.
    apply Z.mod_mul. lia.
Qed.

(** X11: in a packet made of an SMB2 header and a 3.1.1
    SMB2NegotiateResponse whose negotiate_context_offset and
    security_buffer_offset were not set, the packed negotiate contexts are
    the bytes from negotiate_context_offset to the end of the packet, and
    when the response counts at least one context that offset is a multiple
    of 8. *)
Theorem negotiate_response_context_position (h : SMB2PacketHeader.t)
    (s : SMB2NegotiateResponse.t) (body packet : bytes) :
  SMB2NegotiateResponse.get_dialect_revision s = Dialects.SMB_3_1_1 ->
  SMB2NegotiateResponse.negotiate_context_offset s = None ->
  SMB2NegotiateResponse.security_buffer_offset s = None ->
  SMB2NegotiateResponse.pack s = Ok body ->
  SMB2PacketHeader.pack (with_data h body) = Ok packet ->
  SMB2NegotiateContextRequest.pack_list
    (SMB2NegotiateResponse.negotiate_context_list s)
  = Ok (slice_from (SMB2NegotiateResponse.get_negotiate_context_offset s)
          packet)
  /\ (SMB2NegotiateResponse.get_negotiate_context_count s <> 0 ->
      SMB2NegotiateResponse.get_negotiate_context_offset s mod 8 = 0).
Proof.
  intros Hd Ho Hb Hs Hp.
  assert (Hoff : SMB2NegotiateResponse.get_negotiate_context_offset s
                 = 128 + SMB2NegotiateResponse.get_security_buffer_length s
                   + SMB2NegotiateResponse._padding_size s).
  { unfold SMB2NegotiateResponse.get_negotiate_context_offset,
      SMB2NegotiateResponse._negotiate_context_offset_value,
      SMB2NegotiateResponse.get_security_buffer_offset.
    apply Z.eqb_eq in Hd. now rewrite Ho, Hd, Hb. }
  split.
  - unfold SMB2NegotiateResponse.pack in Hs. pack_inv Hs.
    destruct (packet_header_layout _ _ Hp) as (fixed & -> & Hlen).
    cbn [with_data SMB2PacketHeader.data].
    match goal with
    | Hl : SMB2NegotiateContextRequest.pack_list _ = Ok ?l |- _ =>
        rewrite Hl; f_equal; symmetry
    end.
    repeat rewrite app_assoc. apply slice_from_app.
    rewrite Hoff.
    repeat rewrite len_app. repeat rewrite len_int_bytes. lia.
  - intros Hc. rewrite Hoff.
    pose proof (response_padding_aligns s Hc) as Ha.
    replace (128 + SMB2NegotiateResponse.get_security_buffer_length s
             + SMB2NegotiateResponse._padding_size s)
      with ((SMB2NegotiateResponse.get_security_buffer_length s
             + SMB2NegotiateResponse._padding_size s) + 16 * 8) by lia.
    now rewrite Z_mod_plus_full.
Qed.

(** X11, witness: the 3.1.1 response with two contexts; they start at byte
    128 of the packet. *)
Lemma negotiate_response_context_position_witness :
  slice_from 128
    (packed (SMB2PacketHeader.pack
               (with_data SMB2PacketHeader.new
                  Samples.negotiate_response_wire)))
  = Samples.preauth_wire ++ Samples.encryption_wire
  /\ SMB2NegotiateResponse.get_negotiate_context_offset
       Samples.negotiate_response mod 8 = 0.
Proof.
  destruct (negotiate_response_context_position SMB2PacketHeader.new
              Samples.negotiate_response Samples.negotiate_response_wire
              (packed (SMB2PacketHeader.pack
                         (with_data SMB2PacketHeader.new
                            Samples.negotiate_response_wire)))
              eq_refl eq_refl eq_refl eq_refl eq_refl) as [Hl Ha].
  split.
  - vm_compute in Hl. apply Ok_inj in Hl. vm_compute. exact (eq_sym Hl).
  - apply Ha. discriminate.
Defined.

(** X12: in a packet made of an SMB2 header and an SMB3NegotiateRequest
    whose negotiate_context_offset and structure_size were not set, the
    packed negotiate contexts are the bytes from negotiate_context_offset to
    the end of the packet, for every list of dialects. *)
Theorem negotiate_request_context_position (h : SMB2PacketHeader.t)
    (s : SMB3NegotiateRequest.t) (body packet : bytes) :
  SMB3NegotiateRequest.negotiate_context_offset s = None ->
  SMB3NegotiateRequest.structure_size s = None ->
  SMB3NegotiateRequest.pack s = Ok body ->
  SMB2PacketHeader.pack (with_data h body) = Ok packet ->
  SMB2NegotiateContextRequest.pack_list
    (SMB3NegotiateRequest.negotiate_context_list s)
  = Ok (slice_from (SMB3NegotiateRequest.get_negotiate_context_offset s)
          packet).
Proof.
  intros Ho Hss Hs Hp.
  unfold SMB3NegotiateRequest.get_negotiate_context_offset,
    SMB3NegotiateRequest._negotiate_context_offset_value,
    SMB3NegotiateRequest.get_structure_size.
  rewrite Ho, Hss. cbn [resolve].
  unfold SMB3NegotiateRequest.pack in Hs. pack_inv Hs.
  destruct (packet_header_layout _ _ Hp) as (fixed & -> & Hlen).
  cbn [with_data SMB2PacketHeader.data].
  match goal with
  | Hl : SMB2NegotiateContextRequest.pack_list _ = Ok ?l |- _ =>
      rewrite Hl; f_equal; symmetry
  end.
  match goal with
  | Hd : ints_pack _ _ _ = Ok _ |- _ => apply ints_pack_len in Hd
  end.
  repeat rewrite app_assoc. apply slice_from_app.
  repeat rewrite len_app. repeat rewrite len_int_bytes. lia.
Qed.

(** X12, witness: the sample request; its contexts start at byte 112. *)
Lemma negotiate_request_context_position_witness :
  SMB2NegotiateContextRequest.pack_list
    [Samples.preauth_context; Samples.encryption_context]
  = Ok (slice_from 112
          (packed (SMB2PacketHeader.pack
                     (with_data SMB2PacketHeader.new
                        Samples.negotiate_request_wire)))).
Proof.
  exact (negotiate_request_context_position SMB2PacketHeader.new
           Samples.negotiate_request Samples.negotiate_request_wire
           (packed (SMB2PacketHeader.pack
                      (with_data SMB2PacketHeader.new
                         Samples.negotiate_request_wire)))
           eq_refl eq_refl eq_refl eq_refl).
Defined.

(** X13: with structure_size, dialect_count and negotiate_context_offset
    left unset, the negotiate_context_offset of an SMB3NegotiateRequest is
    100 + 2n + (2n mod 8) for n dialects, which is a multiple of 8 exactly
    when the number of dialects is odd. *)
Theorem negotiate_request_offset_alignment (s : SMB3NegotiateRequest.t) :
  SMB3NegotiateRequest.negotiate_context_offset s = None ->
  SMB3NegotiateRequest.structure_size s = None ->
  SMB3NegotiateRequest.dialect_count s = None ->
  SMB3NegotiateRequest.get_negotiate_context_offset s
  = 100 + 2 * len (SMB3NegotiateRequest.dialects s)
    + (2 * len (SMB3NegotiateRequest.dialects s)) mod 8
  /\ (SMB3NegotiateRequest.get_negotiate_context_offset s mod 8 = 0
      <-> Z.odd (len (SMB3NegotiateRequest.dialects s)) = true).
Proof.
  intros Ho Hss Hdc.
  set (n := len (SMB3NegotiateRequest.dialects s)).
  assert (Hoff : SMB3NegotiateRequest.get_negotiate_context_offset s
                 = 100 + 2 * n + (2 * n) mod 8).
  { unfold SMB3NegotiateRequest.get_negotiate_context_offset,
      SMB3NegotiateRequest._negotiate_context_offset_value,
      SMB3NegotiateRequest.get_structure_size,
      SMB3NegotiateRequest._padding_size,
      SMB3NegotiateRequest.get_dialect_count.
    rewrite Ho, Hss, Hdc. cbn [resolve]. fold n.
    replace (n * 2) with (2 * n) by lia.
    destruct ((2 * n) mod 8 =? 0) eqn:E; [apply Z.eqb_eq in E|]; lia. }
  split; [exact Hoff|]. rewrite Hoff.
  assert (Hn : 0 <= n) by apply len_nonneg.
  pose proof (Z.div_mod n 4 ltac:(lia)) as Hdm.
  pose proof (Z.mod_pos_bound n 4 ltac:(lia)) as Hr.
  set (q := n / 4) in *. set (r := n mod 4) in *.
  assert (Hm : (2 * n) mod 8 = 2 * r).
  { replace (2 * n) with (2 * r + q * 8) by lia.
    rewrite Z_mod_plus_full. apply Z.mod_small. lia. }
  rewrite Hm.
  replace (100 + 2 * n + 2 * r) with ((4 + 4 * r) + (12 + q) * 8) by lia.
  rewrite Z_mod_plus_full.
  assert (Hodd : Z.odd n = Z.odd r).
  { rewrite Hdm. replace (4 * q + r) with (r + 2 * (2 * q)) by lia.
    apply Z.odd_add_mul_2. }
  rewrite Hodd.
  assert (Hcases : r = 0 \/ r = 1 \/ r = 2 \/ r = 3) by lia.
  destruct Hcases as [-> | [-> | [-> | ->]]]; cbn; split; intros H;
    (reflexivity || discriminate).
Qed.

(** X13, witness: three dialects give the aligned offset 112. *)
Lemma negotiate_request_offset_alignment_witness :
  SMB3NegotiateRequest.get_negotiate_context_offset Samples.negotiate_request
    mod 8 = 0.
Proof.
  apply (proj2 (negotiate_request_offset_alignment Samples.negotiate_request
                  eq_refl eq_refl eq_refl)).
  reflexivity.
Defined.

(** ** The create-context entry codec *)

Lemma create_context_unpack_pack (sr : short_read)
    (e : SMB2CreateContextRequest.t) (w rest : bytes) :
  SMB2CreateContextRequest.pack e = Ok w ->
  SMB2CreateContextRequest.unpack sr (w ++ rest)
  = Ok (Resolved.create_context e)
  /\ len w = SMB2CreateContextRequest.length e.
Proof.
  intros H. unfold SMB2CreateContextRequest.pack in H. pack_inv H.
  split.
  - unfold SMB2CreateContextRequest.unpack. repeat rewrite <- app_assoc.
    do 6 unpack_int.
    rewrite BytesField_unpack_app by assumption. cbn [bind].
    match goal with
    | |- context [SMB2CreateContextRequest._padding_size ?s] =>
        change (SMB2CreateContextRequest._padding_size s)
          with (SMB2CreateContextRequest._padding_size e)
    end.
    rewrite BytesField_unpack_app by assumption. cbn [bind].
    rewrite BytesField_unpack_app by assumption. cbn [bind].
    reflexivity.
  - unfold SMB2CreateContextRequest.length.
    repeat rewrite len_app. repeat rewrite len_int_bytes. lia.
Qed.

(** X14: parsing a packed create context that is followed by further bytes
    gives the context back, every field set to the value that was packed,
    and leaves exactly the bytes that follow it. *)
Theorem parse_create_context_entry_pack (sr : short_read)
    (e : SMB2CreateContextRequest.t) (w rest : bytes) :
  SMB2CreateContextRequest.pack e = Ok w ->
  SMB2CreateRequest._parse_create_context_entry sr (w ++ rest)
  = Ok (Resolved.create_context e, rest).
Proof.
  intros H.
  destruct (create_context_unpack_pack sr e w rest H) as [Hu Hl].
  unfold SMB2CreateRequest._parse_create_context_entry.
  rewrite Hu. cbn [bind]. f_equal. f_equal.
  apply slice_from_app. rewrite Hl.
  unfold SMB2CreateContextRequest.length, Resolved.create_context,
    SMB2CreateContextRequest.get_padding.
  reflexivity.
Qed.

(** X14, witness: entry A of the sample chain, followed by entry C. *)
Lemma parse_create_context_entry_pack_witness :
  SMB2CreateRequest._parse_create_context_entry Reject
    (packed (SMB2CreateContextRequest.pack Samples.entry_A)
     ++ packed (SMB2CreateContextRequest.pack Samples.entry_C))
  = Ok (Resolved.create_context Samples.entry_A,
        packed (SMB2CreateContextRequest.pack Samples.entry_C)).
Proof.
  exact (parse_create_context_entry_pack Reject Samples.entry_A
           (packed (SMB2CreateContextRequest.pack Samples.entry_A))
           (packed (SMB2CreateContextRequest.pack Samples.entry_C)) eq_refl).
Defined.

(** ** 2.2.2 SMB2 Error Response: what is packed *)

Lemma error_context_pack_len (e : SMB2ErrorContextResponse.t) (b : bytes) :
  SMB2ErrorContextResponse.pack e = Ok b ->
  len b = SMB2ErrorContextResponse.length e.
Proof.
  intros H. unfold SMB2ErrorContextResponse.pack in H. pack_inv H.
  unfold SMB2ErrorContextResponse.length.
  repeat rewrite len_app. repeat rewrite len_int_bytes. lia.
Qed.

Lemma error_pack_list_len (l : list SMB2ErrorContextResponse.t) :
  forall b,
    SMB2ErrorContextResponse.pack_list l = Ok b ->
    len b = SMB2ErrorContextResponse.length_list l.
Proof.
  induction l as [|e l IH]; intros b H.
  - apply Ok_inj in H. now subst b.
  - cbn [SMB2ErrorContextResponse.pack_list] in H. pack_inv H.
    cbn [SMB2ErrorContextResponse.length_list]. rewrite len_app.
    match goal with
    | He : SMB2ErrorContextResponse.pack e = Ok _ |- _ =>
        apply error_context_pack_len in He; rewrite He
    end.
    erewrite IH by eassumption. reflexivity.
Qed.

(** X15: whenever an SMB2ErrorResponse with error_context_count and
    byte_count left unset packs, its third byte is the number of error
    contexts, bytes 4..7 are the byte length of the packed contexts, and the
    packed contexts follow as the rest of the message. *)
Theorem error_response_pack_counts (s : SMB2ErrorResponse.t) (b : bytes) :
  SMB2ErrorResponse.error_context_count s = None ->
  SMB2ErrorResponse.byte_count s = None ->
  SMB2ErrorResponse.pack s = Ok b ->
  exists contexts,
    SMB2ErrorContextResponse.pack_list (SMB2ErrorResponse.error_data s)
    = Ok contexts
    /\ b = int_bytes LittleEndian 2 (SMB2ErrorResponse.get_structure_size s)
           ++ int_bytes LittleEndian 1 (len (SMB2ErrorResponse.error_data s))
           ++ int_bytes LittleEndian 1
                (int_of_none (SMB2ErrorResponse.reserved s))
           ++ int_bytes LittleEndian 4 (len contexts)
           ++ contexts
    /\ len (SMB2ErrorResponse.error_data s) < 256.
Proof.
  intros Hc Hb H. unfold SMB2ErrorResponse.pack in H.
  unfold SMB2ErrorResponse.get_error_context_count,
    SMB2ErrorResponse.get_byte_count in H.
  rewrite Hc, Hb in H. cbn [resolve] in H. pack_inv H.
  match goal with
  | Hl : SMB2ErrorContextResponse.pack_list _ = Ok ?l |- _ =>
      exists l; pose proof (error_pack_list_len _ _ Hl) as Hlen
  end.
  split; [assumption | split].
  - now rewrite Hlen.
  - match goal with
    | Hr : 0 <= len (SMB2ErrorResponse.error_data s) < _ |- _ =>
        change (2 ^ (8 * Z.of_nat 1)) with 256 in Hr; lia
    end.
Qed.

(** X15, witness: an error response with two 9-byte error contexts. *)
Lemma error_response_pack_counts_witness :
  exists contexts,
    packed (SMB2ErrorResponse.pack MoreSamples.error_response2)
    = [x09; x00] ++ [x02] ++ [x00] ++ [x12; x00; x00; x00] ++ contexts
    /\ len contexts = 18.
Proof.
  destruct (error_response_pack_counts MoreSamples.error_response2
              (packed (SMB2ErrorResponse.pack MoreSamples.error_response2))
              eq_refl eq_refl eq_refl) as (contexts & Hl & Hb & _).
  exists contexts. vm_compute in Hl. apply Ok_inj in Hl. subst contexts.
  split; [exact Hb | reflexivity].
Defined.

(** ** The negotiate-context entry codec *)

Lemma ints_unpack_pack (name name' : string) (size : nat) (items : list Z) :
  forall b rest,
    ints_pack name size items = Ok b ->
    ints_unpack name' size (List.length items) (b ++ rest) = Ok (items, rest).
Proof.
  induction items as [|i items IH]; intros b rest H.
  - apply Ok_inj in H. now subst b.
  - cbn [ints_pack] in H. pack_inv H.
    cbn [ints_unpack List.length]. rewrite <- app_assoc. unpack_int.
    erewrite IH by eassumption. reflexivity.
Qed.

Lemma int_list_unpack_pack (sr : short_read) (name : string) (count : Z)
    (items : list Z) (b rest : bytes) :
  ints_pack name 2 items = Ok b ->
  len b = count * 2 ->
  IntListField_unpack sr name 2 (count * 2) count (b ++ rest)
  = Ok (items, rest).
Proof.
  intros Hp Hc. unfold IntListField_unpack.
  rewrite BytesField_unpack_app by exact Hc. cbn [bind].
  pose proof (ints_pack_len _ _ _ _ Hp) as Hl.
  assert (Hn : Z.to_nat count = List.length items)
    by (unfold len in *; lia).
  rewrite Hn, <- (app_nil_r b).
  erewrite ints_unpack_pack by eassumption. reflexivity.
Qed.

Lemma preauth_round_trip (sr : short_read)
    (p : SMB2PreauthIntegrityCapabilities.t) (w : bytes) :
  SMB2PreauthIntegrityCapabilities.pack p = Ok w ->
  SMB2PreauthIntegrityCapabilities.unpack sr w = Ok (Resolved.preauth p).
Proof.
  intros H. unfold SMB2PreauthIntegrityCapabilities.pack in H. pack_inv H.
  unfold SMB2PreauthIntegrityCapabilities.unpack.
  do 2 unpack_int.
  erewrite int_list_unpack_pack by eassumption. cbn [bind].
  rewrite BytesField_unpack_all by assumption. reflexivity.
Qed.

Lemma encryption_round_trip (sr : short_read)
    (e : SMB2EncryptionCapabilities.t) (w : bytes) :
  SMB2EncryptionCapabilities.pack e = Ok w ->
  SMB2EncryptionCapabilities.unpack sr w = Ok (Resolved.encryption e).
Proof.
  intros H. unfold SMB2EncryptionCapabilities.pack in H. pack_inv H.
  unfold SMB2EncryptionCapabilities.unpack.
  unpack_int. rewrite <- (app_nil_r f).
  erewrite int_list_unpack_pack by eassumption. reflexivity.
Qed.

Lemma unpack_data_pack_data (sr : short_read)
    (d : SMB2NegotiateContextRequest.context_data) (w : bytes) :
  SMB2NegotiateContextRequest.pack_data d = Ok w ->
  SMB2NegotiateContextRequest.unpack_data sr (Resolved.type_of d) w
  = Ok (Resolved.context_data d).
Proof.
  intros H.
  destruct d as [p|e|raw];
    cbn [SMB2NegotiateContextRequest.pack_data Resolved.type_of
         SMB2NegotiateContextRequest.unpack_data Resolved.context_data] in *.
  - now rewrite (preauth_round_trip sr p w H).
  - now rewrite (encryption_round_trip sr e w H).
  - apply Ok_inj in H. now subst w.
Qed.

(** X16: a packed SMB2PreauthIntegrityCapabilities or
    SMB2EncryptionCapabilities body unpacks, as the body class of its own
    kind, to the body that was packed, its counts and lengths set to the
    measured ones. *)
Theorem capabilities_round_trip (sr : short_read)
    (d : SMB2NegotiateContextRequest.context_data) (w : bytes) :
  SMB2NegotiateContextRequest.pack_data d = Ok w ->
  SMB2NegotiateContextRequest.unpack_data sr (Resolved.type_of d) w
  = Ok (Resolved.context_data d)
  /\ len w = SMB2NegotiateContextRequest.data_len d.
Proof.
  intros H. split.
  - now apply unpack_data_pack_data.
  - now apply pack_data_len.
Qed.

(** X16, witness: the pre-authentication body of the sample request. *)
Lemma capabilities_round_trip_witness :
  SMB2PreauthIntegrityCapabilities.unpack Reject
    (packed (SMB2PreauthIntegrityCapabilities.pack
               (SMB2PreauthIntegrityCapabilities.mk None None [1]
                  Samples.salt32)))
  = Ok (SMB2PreauthIntegrityCapabilities.mk (Some 1) (Some 32) [1]
          Samples.salt32).
Proof.
  pose proof (proj1 (capabilities_round_trip Reject
                (SMB2NegotiateContextRequest.Preauth
                   (SMB2PreauthIntegrityCapabilities.mk None None [1]
                      Samples.salt32))
                (packed (SMB2PreauthIntegrityCapabilities.pack
                           (SMB2PreauthIntegrityCapabilities.mk None None [1]
                              Samples.salt32)))
                eq_refl)) as H.
  cbn [Resolved.type_of SMB2NegotiateContextRequest.unpack_data
       Resolved.context_data] in H.
  destruct (SMB2PreauthIntegrityCapabilities.unpack Reject _) as [p|e];
    cbn [bind] in H; [|discriminate].
  apply Ok_inj in H. injection H as ->. reflexivity.
Defined.

Lemma resolved_data_len (d : SMB2NegotiateContextRequest.context_data) :
  SMB2NegotiateContextRequest.data_len (Resolved.context_data d)
  = SMB2NegotiateContextRequest.data_len d.
Proof. destruct d; reflexivity. Qed.

Lemma well_typed_type_of (c : SMB2NegotiateContextRequest.t) :
  Resolved.well_typed c = true ->
  SMB2NegotiateContextRequest._data_structure_type c
  = Resolved.type_of (SMB2NegotiateContextRequest.data c).
Proof.
  unfold Resolved.well_typed.
  destruct (SMB2NegotiateContextRequest._data_structure_type c) as [[|]|];
    destruct (SMB2NegotiateContextRequest.data c);
    intros H; (reflexivity || discriminate).
Qed.

(** X17: a packed SMB2NegotiateContextRequest whose data is the body class
    its context_type selects unpacks, from its own bytes with the padding
    included, to the context that was packed, every field set to the value
    on the wire. *)
Theorem negotiate_context_round_trip (sr : short_read)
    (c : SMB2NegotiateContextRequest.t) (w : bytes) :
  SMB2NegotiateContextRequest.pack c = Ok w ->
  Resolved.well_typed c = true ->
  SMB2NegotiateContextRequest.unpack sr w
  = Ok (Resolved.negotiate_context c).
Proof.
  intros H Ht. unfold SMB2NegotiateContextRequest.pack in H. pack_inv H.
  unfold SMB2NegotiateContextRequest.unpack.
  do 3 unpack_int.
  match goal with
  | |- context [SMB2NegotiateContextRequest.get_data_length ?s] =>
      change (SMB2NegotiateContextRequest.get_data_length s)
        with (SMB2NegotiateContextRequest.get_data_length c)
  end.
  rewrite BytesField_unpack_app by assumption. cbn [bind].
  match goal with
  | |- context [SMB2NegotiateContextRequest._data_structure_type ?s] =>
      change (SMB2NegotiateContextRequest._data_structure_type s)
        with (SMB2NegotiateContextRequest._data_structure_type c)
  end.
  rewrite (well_typed_type_of c Ht).
  erewrite unpack_data_pack_data by eassumption. cbn [bind].
  match goal with
  | |- context [SMB2NegotiateContextRequest._padding_size ?s] =>
      replace (SMB2NegotiateContextRequest._padding_size s)
        with (SMB2NegotiateContextRequest._padding_size c)
        by (unfold SMB2NegotiateContextRequest._padding_size;
            cbn [SMB2NegotiateContextRequest.data];
            now rewrite resolved_data_len)
  end.
  rewrite BytesField_unpack_all by assumption. reflexivity.
Qed.

(** X17, witness: the pre-authentication context of the sample request,
    from its 48 bytes. *)
Lemma negotiate_context_round_trip_witness :
  SMB2NegotiateContextRequest.unpack Reject Samples.preauth_wire
  = Ok (Resolved.negotiate_context Samples.preauth_context).
Proof.
  exact (negotiate_context_round_trip Reject Samples.preauth_context
           Samples.preauth_wire eq_refl eq_refl).
Defined.

(** X18: in a packet made of an SMB2 header and an SMB2CreateRequest that
    carries create contexts, with name_offset left unset, the packed
    contexts are the bytes from 120 + name_length + padding size to the end
    of the packet, and that offset is a multiple of 8. *)
Theorem create_request_chain_position (h : SMB2PacketHeader.t)
    (s : SMB2CreateRequest.t) (body packet : bytes) :
  SMB2CreateRequest.name_offset s = None ->
  SMB2CreateContextRequest.length_list (SMB2CreateRequest.buffer_context s)
  <> 0 ->
  SMB2CreateRequest.pack s = Ok body ->
  SMB2PacketHeader.pack (with_data h body) = Ok packet ->
  SMB2CreateContextRequest.pack_list (SMB2CreateRequest.buffer_context s)
  = Ok (slice_from (SMB2CreateRequest.get_name_offset s
                    + SMB2CreateRequest.get_name_length s
                    + SMB2CreateRequest._padding_size s) packet)
  /\ (SMB2CreateRequest.get_name_offset s
      + SMB2CreateRequest.get_name_length s
      + SMB2CreateRequest._padding_size s) mod 8 = 0.
Proof.
  intros Ho Hc Hs Hp.
  unfold SMB2CreateRequest.get_name_offset. rewrite Ho. cbn [resolve].
  split.
  - unfold SMB2CreateRequest.pack in Hs. pack_inv Hs.
    destruct (packet_header_layout _ _ Hp) as (fixed & -> & Hlen).
    cbn [with_data SMB2PacketHeader.data].
    match goal with
    | Hl : SMB2CreateContextRequest.pack_list _ = Ok ?l |- _ =>
        rewrite Hl; f_equal; symmetry
    end.
    repeat rewrite app_assoc. apply slice_from_app.
    repeat rewrite len_app. repeat rewrite len_int_bytes. lia.
  - apply Z.eqb_neq in Hc.
    unfold SMB2CreateRequest._padding_size. rewrite Hc.
    set (n := SMB2CreateRequest.get_name_length s).
    pose proof (Z.div_mod n 8 ltac:(lia)) as Hdm.
    destruct (n mod 8 =? 0) eqn:E.
    + apply Z.eqb_eq in E.
      replace (120 + n + 0) with (0 + (15 + n / 8) * 8) by lia.
      now rewrite Z_mod_plus_full.
    + replace (120 + n + (8 - n mod 8)) with (0 + (16 + n / 8) * 8) by lia.
      now rewrite Z_mod_plus_full.
Qed.

(** X18, witness: the request for "file.txt" with the chain A, B, C, whose
    create_contexts_offset the caller set; the chain starts at byte 128. *)
Lemma create_request_chain_position_witness :
  SMB2CreateContextRequest.pack_list
    [Samples.entry_A; Samples.entry_B; Samples.entry_C]
  = Ok (slice_from (120 + 8 + 0)
          (packed (SMB2PacketHeader.pack
                     (with_data SMB2PacketHeader.new Samples.chain3_wire)))).
Proof.
  refine (proj1 (create_request_chain_position SMB2PacketHeader.new
                   (Samples.chain_request
                      [Samples.entry_A; Samples.entry_B; Samples.entry_C])
                   Samples.chain3_wire
                   (packed (SMB2PacketHeader.pack
                              (with_data SMB2PacketHeader.new
                                 Samples.chain3_wire)))
                   eq_refl _ eq_refl eq_refl)).
  discriminate.
Defined.

(** ** The response parser on packed entries *)

Lemma slice_to_within (n : Z) (w rest : bytes) :
  0 <= n <= len w -> slice_to n (w ++ rest) = slice_to n w.
Proof.
  intros H. unfold slice_to, len in *. rewrite firstn_app.
  replace (Z.to_nat n - List.length w)%nat with 0%nat by lia.
  now rewrite firstn_O, app_nil_r.
Qed.

(** X19: the response parser splits a packed negotiate context off the bytes
    that follow it: for a context whose data length is not a multiple of 8,
    or is 8, it hands the entry's first 8 + data_length bytes to the entry
    decoder and resumes exactly behind the entry's padding. *)
Theorem response_entry_slices_pack (c : SMB2NegotiateContextRequest.t)
    (w rest : bytes) :
  SMB2NegotiateContextRequest.pack c = Ok w ->
  SMB2NegotiateContextRequest.get_data_length c mod 8 <> 0
  \/ SMB2NegotiateContextRequest.get_data_length c = 8 ->
  SMB2NegotiateResponse.entry_slices (w ++ rest)
  = Ok (slice_to (8 + SMB2NegotiateContextRequest.get_data_length c) w, rest).
Proof.
  intros H Hn. unfold SMB2NegotiateContextRequest.pack in H. pack_inv H.
  match goal with
  | Hd : SMB2NegotiateContextRequest.pack_data _ = Ok _ |- _ =>
      apply pack_data_len in Hd
  end.
  set (n := SMB2NegotiateContextRequest.get_data_length c) in *.
  assert (Hdn : SMB2NegotiateContextRequest.data_len
                  (SMB2NegotiateContextRequest.data c) = n) by congruence.
  assert (Hpad : SMB2NegotiateContextRequest._padding_size c
                 = if n mod 8 =? 0 then 0 else 8 - n mod 8).
  { unfold SMB2NegotiateContextRequest._padding_size. rewrite Hdn.
    destruct (Z.leb_spec n 8) as [E1|E1];
      destruct (Z.eqb_spec (n mod 8) 0) as [E2|E2].
    - destruct Hn as [Hn | Hn]; lia.
    - destruct (Z.eq_dec n 8) as [E8|E8];
        [exfalso; apply E2; now rewrite E8|].
      rewrite Z.mod_small by lia. reflexivity.
    - destruct Hn as [Hn | Hn]; lia.
    - reflexivity. }
  match goal with
  | |- SMB2NegotiateResponse.entry_slices (?e ++ rest) = _ =>
      set (W := e);
      assert (HW : slice_to 2 (slice_from 2 (W ++ rest))
                   = int_bytes LittleEndian 2 n);
      [|assert (Hlen : len W = 8 + n
                       + SMB2NegotiateContextRequest._padding_size c)]
  end.
  - unfold W. repeat rewrite <- app_assoc.
    rewrite (slice_from_app (int_bytes LittleEndian 2 _) _ 2)
      by apply len_int_bytes.
    apply slice_to_app, len_int_bytes.
  - unfold W. repeat rewrite len_app. repeat rewrite len_int_bytes. lia.
  - unfold SMB2NegotiateResponse.entry_slices. rewrite HW.
    unfold struct_unpack_H. rewrite int_bytes_length. cbn [Nat.eqb bind].
    change (le_value (int_bytes LittleEndian 2 n))
      with (int_value LittleEndian (int_bytes LittleEndian 2 n)).
    rewrite int_value_int_bytes by assumption.
    f_equal. f_equal.
    + rewrite Z.add_comm. apply slice_to_within.
      pose proof (len_nonneg (SMB2NegotiateContextRequest.get_padding c)).
      lia.
    + apply slice_from_app. rewrite Hlen, Hpad.
      destruct (Z.eqb_spec (n mod 8) 0); cbn [negb]; lia.
Qed.

(** X19, witness: the pre-authentication context (38 bytes of data) in
    front of the encryption context. *)
Lemma response_entry_slices_pack_witness :
  SMB2NegotiateResponse.entry_slices
    (Samples.preauth_wire ++ Samples.encryption_wire)
  = Ok (slice_to (8 + 38) Samples.preauth_wire, Samples.encryption_wire).
Proof.
  refine (response_entry_slices_pack Samples.preauth_context
            Samples.preauth_wire Samples.encryption_wire eq_refl _).
  left. discriminate.
Defined.

(** ** The counted context lists *)

Lemma request_for_idx_length (sr : short_read) (range : list nat) :
  forall data acc l,
    SMB3NegotiateRequest.for_idx sr range data acc = Ok l ->
    List.length l = (List.length acc + List.length range)%nat.
Proof.
  induction range as [|idx range IH]; intros data acc l H.
  - apply Ok_inj in H. subst l. cbn [List.length]. lia.
  - cbn [SMB3NegotiateRequest.for_idx] in H.
    apply bind_ok in H. destruct H as ([field rest] & _ & H).
    apply IH in H. rewrite H, length_app. cbn [List.length]. lia.
Qed.

Lemma response_for_idx_length (sr : short_read) (range : list nat) :
  forall data acc l,
    SMB2NegotiateResponse.for_idx sr range data acc = Ok l ->
    List.length l = (List.length acc + List.length range)%nat.
Proof.
  induction range as [|idx range IH]; intros data acc l H.
  - apply Ok_inj in H. subst l. cbn [List.length]. lia.
  - cbn [SMB2NegotiateResponse.for_idx] in H.
    apply bind_ok in H. destruct H as ([field rest] & _ & H).
    apply IH in H. rewrite H, length_app. cbn [List.length]. lia.
Qed.

(** X20: when the negotiate-context list of a request or of a response
    decodes, it holds exactly negotiate_context_count entries (none for a
    count of 0, whatever bytes are given). *)
Theorem negotiate_context_list_count (sr : short_read) (data : bytes)
    (l : list SMB2NegotiateContextRequest.t) :
  (forall s,
     SMB3NegotiateRequest._negotiate_context_list sr s data = Ok l ->
     len l = Z.max 0 (SMB3NegotiateRequest.get_negotiate_context_count s))
  /\ (forall s,
        SMB2NegotiateResponse._negotiate_context_list sr s data = Ok l ->
        len l = Z.max 0 (SMB2NegotiateResponse.get_negotiate_context_count s)).
Proof.
  split; intros s H.
  - apply request_for_idx_length in H.
    rewrite length_seq in H. cbn [List.length] in H. unfold len. lia.
  - apply response_for_idx_length in H.
    rewrite length_seq in H. cbn [List.length] in H. unfold len. lia.
Qed.

(** X20, witness: the sample response counts 2 contexts, and 2 are decoded
    from its context area when short byte fields are cut. *)
Lemma negotiate_context_list_count_witness :
  exists l,
    SMB2NegotiateResponse._negotiate_context_list Truncate
      Samples.negotiate_response
      (Samples.preauth_wire ++ Samples.encryption_wire) = Ok l
    /\ len l = 2.
Proof.
  destruct (SMB2NegotiateResponse._negotiate_context_list Truncate
              Samples.negotiate_response
              (Samples.preauth_wire ++ Samples.encryption_wire))
    as [l|e] eqn:E; [|vm_compute in E; discriminate].
  exists l. split; [reflexivity|].
  exact (proj2 (negotiate_context_list_count Truncate _ l)
           Samples.negotiate_response E).
Defined.

(** ** Round trips of the negotiate messages without contexts *)

(** X21: an SMB3NegotiateRequest without negotiate contexts (the count left
    unset) that packs also unpacks from its bytes, to the request that was
    packed with every field set to its resolved value, for every list of
    dialects. *)
Theorem negotiate_request_round_trip (sr : short_read)
    (s : SMB3NegotiateRequest.t) (b : bytes) :
  SMB3NegotiateRequest.negotiate_context_list s = [] ->
  SMB3NegotiateRequest.negotiate_context_count s = None ->
  SMB3NegotiateRequest.pack s = Ok b ->
  SMB3NegotiateRequest.unpack sr b = Ok (Resolved.negotiate_request s).
Proof.
  intros Hl Hc H.
  assert (H0 : SMB3NegotiateRequest.get_negotiate_context_count s = 0)
    by (unfold SMB3NegotiateRequest.get_negotiate_context_count;
        now rewrite Hc, Hl).
  unfold SMB3NegotiateRequest.pack in H. rewrite Hl in H.
  cbn [SMB2NegotiateContextRequest.pack_list bind] in H. pack_inv H.
  unfold SMB3NegotiateRequest.unpack. repeat rewrite <- app_assoc.
  do 5 unpack_int.
  rewrite BytesField_unpack_app by assumption. cbn [bind].
  do 3 unpack_int.
  erewrite int_list_unpack_pack by eassumption. cbn [bind].
  match goal with
  | |- context [SMB3NegotiateRequest._padding_size ?r] =>
      change (SMB3NegotiateRequest._padding_size r)
        with (SMB3NegotiateRequest._padding_size s)
  end.
  rewrite BytesField_unpack_app by assumption. cbn [bind].
  unfold SMB3NegotiateRequest._negotiate_context_list.
  match goal with
  | |- context [SMB3NegotiateRequest.get_negotiate_context_count ?r] =>
      change (SMB3NegotiateRequest.get_negotiate_context_count r)
        with (SMB3NegotiateRequest.get_negotiate_context_count s)
  end.
  rewrite H0. cbn [Z.to_nat seq SMB3NegotiateRequest.for_idx bind].
  unfold Resolved.negotiate_request. now rewrite Hl, H0.
Qed.

(** X21, witness: a request with four dialects and no contexts. *)
Lemma negotiate_request_round_trip_witness :
  SMB3NegotiateRequest.unpack Reject
    (packed (SMB3NegotiateRequest.pack MoreSamples.negotiate_request_plain))
  = Ok (Resolved.negotiate_request MoreSamples.negotiate_request_plain).
Proof.
  exact (negotiate_request_round_trip Reject
           MoreSamples.negotiate_request_plain
           (packed (SMB3NegotiateRequest.pack
                      MoreSamples.negotiate_request_plain))
           eq_refl eq_refl eq_refl).
Defined.

(** X22: an SMB2NegotiateResponse without negotiate contexts (the count
    left unset) that packs also unpacks from its bytes, to the response that
    was packed with every field set to its resolved value, whatever its
    dialect and security buffer. *)
Theorem negotiate_response_round_trip (sr : short_read)
    (s : SMB2NegotiateResponse.t) (b : bytes) :
  SMB2NegotiateResponse.negotiate_context_list s = [] ->
  SMB2NegotiateResponse.negotiate_context_count s = None ->
  SMB2NegotiateResponse.pack s = Ok b ->
  SMB2NegotiateResponse.unpack sr b = Ok (Resolved.negotiate_response s).
Proof.
  intros Hl Hc H.
  assert (H0 : SMB2NegotiateResponse.get_negotiate_context_count s = 0).
  { unfold SMB2NegotiateResponse.get_negotiate_context_count,
      SMB2NegotiateResponse._negotiate_context_count_value.
    rewrite Hc, Hl.
    now destruct (SMB2NegotiateResponse.get_dialect_revision s
                  =? Dialects.SMB_3_1_1). }
  unfold SMB2NegotiateResponse.pack in H. rewrite Hl in H.
  cbn [SMB2NegotiateContextRequest.pack_list bind] in H. pack_inv H.
  unfold SMB2NegotiateResponse.unpack. repeat rewrite <- app_assoc.
  do 4 unpack_int.
  rewrite BytesField_unpack_app by assumption. cbn [bind].
  do 9 unpack_int.
  rewrite BytesField_unpack_app by assumption. cbn [bind].
  match goal with
  | |- context [SMB2NegotiateResponse._padding_size ?r] =>
      change (SMB2NegotiateResponse._padding_size r)
        with (SMB2NegotiateResponse._padding_size s)
  end.
  rewrite BytesField_unpack_app by assumption. cbn [bind].
  unfold SMB2NegotiateResponse._negotiate_context_list.
  match goal with
  | |- context [SMB2NegotiateResponse.get_negotiate_context_count ?r] =>
      change (SMB2NegotiateResponse.get_negotiate_context_count r)
        with (SMB2NegotiateResponse.get_negotiate_context_count s)
  end.
  rewrite H0. cbn [Z.to_nat seq SMB2NegotiateResponse.for_idx bind].
  unfold Resolved.negotiate_response. now rewrite Hl, H0.
Qed.

(** X22, witness: the 3.0.2 response with a 3-byte security buffer. *)
Lemma negotiate_response_round_trip_witness :
  SMB2NegotiateResponse.unpack Reject
    (packed (SMB2NegotiateResponse.pack Samples.negotiate_response_302))
  = Ok (Resolved.negotiate_response Samples.negotiate_response_302).
Proof.
  exact (negotiate_response_round_trip Reject Samples.negotiate_response_302
           (packed (SMB2NegotiateResponse.pack
                      Samples.negotiate_response_302))
           eq_refl eq_refl eq_refl).
Defined.

(** ** The create-context chain, entry after entry *)

Lemma le_value_nonneg (b : bytes) : 0 <= le_value b.
Proof.
  induction b as [|x r IH]; cbn [le_value]; [lia|].
  unfold Z_of_byte. lia.
Qed.

Lemma IntField_unpack_nonneg (name : string) (n : nat) (o : byte_order)
    (data rest : bytes) (v : Z) :
  IntField_unpack name n o data = Ok (v, rest) -> 0 <= v.
Proof.
  unfold IntField_unpack.
  destruct (List.length data <? n)%nat; intros H; inversion H.
  destruct o; apply le_value_nonneg.
Qed.

Lemma BytesField_unpack_reject_len (name : string) (n : Z)
    (data v rest : bytes) :
  0 <= n ->
  BytesField_unpack Reject name (Some n) data = Ok (v, rest) -> len v = n.
Proof.
  intros Hn. unfold BytesField_unpack.
  destruct (Z.ltb_spec (len data) n) as [E|E]; intros H; inversion H.
  unfold slice_to, len in *. rewrite length_firstn. lia.
Qed.

Lemma create_padding_size_nonneg (c : SMB2CreateContextRequest.t) :
  0 <= SMB2CreateContextRequest._padding_size c.
Proof.
  unfold SMB2CreateContextRequest._padding_size.
  pose proof (Z.mod_pos_bound (SMB2CreateContextRequest.get_data_length c) 8
                ltac:(lia)).
  destruct (SMB2CreateContextRequest.get_data_length c =? 0); [lia|].
  destruct (SMB2CreateContextRequest.get_data_length c mod 8 =? 0); lia.
Qed.

(** The loop gives the same result for every fuel above the length of the
    buffer. *)
Lemma while_not_last_fuel (sr : short_read) (fuel1 : nat) :
  forall fuel2 data l,
    (List.length data < fuel1)%nat ->
    (List.length data < fuel2)%nat ->
    SMB2CreateRequest.while_not_last sr fuel1 data l
    = SMB2CreateRequest.while_not_last sr fuel2 data l.
Proof.
  induction fuel1 as [|fuel1 IH]; intros fuel2 data l H1 H2; [lia|].
  destruct fuel2 as [|fuel2]; [lia|].
  cbn [SMB2CreateRequest.while_not_last].
  destruct (SMB2CreateRequest._parse_create_context_entry sr data)
    as [[field rest]|e] eqn:E; [|reflexivity].
  destruct (SMB2CreateContextRequest.get_next field =? 0); [reflexivity|].
  apply parse_create_context_entry_shrinks in E. apply IH; lia.
Qed.

(** Behind an entry whose [next] is not 0 the decoder starts afresh. *)
Lemma buffer_context_list_step (sr : short_read) (s : SMB2CreateRequest.t)
    (data rest : bytes) (a : SMB2CreateContextRequest.t) :
  SMB2CreateRequest._parse_create_context_entry sr data = Ok (a, rest) ->
  SMB2CreateContextRequest.get_next a <> 0 ->
  SMB2CreateRequest._buffer_context_list sr s data
  = SMB2CreateRequest._buffer_context_list sr s rest.
Proof.
  intros Ha Hn. unfold SMB2CreateRequest._buffer_context_list.
  pose proof (parse_create_context_entry_shrinks _ _ _ _ Ha) as Hlt.
  rewrite (while_not_last_fuel sr (S (List.length rest)) (List.length data)
             rest []) by lia.
  cbn [SMB2CreateRequest.while_not_last]. rewrite Ha.
  apply Z.eqb_neq in Hn. now rewrite Hn.
Qed.

Lemma buffer_context_list_last (sr : short_read) (s : SMB2CreateRequest.t)
    (data rest : bytes) (a : SMB2CreateContextRequest.t) :
  SMB2CreateRequest._parse_create_context_entry sr data = Ok (a, rest) ->
  SMB2CreateContextRequest.get_next a = 0 ->
  exists l, SMB2CreateRequest._buffer_context_list sr s data = Some (Ok l).
Proof.
  intros Ha Hn. unfold SMB2CreateRequest._buffer_context_list.
  cbn [SMB2CreateRequest.while_not_last]. rewrite Ha.
  apply Z.eqb_eq in Hn. rewrite Hn. eauto.
Qed.

Lemma buffer_context_list_error (sr : short_read) (s : SMB2CreateRequest.t)
    (data : bytes) (e : error) :
  SMB2CreateRequest._parse_create_context_entry sr data = Err e ->
  SMB2CreateRequest._buffer_context_list sr s data = Some (Err e).
Proof.
  intros He. unfold SMB2CreateRequest._buffer_context_list.
  cbn [SMB2CreateRequest.while_not_last]. now rewrite He.
Qed.

Lemma parse_packed_entry (sr : short_read) (e : SMB2CreateContextRequest.t)
    (w rest : bytes) :
  SMB2CreateContextRequest.pack e = Ok w ->
  SMB2CreateRequest._parse_create_context_entry sr (w ++ rest)
  = Ok (Resolved.create_context e, rest).
Proof.
  intros H.
  destruct (create_context_unpack_pack sr e w rest H) as [Hu Hl].
  unfold SMB2CreateRequest._parse_create_context_entry.
  rewrite Hu. cbn [bind]. f_equal. f_equal.
  apply slice_from_app. rewrite Hl. reflexivity.
Qed.

(** A run of packed entries whose [next] is not 0 is walked through, entry
    by entry, whatever follows it. *)
Lemma buffer_context_list_chain (sr : short_read) (s : SMB2CreateRequest.t)
    (entries : list SMB2CreateContextRequest.t) :
  forall chain tail,
    SMB2CreateContextRequest.pack_list entries = Ok chain ->
    Forall (fun e => SMB2CreateContextRequest.get_next e <> 0) entries ->
    SMB2CreateRequest._buffer_context_list sr s (chain ++ tail)
    = SMB2CreateRequest._buffer_context_list sr s tail.
Proof.
  induction entries as [|e entries IH]; intros chain tail H Hall.
  - apply Ok_inj in H. now subst chain.
  - cbn [SMB2CreateContextRequest.pack_list] in H. pack_inv H.
    inversion Hall as [|e' l' He Hrest]; subst.
    rewrite <- app_assoc.
    match goal with
    | Hp : SMB2CreateContextRequest.pack e = Ok ?w |- _ =>
        rewrite (buffer_context_list_step sr s _ _ _
                   (parse_packed_entry sr e w _ Hp) He)
    end.
    now apply IH.
Qed.

Lemma header_cut_short_fails (sr : short_read) (s : SMB2CreateRequest.t)
    (data : bytes) :
  (List.length data < 16)%nat ->
  exists field,
    SMB2CreateRequest._buffer_context_list sr s data
    = Some (Err (DecodeError field)).
Proof.
  intros H. destruct (create_context_header_cut_short sr data H) as (f & Hf).
  exists f. apply buffer_context_list_error.
  unfold SMB2CreateRequest._parse_create_context_entry. now rewrite Hf.
Qed.

(** Splits the steps of a successful [unpack]. *)
Ltac unpack_inv H :=
  repeat (apply bind_ok in H;
          let v := fresh "v" in
          let d := fresh "d" in
          let Hv := fresh "Hv" in
          destruct H as ([v d] & Hv & H); cbn beta iota zeta in H).

(** When byte fields reject short input, an entry that decodes is whole. *)
Lemma reject_entry_complete (data rest : bytes)
    (a : SMB2CreateContextRequest.t) :
  SMB2CreateRequest._parse_create_context_entry Reject data = Ok (a, rest) ->
  entry_complete a.
Proof.
  unfold SMB2CreateRequest._parse_create_context_entry. intros H.
  apply bind_ok in H. destruct H as (c & Hc & H).
  inversion H; subst c rest; clear H.
  unfold SMB2CreateContextRequest.unpack in Hc. unpack_inv Hc.
  apply Ok_inj in Hc. subst a.
  repeat match goal with
  | Hi : IntField_unpack _ _ _ _ = Ok (_, _) |- _ =>
      apply IntField_unpack_nonneg in Hi
  end.
  repeat match goal with
  | Hb : BytesField_unpack Reject _ (Some _) _ = Ok (_, _) |- _ =>
      apply BytesField_unpack_reject_len in Hb;
        [|first [assumption | apply create_padding_size_nonneg]]
  end.
  unfold entry_complete. repeat split; assumption.
Qed.

(** When byte fields take what is left, every buffer of 16 bytes or more
    decodes as an entry. *)
Lemma truncate_entry_accepts (data : bytes) :
  (16 <= List.length data)%nat ->
  exists a rest,
    SMB2CreateRequest._parse_create_context_entry Truncate data = Ok (a, rest).
Proof.
  intros H.
  do 16 (destruct data as [|? data]; [cbn [List.length] in H; lia|]).
  clear H.
  unfold SMB2CreateRequest._parse_create_context_entry,
    SMB2CreateContextRequest.unpack, IntField_unpack.
  cbn [List.length Nat.ltb Nat.leb firstn skipn bind].
  unfold BytesField_unpack.
  repeat match goal with
  | |- context [if ?c then _ else _] => destruct c; cbn [bind]
  end;
  eexists; eexists; reflexivity.
Qed.

(** C8, amended: decoding a create-context chain always terminates, and
    [next] is only compared with 0, never with the buffer.  Parsing an
    entry leaves the bytes right behind the entry's decoded length; a
    failure of the entry decoder is handed on as it is; an entry with
    [next] = 0 ends the decoding with a list and no failure; and after an
    entry whose [next] is not 0, whatever offset it holds, the result is
    that of decoding the bytes right behind that entry.  So the bytes of any
    number of packed entries with a non-zero [next], followed by further
    bytes, decode as those further bytes do: to a list when they begin with
    a packed entry whose [next] is 0, to a decode failure when fewer than
    16 bytes are left for the fixed part of the next entry.  A buffer that
    ends inside the name, padding or data of an entry is a matter of the
    byte fields: when they reject short input, every entry that decodes is
    whole; when they take what is left, every buffer of at least 16 bytes
    decodes as an entry, so a cut entry is accepted. *)
Theorem create_chain_next_is_only_a_flag (sr : short_read)
    (s : SMB2CreateRequest.t) (data : bytes) :
  (exists r, SMB2CreateRequest._buffer_context_list sr s data = Some r)
  /\ (forall e,
        SMB2CreateRequest._parse_create_context_entry sr data = Err e ->
        SMB2CreateRequest._buffer_context_list sr s data = Some (Err e))
  /\ (forall a rest,
        SMB2CreateRequest._parse_create_context_entry sr data = Ok (a, rest) ->
        rest = slice_from (SMB2CreateContextRequest.length a) data
        /\ (SMB2CreateContextRequest.get_next a = 0 ->
            exists l,
              SMB2CreateRequest._buffer_context_list sr s data = Some (Ok l))
        /\ (SMB2CreateContextRequest.get_next a <> 0 ->
            SMB2CreateRequest._buffer_context_list sr s data
            = SMB2CreateRequest._buffer_context_list sr s rest))
  /\ (forall entries chain tail,
        SMB2CreateContextRequest.pack_list entries = Ok chain ->
        Forall (fun e => SMB2CreateContextRequest.get_next e <> 0) entries ->
        data = chain ++ tail ->
        SMB2CreateRequest._buffer_context_list sr s data
        = SMB2CreateRequest._buffer_context_list sr s tail
        /\ ((List.length tail < 16)%nat ->
            exists field,
              SMB2CreateRequest._buffer_context_list sr s data
              = Some (Err (DecodeError field)))
        /\ (forall last w extra,
              SMB2CreateContextRequest.pack last = Ok w ->
              SMB2CreateContextRequest.get_next last = 0 ->
              tail = w ++ extra ->
              exists l,
                SMB2CreateRequest._buffer_context_list sr s data
                = Some (Ok l)))
  /\ (sr = Reject ->
      forall a rest,
        SMB2CreateRequest._parse_create_context_entry sr data = Ok (a, rest) ->
        entry_complete a)
  /\ (sr = Truncate ->
      (16 <= List.length data)%nat ->
      exists a rest,
        SMB2CreateRequest._parse_create_context_entry sr data = Ok (a, rest)).
Proof.
  split; [|split; [|split; [|split; [|split]]]].
  - apply while_not_last_total. lia.
  - intros e He. now apply buffer_context_list_error.
  - intros a rest Ha. split; [|split].
    + unfold SMB2CreateRequest._parse_create_context_entry in Ha.
      apply bind_ok in Ha. destruct Ha as (c & _ & Ha).
      now inversion Ha.
    + intros Hn. exact (buffer_context_list_last sr s data rest a Ha Hn).
    + intros Hn. exact (buffer_context_list_step sr s data rest a Ha Hn).
  - intros entries chain tail Hp Hall ->.
    rewrite (buffer_context_list_chain sr s entries chain tail Hp Hall).
    split; [reflexivity | split].
    + apply header_cut_short_fails.
    + intros last w extra Hw Hn ->.
      exact (buffer_context_list_last sr s _ _ _
               (parse_packed_entry sr last w extra Hw) Hn).
  - intros -> a rest Ha. exact (reject_entry_complete data rest a Ha).
  - intros -> H16. now apply truncate_entry_accepts.
Qed.

(** C8, witness: a chain of 3 bytes; the chain with the far [next]; the
    chain A, B, C read as the run A, B followed by C, and the run A, B
    followed by one byte; and the chain with the far [next] whose second
    entry is cut, where the decoder stands at byte 40. *)
Lemma create_chain_next_is_only_a_flag_witness :
  SMB2CreateRequest._buffer_context_list Reject SMB2CreateRequest.new
    [x01; x02; x03] = Some (Err (DecodeError "next"))
  /\ SMB2CreateRequest._buffer_context_list Reject SMB2CreateRequest.new
       ChainSamples.far_chain
     = SMB2CreateRequest._buffer_context_list Reject SMB2CreateRequest.new
         (slice_from 40 ChainSamples.far_chain)
  /\ (exists l,
        SMB2CreateRequest._buffer_context_list Reject SMB2CreateRequest.new
          (slice_from 40 ChainSamples.far_chain) = Some (Ok l))
  /\ (exists l,
        SMB2CreateRequest._buffer_context_list Reject SMB2CreateRequest.new
          ChainSamples.chain3 = Some (Ok l))
  /\ (exists field,
        SMB2CreateRequest._buffer_context_list Reject SMB2CreateRequest.new
          (slice_to 80 ChainSamples.chain3 ++ [x01])
        = Some (Err (DecodeError field)))
  /\ (exists a rest,
        SMB2CreateRequest._parse_create_context_entry Reject
          ChainSamples.far_chain = Ok (a, rest)
        /\ entry_complete a)
  /\ (exists a rest,
        SMB2CreateRequest._parse_create_context_entry Truncate
          (slice_from 40 ChainSamples.cut_chain) = Ok (a, rest)).
Proof.
  split; [|split; [|split; [|split; [|split; [|split]]]]].
  - apply (proj1 (proj2 (create_chain_next_is_only_a_flag Reject
                           SMB2CreateRequest.new [x01; x02; x03]))).
    reflexivity.
  - destruct (proj1 (proj2 (proj2 (create_chain_next_is_only_a_flag Reject
                                     SMB2CreateRequest.new
                                     ChainSamples.far_chain)))
                (Resolved.create_context Samples.entry_far)
                (slice_from 40 ChainSamples.far_chain) eq_refl)
      as (_ & _ & Hstep).
    apply Hstep. vm_compute. discriminate.
  - destruct (proj1 (proj2 (proj2 (create_chain_next_is_only_a_flag Reject
                                     SMB2CreateRequest.new
                                     (slice_from 40 ChainSamples.far_chain))))
                (Resolved.create_context Samples.entry_C) [] eq_refl)
      as (_ & Hlast & _).
    apply Hlast. reflexivity.
  - destruct (proj1 (proj2 (proj2 (proj2
                (create_chain_next_is_only_a_flag Reject SMB2CreateRequest.new
                   ChainSamples.chain3))))
                [Samples.entry_A; Samples.entry_B]
                (slice_to 80 ChainSamples.chain3)
                (slice_from 80 ChainSamples.chain3))
      as (_ & _ & Hlast).
    + reflexivity.
    + repeat constructor; vm_compute; discriminate.
    + reflexivity.
    + apply (Hlast Samples.entry_C (slice_from 80 ChainSamples.chain3) []);
        reflexivity.
  - destruct (proj1 (proj2 (proj2 (proj2
                (create_chain_next_is_only_a_flag Reject SMB2CreateRequest.new
                   (slice_to 80 ChainSamples.chain3 ++ [x01])))))
                [Samples.entry_A; Samples.entry_B]
                (slice_to 80 ChainSamples.chain3) [x01])
      as (_ & Hshort & _).
    + reflexivity.
    + repeat constructor; vm_compute; discriminate.
    + reflexivity.
    + apply Hshort. cbn [List.length]. lia.
  - exists (Resolved.create_context Samples.entry_far),
      (slice_from 40 ChainSamples.far_chain).
    split; [reflexivity|].
    apply (proj1 (proj2 (proj2 (proj2 (proj2
             (create_chain_next_is_only_a_flag Reject SMB2CreateRequest.new
                ChainSamples.far_chain))))) eq_refl
             (Resolved.create_context Samples.entry_far)
             (slice_from 40 ChainSamples.far_chain)).
    reflexivity.
  - apply (proj2 (proj2 (proj2 (proj2 (proj2
             (create_chain_next_is_only_a_flag Truncate SMB2CreateRequest.new
                (slice_from 40 ChainSamples.cut_chain))))))).
    + reflexivity.
    + vm_compute. lia.
Defined.
